(** * FlashURL (URL_Shortener): cache, subnet rate limiter and expiry lifecycle

    A shallow embedding of [main.go]: the in-memory cache, the subnet-based
    rate limiter, the cleanup passes, the code generator, the duration
    formatter and the request handlers, followed by the properties of the
    specification that concern them.

    Conventions.
    - A Go [time.Time] is the number of nanoseconds elapsed since Go's zero
      time (January 1, year 1, UTC), an integer of [Z]; [time.Time{}] is [0].
      A [time.Duration] is an [int64] count of nanoseconds.  There is one
      clock: wall and monotonic readings are not told apart.
    - Every call of [time.Now()] is an explicit argument of the function that
      makes it, named after the variable or the line that receives it.
    - The MongoDB collection is a list of documents in insertion order,
      written by this server alone; a date goes to it as a BSON date, in
      whole milliseconds.  A store call takes a boolean saying whether the
      call went through ([true]) or failed or timed out ([false]).
    - Go maps are [gmap]s; a [*RateLimitInfo] stored in [rateLimitMap] is the
      entry of the map under its subnet, so a write through the pointer is an
      insertion under that key.
    - A Go string is its bytes, a [string] of the Standard Library.
    - [float64] is the binary64 format of the Standard Library's [SpecFloat],
      rounding to nearest even.
    - The handlers run one at a time: the interleaving of goroutines is not
      modelled. *)

From Stdlib Require Import ZArith String Ascii List Lia Bool DecimalString.
From Stdlib Require Import Floats.SpecFloat.
From stdpp Require Import base gmap strings list.

Open Scope Z_scope.

(** ** Go's [int] and [int64] *)

Definition wrap64 (z : Z) : Z := (z + 2 ^ 63) mod 2 ^ 64 - 2 ^ 63.

(** ** The [time] package: instants and durations *)

Module Time.

Definition Nanosecond : Z := 1.
Definition Microsecond : Z := 1000 * Nanosecond.
Definition Millisecond : Z := 1000 * Microsecond.
Definition Second : Z := 1000 * Millisecond.
Definition Minute : Z := 60 * Second.
Definition Hour : Z := 60 * Minute.

Definition minDuration : Z := - 2 ^ 63.
Definition maxDuration : Z := 2 ^ 63 - 1.

(** [time.Time{}] *)
Definition zero : Z := 0.

Definition IsZero (t : Z) : bool := t =? 0.
Definition Before (t u : Z) : bool := t <? u.
Definition After (t u : Z) : bool := u <? t.
Definition Add (t d : Z) : Z := t + d.

(** [t.Sub(u)] saturates at the ends of the [int64] range. *)
Definition Sub (t u : Z) : Z :=
  if t - u <? minDuration then minDuration
  else if maxDuration <? t - u then maxDuration
  else t - u.

End Time.

(** ** Constants of [main.go] *)

Definition expiryDays : Z := 365.
Definition maxURLsPerSubnet : Z := 10.
Definition cooldownHours : Z := 24.

(** ** Data model *)

Module URLData.
Record t := mk {
  Original : string;
  ShortCode : string;
  CreatedAt : Z;
  ExpiresAt : Z;
  CreatorIP : string;
  CreatorSubnet : string
}.
End URLData.

Module CacheItem.
Record t := mk {
  OriginalURL : string;
  ExpiresAt : Z
}.
End CacheItem.

Module RateLimitInfo.
Record t := mk {
  Count : Z;
  FirstSeen : Z;
  Cooldown : Z
}.
Definition setCooldown (c : Z) (i : t) : t := mk (Count i) (FirstSeen i) c.
Definition setCount (c : Z) (i : t) : t := mk c (FirstSeen i) (Cooldown i).
End RateLimitInfo.

(** The package-level variables [col], [cache] and [rateLimitMap]. *)
Record Server := mkServer {
  col : list URLData.t;
  cache : gmap string CacheItem.t;
  rateLimitMap : gmap string RateLimitInfo.t
}.

Definition setCol (c : list URLData.t) (s : Server) : Server :=
  mkServer c (cache s) (rateLimitMap s).
Definition setCache (c : gmap string CacheItem.t) (s : Server) : Server :=
  mkServer (col s) c (rateLimitMap s).
Definition setRateLimitMap (m : gmap string RateLimitInfo.t) (s : Server) : Server :=
  mkServer (col s) (cache s) m.

(** ** The persistent store *)

Module Store.

Inductive result (A : Type) : Type :=
| Ok (a : A)
| Err.
Arguments Ok {A} a.
Arguments Err {A}.

(** A [time.Time] goes to the database, in a document or as the bound of a
    filter, as a BSON date: whole milliseconds, what is below cut off.  The
    Unix epoch is a whole number of milliseconds after Go's zero time, so
    the cut is the same on either count. *)
Definition bsonDate (t : Z) : Z := t / Time.Millisecond * Time.Millisecond.

(** The document as the driver writes it and reads it back: its two dates
    as BSON dates.  An empty [creator_ip] or [creator_subnet] is left out
    ([omitempty]) and reads back as the empty string: in a document of the
    store, the empty string in one of these two fields is the field that is
    not there. *)
Definition written (u : URLData.t) : URLData.t :=
  URLData.mk (URLData.Original u) (URLData.ShortCode u)
             (bsonDate (URLData.CreatedAt u)) (bsonDate (URLData.ExpiresAt u))
             (URLData.CreatorIP u) (URLData.CreatorSubnet u).

(** The filters [main.go] builds.  The bound of [$lt] and of [$gte] is the
    BSON date of the instant the code passes.  So is the bound of [$gt];
    against the whole milliseconds a document carries, it selects the same
    documents as the instant itself, which is what [expiresAfter] compares
    with.  [{creator_subnet: subnet}] asks for a field that is there and
    equal: for the empty key it matches nothing. *)
Definition byShortCode (code : string) (u : URLData.t) : bool :=
  String.eqb (URLData.ShortCode u) code.
Definition expiresBefore (now : Z) (u : URLData.t) : bool :=
  URLData.ExpiresAt u <? bsonDate now.
Definition expiresAfter (now : Z) (u : URLData.t) : bool :=
  now <? URLData.ExpiresAt u.
Definition bySubnetSince (subnet : string) (since : Z) (u : URLData.t) : bool :=
  negb (String.eqb subnet "")
  && String.eqb (URLData.CreatorSubnet u) subnet
  && (bsonDate since <=? URLData.CreatedAt u).

Definition matching (p : URLData.t -> bool) (c : list URLData.t) : list URLData.t :=
  List.filter p c.

Definition CountDocuments (up : bool) (p : URLData.t -> bool) (c : list URLData.t)
  : result Z :=
  if up then Ok (Z.of_nat (length (matching p c))) else Err.

(** [FindOne(...).Decode(&u)]: the first matching document, an error when
    none matches or the call fails. *)
Definition FindOne (up : bool) (p : URLData.t -> bool) (c : list URLData.t)
  : result URLData.t :=
  if up then
    match matching p c with
    | u :: _ => Ok u
    | [] => Err
    end
  else Err.

(** [InsertOne]: the collection has no unique index, the document is
    appended, as the driver writes it. *)
Definition InsertOne (up : bool) (u : URLData.t) (c : list URLData.t)
  : result (list URLData.t) :=
  if up then Ok (c ++ [written u]) else Err.

(** [DeleteOne]: removes the first matching document. *)
Fixpoint deleteFirst (p : URLData.t -> bool) (c : list URLData.t) : list URLData.t :=
  match c with
  | [] => []
  | u :: c' => if p u then c' else u :: deleteFirst p c'
  end.

(** [DeleteMany]: removes every matching document and reports how many. *)
Definition DeleteMany (up : bool) (p : URLData.t -> bool) (c : list URLData.t)
  : result (Z * list URLData.t) :=
  if up then
    Ok (Z.of_nat (length (matching p c)), List.filter (fun u => negb (p u)) c)
  else Err.

End Store.

(** ** Rate limiter *)

Record CheckResult := mkCheck {
  allowed : bool;
  rateInfo : option RateLimitInfo.t;   (* [None] is the nil pointer *)
  failed : bool                        (* [err != nil] *)
}.

Definition checkRateLimit (now : Z) (up : bool) (subnet : string) (s : Server)
  : CheckResult * Server :=
  match rateLimitMap s !! subnet with
  | Some info =>
      let info :=
        if 24 * Time.Hour <=? Time.Sub now (RateLimitInfo.FirstSeen info)
        then RateLimitInfo.mk 0 now Time.zero
        else info in
      if negb (Time.IsZero (RateLimitInfo.Cooldown info))
         && Time.Before now (RateLimitInfo.Cooldown info)
      then (mkCheck false (Some info) false,
            setRateLimitMap (<[subnet := info]> (rateLimitMap s)) s)
      else
        let info :=
          if negb (Time.IsZero (RateLimitInfo.Cooldown info))
             && Time.After now (RateLimitInfo.Cooldown info)
          then RateLimitInfo.setCooldown Time.zero info
          else info in
        if maxURLsPerSubnet <=? RateLimitInfo.Count info
        then
          let info :=
            RateLimitInfo.setCooldown (Time.Add now (cooldownHours * Time.Hour)) info in
          (mkCheck false (Some info) false,
           setRateLimitMap (<[subnet := info]> (rateLimitMap s)) s)
        else
          (mkCheck true (Some info) false,
           setRateLimitMap (<[subnet := info]> (rateLimitMap s)) s)
  | None =>
      let oneDayAgo := Time.Add now (- 24 * Time.Hour) in
      match Store.CountDocuments up (Store.bySubnetSince subnet oneDayAgo) (col s) with
      | Store.Err => (mkCheck false None true, s)
      | Store.Ok count =>
          let info := RateLimitInfo.mk count now Time.zero in
          if maxURLsPerSubnet <=? count
          then
            let info :=
              RateLimitInfo.setCooldown (Time.Add now (cooldownHours * Time.Hour)) info in
            (mkCheck false (Some info) false,
             setRateLimitMap (<[subnet := info]> (rateLimitMap s)) s)
          else
            (mkCheck true (Some info) false,
             setRateLimitMap (<[subnet := info]> (rateLimitMap s)) s)
      end
  end.

(** [now] is the [time.Now()] of line 230, read only when the limit is
    reached. *)
Definition incrementRateLimit (now : Z) (subnet : string) (s : Server) : Server :=
  match rateLimitMap s !! subnet with
  | Some info =>
      let info := RateLimitInfo.setCount (wrap64 (RateLimitInfo.Count info + 1)) info in
      let info :=
        if maxURLsPerSubnet <=? RateLimitInfo.Count info
        then RateLimitInfo.setCooldown (Time.Add now (cooldownHours * Time.Hour)) info
        else info in
      setRateLimitMap (<[subnet := info]> (rateLimitMap s)) s
  | None => s
  end.

(** The sweep of the rate limiter, run by its own ticker
    ([startRateLimitCleanup]). *)
Definition cleanupRateLimitMap (now : Z) (s : Server) : Server :=
  setRateLimitMap
    (filter (fun kv => negb (24 * Time.Hour <? Time.Sub now (RateLimitInfo.FirstSeen kv.2)))
            (rateLimitMap s))
    s.

(** ** Cleanup *)

Inductive LogLine :=
| LogRunningCleanup
| LogCleanupError
| LogCleanupComplete (deleted cleaned : Z)
| LogInitialComplete (deleted : Z)
| LogCacheLoadError
| LogCacheLoaded (n : Z).

(** The cache sweep of [performCleanup] (lines 352-358). *)
Definition sweepCache (now : Z) (c : gmap string CacheItem.t) : gmap string CacheItem.t :=
  filter (fun kv => negb (Time.After now (CacheItem.ExpiresAt kv.2))) c.

Definition performCleanup (now : Z) (up : bool) (s : Server) : list LogLine * Server :=
  match Store.DeleteMany up (Store.expiresBefore now) (col s) with
  | Store.Err => ([LogRunningCleanup; LogCleanupError], s)
  | Store.Ok (deletedCount, col') =>
      let cache' := sweepCache now (cache s) in
      let cleanedCacheCount := Z.of_nat (size (cache s)) - Z.of_nat (size cache') in
      (LogRunningCleanup ::
         (if (0 <? deletedCount) || (0 <? cleanedCacheCount)
          then [LogCleanupComplete deletedCount cleanedCacheCount] else []),
       setCache cache' (setCol col' s))
  end.

(** [loadActiveCache]: every unexpired document is written to the cache in
    cursor order, a later document overwriting an earlier one with the same
    code. *)
Definition loadActiveCache (now : Z) (up : bool) (s : Server) : list LogLine * Server :=
  if up then
    let cache' :=
      fold_left
        (fun c u => <[URLData.ShortCode u :=
                        CacheItem.mk (URLData.Original u) (URLData.ExpiresAt u)]> c)
        (Store.matching (Store.expiresAfter now) (col s)) (cache s) in
    ([LogCacheLoaded (Z.of_nat (size cache'))], setCache cache' s)
  else ([LogCacheLoadError], s).

Definition initialCleanup (now now_load : Z) (up up_load : bool) (s : Server)
  : list LogLine * Server :=
  match Store.DeleteMany up (Store.expiresBefore now) (col s) with
  | Store.Err => ([LogRunningCleanup; LogCleanupError], s)
  | Store.Ok (deletedCount, col') =>
      let '(lg, s') := loadActiveCache now_load up_load (setCol col' s) in
      (LogRunningCleanup :: LogInitialComplete deletedCount :: lg, s')
  end.

(** The two tickers of [main]: [startPeriodicCleanup] and
    [startRateLimitCleanup], each with a goroutine of its own. *)
Inductive Ticker := periodicTicker | rateLimitTicker.

Definition onTick (tk : Ticker) (now : Z) (up : bool) (s : Server) : list LogLine * Server :=
  match tk with
  | periodicTicker => performCleanup now up s
  | rateLimitTicker => ([], cleanupRateLimitMap now s)
  end.

(** ** Code generator *)

Definition letters : string := "abcdefghijklmnopqrstuvwxyzABCDEFGHIJKLMNOPQRSTUVWXYZ".
Definition digits : string := "0123456789".
Definition allChars : string := letters +:+ digits.

Definition code_of (c : ascii) : Z := Z.of_N (N_of_ascii c).

Definition isLetter (c : ascii) : bool :=
  ((code_of "a" <=? code_of c) && (code_of c <=? code_of "z"))
  || ((code_of "A" <=? code_of c) && (code_of c <=? code_of "Z")).

Definition isDigit (c : ascii) : bool :=
  (code_of "0" <=? code_of c) && (code_of c <=? code_of "9").

(** [range] over a Go string yields runes; a rune below 128 is a single byte
    below 128 and every byte of a longer or invalid encoding is 128 or more,
    so the tests on ASCII classes below read the same byte by byte. *)
Fixpoint containsLetter (s : string) : bool :=
  match s with
  | EmptyString => false
  | String c s' => if isLetter c then true else containsLetter s'
  end.

Fixpoint containsDigit (s : string) : bool :=
  match s with
  | EmptyString => false
  | String c s' => if isDigit c then true else containsDigit s'
  end.

Inductive outcome (A : Type) : Type :=
| Returned (a : A)
| Panicked
| OutOfFuel.
Arguments Returned {A} a.
Arguments Panicked {A}.
Arguments OutOfFuel {A}.

(** [s[i]] for a Go string: a panic out of range. *)
Definition index (s : string) (i : Z) : option ascii :=
  if (0 <=? i) && (i <? Z.of_nat (String.length s)) then String.get (Z.to_nat i) s
  else None.

(** The inner loop of [genCode]: [n] bytes, the [j]-th taken at the index
    the [(k + j)]-th call of [rand.Intn(len(allChars))] returned. *)
Fixpoint fillCode (rnd : nat -> Z) (n k : nat) : option string :=
  match n with
  | O => Some EmptyString
  | S n' =>
      match index allChars (rnd k), fillCode rnd n' (S k) with
      | Some c, Some s => Some (String c s)
      | _, _ => None
      end
  end.

(** The outer [for] of [genCode], with [fuel] bounding its iterations;
    [k] counts the calls of [rand.Intn] made so far. *)
Fixpoint genCodeLoop (rnd : nat -> Z) (n : nat) (fuel k : nat) : outcome string :=
  match fuel with
  | O => OutOfFuel
  | S fuel' =>
      match fillCode rnd n k with
      | None => Panicked
      | Some code =>
          if containsLetter code && containsDigit code then Returned code
          else genCodeLoop rnd n fuel' (k + n)%nat
      end
  end.

(** [make([]byte, n)] panics on a negative length. *)
Definition genCode (rnd : nat -> Z) (fuel : nat) (n : Z) : outcome string :=
  if n <? 0 then Panicked else genCodeLoop rnd (Z.to_nat n) fuel 0.

Definition isAlphanumericLoop : string -> bool -> bool -> bool :=
  fix go (s : string) (hasLetter hasDigit : bool) : bool :=
    match s with
    | EmptyString => hasLetter && hasDigit
    | String c s' =>
        if isLetter c then go s' true hasDigit
        else if isDigit c then go s' hasLetter true
        else false
    end.

Definition isAlphanumeric (s : string) : bool :=
  if negb (Nat.eqb (String.length s) 6) then false
  else isAlphanumericLoop s false false.

(** ** [float64]: IEEE 754 binary64, round to nearest even *)

Module Float64.

Definition prec : Z := 53.
Definition emax : Z := 1024.

(** [float64(z)] for an integer [z]. *)
Definition ofInt (z : Z) : spec_float := binary_normalize prec emax z 0 false.

Definition add : spec_float -> spec_float -> spec_float := SFadd prec emax.
Definition div : spec_float -> spec_float -> spec_float := SFdiv prec emax.

(** [int(f)]: the fraction is discarded.  Outside the [int64] range, and
    for an infinity or a NaN, the result is the one amd64 gives. *)
Definition toInt (f : spec_float) : Z :=
  match f with
  | S754_zero _ => 0
  | S754_finite sg m e =>
      let a := if 0 <=? e then Z.pos m * 2 ^ e else Z.pos m / 2 ^ (- e) in
      let v := if sg then - a else a in
      if (- 2 ^ 63 <=? v) && (v <? 2 ^ 63) then v else - 2 ^ 63
  | _ => - 2 ^ 63
  end.

(** The value of a finite non-negative [float64], in units of [2^-1074]
  (the least positive [float64]); [0] for the others. *)
Definition units (f : spec_float) : Z :=
match f with
| S754_finite false m e => Z.pos m * 2 ^ (e + 1074)
| _ => 0
end.

(** Zero, or positive with a 53-bit mantissa and an exponent between [lo]
  and [hi]. *)
Definition within (lo hi : Z) (f : spec_float) : Prop :=
match f with
| S754_zero false => True
| S754_finite false m e => 2 ^ 52 <= Z.pos m < 2 ^ 53 /\ lo <= e <= hi
| _ => False
end.

(** [v] is the exact quotient [a / b] moved to one of its two neighbours on
  a grid of step [2^g], the step on which the quotient has 53 bits. *)
Definition rounded (a b v : Z) : Prop :=
exists g m,
  0 <= g /\ 2 ^ 52 <= a / (b * 2 ^ g)
  /\ a / (b * 2 ^ g) <= m <= a / (b * 2 ^ g) + 1
  /\ v = m * 2 ^ g.

End Float64.

(** A duration [d] counted in units of [unit] nanoseconds, the way the
    [time] package does it: the whole units plus the remainder divided, in
    [float64]. *)
Definition inUnits (unit d : Z) : spec_float :=
  Float64.add (Float64.ofInt (Z.quot d unit))
              (Float64.div (Float64.ofInt (Z.rem d unit)) (Float64.ofInt unit)).

(** [Duration.Hours], [Duration.Minutes] and [Duration.Seconds] of the
    [time] package: the whole units plus the remainder divided, in
    [float64]. *)
Definition Hours (d : Z) : spec_float :=
  Float64.add (Float64.ofInt (Z.quot d Time.Hour))
              (Float64.div (Float64.ofInt (Z.rem d Time.Hour))
                           (Float64.ofInt (60 * 60 * 10 ^ 9))).

Definition Minutes (d : Z) : spec_float :=
  Float64.add (Float64.ofInt (Z.quot d Time.Minute))
              (Float64.div (Float64.ofInt (Z.rem d Time.Minute))
                           (Float64.ofInt (60 * 10 ^ 9))).

Definition Seconds (d : Z) : spec_float :=
  Float64.add (Float64.ofInt (Z.quot d Time.Second))
              (Float64.div (Float64.ofInt (Z.rem d Time.Second))
                           (Float64.ofInt (10 ^ 9))).

(** ** [fmt.Sprintf] verbs *)

Module Fmt.

(** [%d] *)
Definition d (z : Z) : string := NilZero.string_of_int (Z.to_int z).

Definition hexDigit (n : Z) : ascii :=
  match index "0123456789abcdef" n with
  | Some c => c
  | None => "?"%char
  end.

(** [%02x] of a byte *)
Definition x02 (b : Byte.byte) : string :=
  let n := Z.of_N (Byte.to_N b) in
  String (hexDigit (n / 16)) (String (hexDigit (n mod 16)) EmptyString).

Definition byte (b : Byte.byte) : string := d (Z.of_N (Byte.to_N b)).

End Fmt.

(** ** Duration formatting *)

Definition formatDuration (d : Z) : string :=
  if d <? 0 then "0 seconds"
  else
    let days := Float64.toInt (Float64.div (Hours d) (Float64.ofInt 24)) in
    let hours := Z.rem (Float64.toInt (Hours d)) 24 in
    let minutes := Z.rem (Float64.toInt (Minutes d)) 60 in
    let seconds := Z.rem (Float64.toInt (Seconds d)) 60 in
    if 0 <? days then Fmt.d days +:+ " days " +:+ Fmt.d hours +:+ " hours"
    else if 0 <? hours then Fmt.d hours +:+ " hours " +:+ Fmt.d minutes +:+ " minutes"
    else if 0 <? minutes then Fmt.d minutes +:+ " minutes " +:+ Fmt.d seconds +:+ " seconds"
    else Fmt.d seconds +:+ " seconds".

(** ** Client address and subnet *)

Record Request := mkRequest {
  XForwardedFor : string;   (* [r.Header.Get], empty when the header is absent *)
  XRealIP : string;
  RemoteAddr : string;
  Host : string;
  Path : string;            (* [r.URL.Path] *)
  Body : option string      (* the decoded [url] field, [None] when decoding fails *)
}.

(** [strings.Split(s, sep)[0]] for a one-byte separator. *)
Fixpoint splitHead (sep : ascii) (s : string) : string :=
  match s with
  | EmptyString => EmptyString
  | String c s' => if Ascii.eqb c sep then EmptyString else String c (splitHead sep s')
  end.

(** [strings.TrimPrefix] *)
Definition TrimPrefix (s p : string) : string :=
  if String.prefix p s then String.substring (String.length p) (String.length s - String.length p) s
  else s.

(** [strings.HasPrefix] *)
Definition HasPrefix (s p : string) : bool := String.prefix p s.

Module IP.

(** [net.IP.To4] *)
Definition isZeros (l : list Byte.byte) : bool :=
  forallb (fun b => N.eqb (Byte.to_N b) 0) l.

Definition To4 (ip : list Byte.byte) : option (list Byte.byte) :=
  if Nat.eqb (length ip) 4 then Some ip
  else if Nat.eqb (length ip) 16
          && isZeros (firstn 10 ip)
          && N.eqb (Byte.to_N (nth 10 ip Byte.x00)) 255
          && N.eqb (Byte.to_N (nth 11 ip Byte.x00)) 255
  then Some (firstn 4 (skipn 12 ip))
  else None.

(** [net.IP.To16] *)
Definition To16 (ip : list Byte.byte) : option (list Byte.byte) :=
  if Nat.eqb (length ip) 4
  then Some (repeat Byte.x00 10 ++ [Byte.xff; Byte.xff] ++ ip)
  else if Nat.eqb (length ip) 16 then Some ip
  else None.

End IP.

Section Net.

(** [net.ParseIP] and [strings.TrimSpace] of Go's library; [None] is the
    nil [net.IP]. *)
Variable ParseIP : string -> option (list Byte.byte).
Variable TrimSpace : string -> string.

Definition getClientIP (r : Request) : string :=
  if negb (String.eqb (XForwardedFor r) "")
  then TrimSpace (splitHead "," (XForwardedFor r))
  else if negb (String.eqb (XRealIP r) "") then XRealIP r
  else splitHead ":" (RemoteAddr r).

(** The body of [getClientSubnet] after [ipStr := getClientIP(r)]. *)
Definition subnetOf (ipStr : string) : string :=
  match ParseIP ipStr with
  | None => ipStr
  | Some ip =>
      match IP.To4 ip with
      | Some ipv4 =>
          Fmt.byte (nth 0 ipv4 Byte.x00) +:+ "." +:+ Fmt.byte (nth 1 ipv4 Byte.x00)
            +:+ "." +:+ Fmt.byte (nth 2 ipv4 Byte.x00) +:+ ".0/24"
      | None =>
          match IP.To16 ip with
          | Some ipv6 =>
              Fmt.x02 (nth 0 ipv6 Byte.x00) +:+ Fmt.x02 (nth 1 ipv6 Byte.x00) +:+ ":"
                +:+ Fmt.x02 (nth 2 ipv6 Byte.x00) +:+ Fmt.x02 (nth 3 ipv6 Byte.x00) +:+ ":"
                +:+ Fmt.x02 (nth 4 ipv6 Byte.x00) +:+ Fmt.x02 (nth 5 ipv6 Byte.x00) +:+ ":"
                +:+ Fmt.x02 (nth 6 ipv6 Byte.x00) +:+ Fmt.x02 (nth 7 ipv6 Byte.x00)
                +:+ "::/64"
          | None => ipStr
          end
      end
  end.

Definition getClientSubnet (r : Request) : string := subnetOf (getClientIP r).

End Net.

(** ** HTTP responses

    Instants are kept as they are: the RFC 3339 rendering of [time.Format]
    is left out. *)

Record RateLimitedBody := mkRateLimited {
  rl_message : string;
  rl_limit : Z;
  rl_subnet : string;
  rl_client_ip : string;
  rl_cooldown_until : Z;
  rl_cooldown_remaining : string
}.

Record ShortenedBody := mkShortened {
  sh_short_url : string;
  sh_original_url : string;
  sh_created_at : Z;
  sh_expires_at : Z;
  sh_expires_in : string;
  sh_short_code : string;
  sh_ip : string;
  sh_subnet : string;
  sh_remaining : Z;
  sh_limit : Z;
  sh_reset_in : string
}.

Inductive Response :=
| HttpError (msg : string) (code : Z)           (* [http.Error] *)
| TooManyRequests (b : RateLimitedBody)         (* 429, [rate_limit_exceeded] *)
| Shortened (b : ShortenedBody)                 (* 200, [success: true] *)
| Redirect (url : string) (code : Z)            (* [http.Redirect] *)
| NotFound                                      (* [http.NotFound] *)
| ServeFile (name : string)
| Listing (count : Z) (items : gmap string CacheItem.t) (server_time : Z).

Definition status (r : Response) : Z :=
  match r with
  | HttpError _ code => code
  | TooManyRequests _ => 429
  | Shortened _ => 200
  | Redirect _ code => code
  | NotFound => 404
  | ServeFile _ => 200
  | Listing _ _ _ => 200
  end.

(** ** Request handlers *)

(** What [shortenHandler] reads from outside the request: the clock at each
    [time.Now()], the outcome of its two store calls and the random source
    of [genCode]. *)
Record ShortenEnv := mkShortenEnv {
  now_check : Z;      (* line 158, in [checkRateLimit] *)
  now_denied : Z;     (* line 438 *)
  now_create : Z;     (* line 466 *)
  now_commit : Z;     (* line 230, in [incrementRateLimit] *)
  now_since : Z;      (* line 521, [time.Since] *)
  count_up : bool;    (* [CountDocuments] *)
  insert_up : bool;   (* [InsertOne] *)
  rnd : nat -> Z;     (* the successive results of [rand.Intn(len(allChars))] *)
  fuel : nat          (* bound on the iterations of [genCode] *)
}.

Section Handlers.

Variable ParseIP : string -> option (list Byte.byte).
Variable TrimSpace : string -> string.

Definition shortenHandler (env : ShortenEnv) (r : Request) (s : Server)
  : outcome (Response * Server) :=
  let clientIP := getClientIP TrimSpace r in
  let clientSubnet := getClientSubnet ParseIP TrimSpace r in
  let '(chk, s) := checkRateLimit (now_check env) (count_up env) clientSubnet s in
  if failed chk then Returned (HttpError "internal server error" 500, s)
  else if negb (allowed chk) then
    match rateInfo chk with
    | None => Panicked
    | Some info =>
        let remainingTime := Time.Sub (RateLimitInfo.Cooldown info) (now_denied env) in
        Returned
          (TooManyRequests
             (mkRateLimited
                ("Subnet " +:+ clientSubnet +:+ " telah membuat "
                   +:+ Fmt.d maxURLsPerSubnet +:+ " shortlink hari ini. Cooldown "
                   +:+ formatDuration remainingTime)
                maxURLsPerSubnet clientSubnet clientIP
                (RateLimitInfo.Cooldown info) (formatDuration remainingTime)),
           s)
    end
  else
    match Body r with
    | None => Returned (HttpError "bad request" 400, s)
    | Some url =>
        if negb (HasPrefix url "http") then Returned (HttpError "invalid url" 400, s)
        else
          match genCode (rnd env) (fuel env) 6 with
          | Panicked => Panicked
          | OutOfFuel => OutOfFuel
          | Returned code =>
              let now := now_create env in
              let exp := Time.Add now (expiryDays * 24 * Time.Hour) in
              let data := URLData.mk url code now exp clientIP clientSubnet in
              match Store.InsertOne (insert_up env) data (col s) with
              | Store.Err => Returned (HttpError "database error" 500, s)
              | Store.Ok col' =>
                  let s := setCol col' s in
                  let s := setCache (<[code := CacheItem.mk url exp]> (cache s)) s in
                  let s := incrementRateLimit (now_commit env) clientSubnet s in
                  let host := if String.eqb (Host r) "" then "localhost:5000" else Host r in
                  let shortURL := "http://" +:+ host +:+ "/" +:+ code in
                  (* [rateInfo] points into [rateLimitMap]: it is read after
                     the increment *)
                  match rateLimitMap s !! clientSubnet with
                  | None => Panicked
                  | Some info =>
                      let remaining :=
                        wrap64 (wrap64 (maxURLsPerSubnet - RateLimitInfo.Count info) - 1) in
                      let remaining := if remaining <? 0 then 0 else remaining in
                      Returned
                        (Shortened
                           (mkShortened shortURL url now exp
                              (formatDuration (Time.Sub exp now)) code clientIP clientSubnet
                              remaining maxURLsPerSubnet
                              (formatDuration
                                 (wrap64 (24 * Time.Hour
                                          - Time.Sub (now_since env)
                                                     (RateLimitInfo.FirstSeen info))))),
                         s)
                  end
              end
          end
    end.

End Handlers.

(** [del_up] says whether the [DeleteOne] of line 551, whose result the code
    discards, goes through. *)
Definition redirectHandler (now : Z) (find_up del_up : bool) (code : string) (s : Server)
  : Response * Server :=
  let hit :=
    match cache s !! code with
    | Some c =>
        if Time.Before now (CacheItem.ExpiresAt c)
        then inl (CacheItem.OriginalURL c)
        else inr (setCache (delete code (cache s)) s)
    | None => inr s
    end in
  match hit with
  | inl url => (Redirect url 302, s)
  | inr s =>
      match Store.FindOne find_up (Store.byShortCode code) (col s) with
      | Store.Ok u =>
          if Time.Before now (URLData.ExpiresAt u)
          then
            (Redirect (URLData.Original u) 302,
             setCache (<[code := CacheItem.mk (URLData.Original u) (URLData.ExpiresAt u)]>
                         (cache s)) s)
          else
            (NotFound,
             if del_up then setCol (Store.deleteFirst (Store.byShortCode code) (col s)) s
             else s)
      | Store.Err => (NotFound, s)
      end
  end.

Definition mainHandler (now : Z) (find_up del_up : bool) (r : Request) (s : Server)
  : Response * Server :=
  let path := TrimPrefix (Path r) "/" in
  if String.eqb path "" then (ServeFile "index.html", s)
  else if Nat.eqb (String.length path) 6 && isAlphanumeric path
  then redirectHandler now find_up del_up path s
  else (NotFound, s).

Definition listHandler (now : Z) (s : Server) : Response * Server :=
  let activeItems :=
    filter (fun kv => Time.Before now (CacheItem.ExpiresAt kv.2)) (cache s) in
  (Listing (Z.of_nat (size activeItems)) activeItems now, s).

(** ** Runs used in the statements below *)

(** One creation as the rate limiter sees it: the check of [shortenHandler]
    at [tc] and, when it admits the request, the commit at [ti]. *)
Definition createOnce (subnet : string) (up : bool) (t : Z * Z) (s : Server)
  : option Server :=
  let '(chk, s') := checkRateLimit t.1 up subnet s in
  if allowed chk then Some (incrementRateLimit t.2 subnet s') else None.

Fixpoint createMany (subnet : string) (up : bool) (ts : list (Z * Z)) (s : Server)
  : option Server :=
  match ts with
  | [] => Some s
  | t :: ts' =>
      match createOnce subnet up t s with
      | Some s' => createMany subnet up ts' s'
      | None => None
      end
  end.



(** The short codes held by the store. *)
Definition codes (c : list URLData.t) : list string := List.map URLData.ShortCode c.

(** [strings.Split] for a one-byte separator. *)
Fixpoint splitOn (sep : ascii) (s : string) : list string :=
  match s with
  | EmptyString => [EmptyString]
  | String c s' =>
      if Ascii.eqb c sep then EmptyString :: splitOn sep s'
      else
        match splitOn sep s' with
        | f :: fs => String c f :: fs
        | [] => [String c EmptyString]
        end
  end.

Fixpoint decimalValue (s : string) (acc : Z) : option Z :=
  match s with
  | EmptyString => Some acc
  | String c s' => if isDigit c then decimalValue s' (10 * acc + (code_of c - 48)) else None
  end.

Definition parseOctet (f : string) : option Byte.byte :=
  match f with
  | EmptyString => None
  | String c f' =>
      if (3 <? Z.of_nat (String.length f))
         || (Ascii.eqb c "0" && negb (String.eqb f' EmptyString))
      then None
      else
        match decimalValue f 0 with
        | Some v => if v <=? 255 then Byte.of_N (Z.to_N v) else None
        | None => None
        end
  end.

(** [net.ParseIP] on dotted-decimal IPv4 text, which it returns in the
    16-byte form; any other text, IPv6 included, is outside this reading and
    is left unparsed.  It stands for [net.ParseIP] where a handler is run on
    a concrete request with an IPv4 peer. *)
Definition parseDottedQuad (s : string) : option (list Byte.byte) :=
  match List.map parseOctet (splitOn "." s) with
  | [Some a; Some b; Some c; Some d] =>
      Some (repeat Byte.x00 10 ++ [Byte.xff; Byte.xff; a; b; c; d])
  | _ => None
  end.

Definition isASCIISpace (c : ascii) : bool :=
  (code_of c =? 32) || ((9 <=? code_of c) && (code_of c <=? 13)).

Fixpoint trimLeft (s : string) : string :=
  match s with
  | String c s' => if isASCIISpace c then trimLeft s' else s
  | EmptyString => EmptyString
  end.

Fixpoint trimRight (s : string) : string :=
  match s with
  | EmptyString => EmptyString
  | String c s' =>
      match trimRight s' with
      | EmptyString => if isASCIISpace c then EmptyString else String c EmptyString
      | r => String c r
      end
  end.

(** [strings.TrimSpace] on ASCII text. *)
Definition trimASCIISpace (s : string) : string := trimRight (trimLeft s).



(** ** Concrete runs *)

Definition demoSubnet : string := "203.0.113.0/24".
Definition demoStart : Z := 1000 * Time.Hour.
Definition emptyServer : Server := mkServer [] ∅ ∅.

(** Ten creations, one an hour, each committed a second after its check. *)
Definition tenCreations : list (Z * Z) :=
  List.map (fun i => (demoStart + Z.of_nat i * Time.Hour,
                      demoStart + Z.of_nat i * Time.Hour + Time.Second)) (seq 0 10).

(** A subnet that has reached the limit without a cooldown being set. *)
Definition atLimitServer : Server :=
  mkServer [] ∅ (<[demoSubnet := RateLimitInfo.mk 10 demoStart Time.zero]> ∅).

(** A character of [[a-zA-Z0-9]]. *)
Definition isAlnum (c : ascii) : bool := isLetter c || isDigit c.

(** The bytes of a string. *)
Definition chars (s : string) : list ascii := list_ascii_of_string s.

(** A random source on which [genCode 6] returns at its first attempt. *)
Definition alternatingSource (k : nat) : Z := if Nat.even k then 0 else 52.

Definition demoCode : string := "a0a0a0".

(** A link that expired at hour 10, still in the store and in the cache,
    and a subnet whose window opened at hour 1. *)
Definition staleLink : URLData.t :=
  URLData.mk "https://example.com/old" demoCode Time.Hour (10 * Time.Hour)
             "203.0.113.7" demoSubnet.

Definition staleServer : Server :=
  mkServer [staleLink]
           (<[demoCode := CacheItem.mk "https://example.com/old" (10 * Time.Hour)]> ∅)
           (<[demoSubnet := RateLimitInfo.mk 1 Time.Hour Time.zero]> ∅).

(** A live link created at [demoStart], in the store and in the cache. *)
Definition liveLink : URLData.t :=
  URLData.mk "https://example.com/first" demoCode demoStart
             (demoStart + expiryDays * 24 * Time.Hour) "203.0.113.7" demoSubnet.

Definition liveServer : Server :=
  mkServer [liveLink]
           (<[demoCode := CacheItem.mk "https://example.com/first"
                                       (demoStart + expiryDays * 24 * Time.Hour)]> ∅)
           ∅.

Definition demoRedirect : Request :=
  mkRequest "" "" "198.51.100.9:40000" "sho.rt" "/a0a0a0" None.

(** A create request from 198.51.100.9 and the environment it runs in: the
    store answers, the clock advances by a millisecond between readings and
    the random source draws [a0a0a0]. *)
Definition demoCreate (url : string) : Request :=
  mkRequest "" "" "198.51.100.9:40000" "sho.rt" "/api/shorten" (Some url).

Definition demoEnv : ShortenEnv :=
  mkShortenEnv (demoStart + Time.Hour)
               (demoStart + Time.Hour + Time.Millisecond)
               (demoStart + Time.Hour + 2 * Time.Millisecond)
               (demoStart + Time.Hour + 3 * Time.Millisecond)
               (demoStart + Time.Hour + 4 * Time.Millisecond)
               true true alternatingSource 1.

(** What [demoCreate "https://example.com"] leaves of the empty server, and
    the body of its answer. *)
Definition createdLink : URLData.t :=
  URLData.mk "https://example.com" demoCode (now_create demoEnv)
             (now_create demoEnv + expiryDays * 24 * Time.Hour)
             "198.51.100.9" "198.51.100.0/24".

Definition createdServer : Server :=
  mkServer [createdLink]
           (<[demoCode := CacheItem.mk "https://example.com"
                            (now_create demoEnv + expiryDays * 24 * Time.Hour)]> ∅)
           (<["198.51.100.0/24" := RateLimitInfo.mk 1 (now_check demoEnv) Time.zero]> ∅).

Definition createdBody : ShortenedBody :=
  mkShortened "http://sho.rt/a0a0a0" "https://example.com"
              (now_create demoEnv) (now_create demoEnv + expiryDays * 24 * Time.Hour)
              "365 days 0 hours" demoCode "198.51.100.9" "198.51.100.0/24" 8 10
              "23 hours 59 minutes".

(** The scheme of an absolute URL: the text before its first colon. *)
Definition urlScheme (url : string) : string := splitHead ":" url.

(** [net.IPv4(a, b, c, d)]: the 16-byte form of an IPv4 address. *)
Definition IPv4 (a b c d : Byte.byte) : list Byte.byte :=
  repeat Byte.x00 10 ++ [Byte.xff; Byte.xff; a; b; c; d].

(** [parseDottedQuad] extended with one IPv6 literal,
    [2001:db8:85a3:8d3:1319:8a2e:370:7348]. *)
Definition parseWithLiteral (s : string) : option (list Byte.byte) :=
  if String.eqb s "2001:db8:85a3:8d3:1319:8a2e:370:7348"
  then Some [Byte.x20; Byte.x01; Byte.x0d; Byte.xb8; Byte.x85; Byte.xa3; Byte.x08; Byte.xd3;
             Byte.x13; Byte.x19; Byte.x8a; Byte.x2e; Byte.x03; Byte.x70; Byte.x73; Byte.x48]
  else parseDottedQuad s.

(** ** Statistics and health *)

(** The two counters of the loop over [cache] in [statsHandler]
    (lines 584-590): the active entries first, the expired ones second.  A
    counter of the entries of a map stays below its length, so [++] does
    not wrap. *)
Definition countCache (now : Z) (c : gmap string CacheItem.t) : Z * Z :=
  map_fold (fun _ item n =>
              if Time.Before now (CacheItem.ExpiresAt item) then (n.1 + 1, n.2)
              else (n.1, n.2 + 1))
           (0, 0) c.

(** The counter of the loop over [rateLimitMap] (lines 595-599). *)
Definition countCooldown (now : Z) (m : gmap string RateLimitInfo.t) : Z :=
  map_fold (fun _ info n =>
              if negb (Time.IsZero (RateLimitInfo.Cooldown info))
                 && Time.Before now (RateLimitInfo.Cooldown info)
              then n + 1 else n)
           0 m.

(** The empty filter [bson.M{}]. *)
Definition anyDocument (u : URLData.t) : bool := true.

(** A value of a decoded [bson.M], as far as [statsHandler] tells them
    apart: [BsonOther] is any value that is not an integer, a missing key
    included. *)
Inductive BsonValue :=
| BsonInt32 (z : Z)
| BsonInt64 (z : Z)
| BsonOther.

(** What [statsHandler] reads from outside: the clock, the outcome of its
    two [CountDocuments] and, for the pipeline of lines 639-651, which runs
    in the database, the [unique_subnets] field of each document that
    [Aggregate] and [cursor.All] hand back, [None] when either call fails. *)
Record StatsEnv := mkStatsEnv {
  stats_now : Z;
  total_up : bool;
  active_up : bool;
  aggregated : option (list BsonValue)
}.

(** The body of the answer of [/api/stats]; an optional field is a key that
    is set only when its query went through.  [next_cleanup] is kept as an
    instant. *)
Record StatsBody := mkStats {
  st_server_time : Z;
  st_cache_total : Z;
  st_cache_active : Z;
  st_cache_expired : Z;
  st_max_per_subnet : Z;
  st_cooldown_hours : Z;
  st_total_tracked_subnets : Z;
  st_subnets_in_cooldown : Z;
  st_limit_based_on : string;
  st_cleanup_schedule : string;
  st_next_cleanup : Z;
  st_database_total : option Z;
  st_database_active : option Z;
  st_unique_creator_subnets : option Z
}.

(** [statsHandler] writes to none of [col], [cache] and [rateLimitMap]. *)
Definition statsHandler (env : StatsEnv) (s : Server) : StatsBody :=
  let now := stats_now env in
  let counts := countCache now (cache s) in
  let totalSubnets := Z.of_nat (size (rateLimitMap s)) in
  let cooldownSubnets := countCooldown now (rateLimitMap s) in
  mkStats now (Z.of_nat (size (cache s))) counts.1 counts.2
          maxURLsPerSubnet cooldownHours totalSubnets cooldownSubnets
          "subnet /24" "every 1 hour" (Time.Add now (1 * Time.Hour))
          (match Store.CountDocuments (total_up env) anyDocument (col s) with
           | Store.Ok totalCount => Some totalCount
           | Store.Err => None
           end)
          (match Store.CountDocuments (active_up env) (Store.expiresAfter now) (col s) with
           | Store.Ok activeDBCount => Some activeDBCount
           | Store.Err => None
           end)
          (match aggregated env with
           | Some (BsonInt32 uniqueSubnets :: _) => Some uniqueSubnets
           | _ => None
           end).

Record HealthBody := mkHealth {
  h_status : string;
  h_cache_len : Z;
  h_rate_limit_subnets : Z;
  h_rate_limit_strategy : string;
  h_max_per_subnet : Z;
  h_server_time : Z
}.

Definition healthHandler (now : Z) (s : Server) : HealthBody :=
  mkHealth "ok" (Z.of_nat (size (cache s))) (Z.of_nat (size (rateLimitMap s)))
           "per subnet /24" maxURLsPerSubnet now.

(** ** The server as a whole *)

(** The handlers [startServer] registers on its [http.ServeMux]. *)
Inductive Route := toShorten | toList | toHealth | toStats | toMain.

(** The four fixed patterns of lines 368-371.  A pattern that does not end
    in a slash matches the request path equal to it; the pattern ["/"] of
    line 373 matches every path and gives way to a longer pattern that
    matches.  The request path is taken in its clean form: the mux answers
    a path with a doubled slash or a dot segment by a redirect to the clean
    one. *)
Definition patterns : list (string * Route) :=
  [("/api/shorten", toShorten); ("/api/list", toList);
   ("/health", toHealth); ("/api/stats", toStats)].

Definition dispatch (path : string) : Route :=
  match List.find (fun p => String.eqb p.1 path) patterns with
  | Some p => p.2
  | None => toMain
  end.

(** What the handler of one request reads from outside. *)
Record RequestEnv := mkRequestEnv {
  shortenEnv : ShortenEnv;
  statsEnv : StatsEnv;
  now_handler : Z;       (* the [time.Now()] of the other handlers *)
  lookup_up : bool;      (* [FindOne] *)
  remove_up : bool       (* [DeleteOne] *)
}.

Inductive Reply :=
| Answered (r : Response)
| StatsReply (b : StatsBody)
| HealthReply (b : HealthBody).

(** What happens to the server, one item per handler run or tick: the
    requests the mux dispatches and the ticks of the two tickers. *)
Inductive Event :=
| Incoming (env : RequestEnv) (r : Request)
| Ticked (tk : Ticker) (now : Z) (up : bool).

Section Serving.

Variable ParseIP : string -> option (list Byte.byte).
Variable TrimSpace : string -> string.

(** The mux of [startServer] on one request. *)
Definition serve (env : RequestEnv) (r : Request) (s : Server) : outcome (Reply * Server) :=
  match dispatch (Path r) with
  | toShorten =>
      match shortenHandler ParseIP TrimSpace (shortenEnv env) r s with
      | Returned (resp, s') => Returned (Answered resp, s')
      | Panicked => Panicked
      | OutOfFuel => OutOfFuel
      end
  | toList =>
      let '(resp, s') := listHandler (now_handler env) s in Returned (Answered resp, s')
  | toHealth => Returned (HealthReply (healthHandler (now_handler env) s), s)
  | toStats => Returned (StatsReply (statsHandler (statsEnv env) s), s)
  | toMain =>
      let '(resp, s') := mainHandler (now_handler env) (lookup_up env) (remove_up env) r s in
      Returned (Answered resp, s')
  end.

Definition step (ev : Event) (s : Server) : outcome Server :=
  match ev with
  | Incoming env r =>
      match serve env r s with
      | Returned (_, s') => Returned s'
      | Panicked => Panicked
      | OutOfFuel => OutOfFuel
      end
  | Ticked tk now up => Returned (onTick tk now up s).2
  end.

Fixpoint run (evs : list Event) (s : Server) : outcome Server :=
  match evs with
  | [] => Returned s
  | ev :: evs' =>
      match step ev s with
      | Returned s' => run evs' s'
      | Panicked => Panicked
      | OutOfFuel => OutOfFuel
      end
  end.

(** [main] once [connectMongo] has returned: the initial cleanup on the
    empty [cache] and [rateLimitMap], then the two tickers and the server,
    whose work is the list of events. *)
Definition main (now now_load : Z) (up up_load : bool) (docs : list URLData.t)
    (evs : list Event) : outcome Server :=
  run evs (initialCleanup now now_load up up_load (mkServer docs ∅ ∅)).2.

End Serving.

(** ** Predicates used in the statements below *)

(** Every cache entry has a document of the store behind it, with its code
    and its URL.  The expiry of the document is that of the entry, when the
    entry was read from the store, or its BSON date, when a create wrote
    both: the instant to the cache, the whole milliseconds to the store. *)
Definition backed (s : Server) : Prop :=
  forall code item,
    cache s !! code = Some item ->
    exists u, In u (col s)
              /\ URLData.ShortCode u = code
              /\ URLData.Original u = CacheItem.OriginalURL item
              /\ (URLData.ExpiresAt u = CacheItem.ExpiresAt item
                  \/ URLData.ExpiresAt u = Store.bsonDate (CacheItem.ExpiresAt item)).

(** The state of a tracked subnet at a time not before [t]: its window
    opened in the past, its count is not negative, it carries a cooldown
    exactly when it has reached the limit, and a cooldown ends no earlier
    than the window. *)
Definition settled (t : Z) (i : RateLimitInfo.t) : Prop :=
  0 <= RateLimitInfo.FirstSeen i <= t
  /\ 0 <= RateLimitInfo.Count i
  /\ (RateLimitInfo.Cooldown i <> 0 <-> maxURLsPerSubnet <= RateLimitInfo.Count i)
  /\ (RateLimitInfo.Cooldown i <> 0 ->
      RateLimitInfo.FirstSeen i + 24 * Time.Hour <= RateLimitInfo.Cooldown i).

Definition rateSettled (t : Z) (s : Server) : Prop :=
  forall subnet i, rateLimitMap s !! subnet = Some i -> settled t i.

(** The clocks of a run do not go back: every create checks the rate limit
    no earlier than [t] and commits no earlier than it checks, and the next
    create checks no earlier than this one. *)
Fixpoint timely (t : Z) (evs : list Event) : Prop :=
  match evs with
  | [] => True
  | Incoming env r :: evs' =>
      match dispatch (Path r) with
      | toShorten =>
          t <= now_check (shortenEnv env) <= now_commit (shortenEnv env)
          /\ timely (now_check (shortenEnv env)) evs'
      | _ => timely t evs'
      end
  | Ticked _ _ _ :: evs' => timely t evs'
  end.

(** The cache item of a document. *)
Definition itemOf (u : URLData.t) : CacheItem.t :=
  CacheItem.mk (URLData.Original u) (URLData.ExpiresAt u).

(** A request that carries no proxy header. *)
Definition direct (remoteAddr : string) : Request :=
  mkRequest "" "" remoteAddr "" "/" None.

(** [c] does not occur in [s]. *)
Fixpoint lacks (c : ascii) (s : string) : bool :=
  match s with
  | EmptyString => true
  | String a s' => negb (Ascii.eqb a c) && lacks c s'
  end.

(** ** Concrete runs of the whole server *)

Definition demoStatsEnv : StatsEnv :=
  mkStatsEnv (demoStart + 2 * Time.Hour) true true (Some [BsonInt32 1]).

Definition demoRequestEnv : RequestEnv :=
  mkRequestEnv demoEnv demoStatsEnv (demoStart + 2 * Time.Hour) true true.

(** What the rate-limit check of a first request from 198.51.100.9 leaves
    of the empty server. *)
Definition checkedServer : Server :=
  mkServer [] ∅ (<["198.51.100.0/24" := RateLimitInfo.mk 0 (now_check demoEnv) Time.zero]> ∅).

(** A morning of the server: a create, the tick of each ticker an hour
    later, then a request for the code and one for the statistics. *)
Definition demoTick : Z := demoStart + 2 * Time.Hour.

Definition demoEvents : list Event :=
  [Incoming demoRequestEnv (demoCreate "https://example.com");
   Ticked periodicTicker demoTick true;
   Ticked rateLimitTicker demoTick true;
   Incoming demoRequestEnv demoRedirect;
   Incoming demoRequestEnv (mkRequest "" "" "198.51.100.9:40000" "sho.rt" "/api/stats" None)].

(** A subnet that reached the limit with its tenth commit, nine hours and a
    second after its window opened at [demoStart]. *)
Definition cooledServer : Server :=
  mkServer [] ∅
           (<[demoSubnet :=
                RateLimitInfo.mk 10 demoStart
                  (demoStart + 9 * Time.Hour + Time.Second + cooldownHours * Time.Hour)]> ∅).

(** ** Proof support *)

(** Write the constant powers of two as numerals, for [lia]. *)
Ltac concrete_unit :=
  let u := eval vm_compute in (2 ^ 1074) in
  let a := eval vm_compute in (2 ^ 52) in
  let b := eval vm_compute in (2 ^ 63) in
  let c := eval vm_compute in (2 ^ 43) in
  change (2 ^ 1074) with u in *; change (2 ^ 52) with a in *;
  change (2 ^ 63) with b in *; change (2 ^ 43) with c in *.

(** * Properties *)

(** ** Rate limiter *)

(** The window test of [checkRateLimit] is a test on the exact difference. *)
Lemma window_elapsed_iff (now t0 : Z) :
  (24 * Time.Hour <=? Time.Sub now t0) = (24 * Time.Hour <=? now - t0).
Proof.
  unfold Time.Sub, Time.minDuration, Time.maxDuration.
  change (24 * Time.Hour) with 86400000000000.
  repeat match goal with |- context [Z.ltb ?a ?b] => destruct (Z.ltb_spec a b) end;
  repeat match goal with |- context [Z.leb ?a ?b] => destruct (Z.leb_spec a b) end; lia.
Qed.

Lemma setRateLimitMap_id (k : string) (i : RateLimitInfo.t) (s : Server) :
  rateLimitMap s !! k = Some i -> setRateLimitMap (<[k := i]> (rateLimitMap s)) s = s.
Proof.
  intros H. destruct s as [c ca m]. unfold setRateLimitMap. simpl in *.
  f_equal. by apply insert_id.
Qed.

Lemma wrap64_small (z : Z) : - 2 ^ 63 <= z < 2 ^ 63 -> wrap64 z = z.
Proof.
  intros H. unfold wrap64.
  rewrite Z.mod_small; lia.
Qed.













(** A window opened by a request that created nothing: a check at hour 999
    opens it, ten creations follow from hour 1000 on, and the subnet is
    denied until hour 1023, where it is admitted. *)
Example window_opened_before_first_creation :
  match createMany demoSubnet true tenCreations
          (checkRateLimit (demoStart - Time.Hour) true demoSubnet emptyServer).2 with
  | Some s10 =>
      (RateLimitInfo.Count <$> rateLimitMap s10 !! demoSubnet) = Some maxURLsPerSubnet
      /\ (RateLimitInfo.FirstSeen <$> rateLimitMap s10 !! demoSubnet)
         = Some (demoStart - Time.Hour)
      /\ allowed (checkRateLimit (demoStart + 23 * Time.Hour - 1) true demoSubnet s10).1
         = false
      /\ allowed (checkRateLimit (demoStart + 23 * Time.Hour) true demoSubnet s10).1 = true
  | None => False
  end.
Proof. vm_compute. repeat split; reflexivity. Qed.

Lemma formatDuration_negative (d : Z) : d < 0 -> formatDuration d = "0 seconds".
Proof.
  intros H. unfold formatDuration.
  destruct (Z.ltb_spec d 0); [reflexivity | lia].
Qed.

Lemma formatDuration_clamp (d : Z) : formatDuration d = formatDuration (Z.max 0 d).
Proof.
  destruct (Z.lt_ge_cases d 0) as [H|H].
  - rewrite formatDuration_negative by done.
    rewrite Z.max_l by lia. vm_compute. reflexivity.
  - by rewrite Z.max_r by lia.
Qed.

Lemma hours24_pos : 0 < cooldownHours * Time.Hour.
Proof. vm_compute. reflexivity. Qed.

Lemma checkRateLimit_denial (now : Z) (up : bool) (subnet : string) (s : Server)
      (chk : CheckResult) (s' : Server) :
  0 <= now ->
  checkRateLimit now up subnet s = (chk, s') ->
  allowed chk = false -> failed chk = false ->
  exists info,
    rateInfo chk = Some info /\ rateLimitMap s' !! subnet = Some info
    /\ Time.IsZero (RateLimitInfo.Cooldown info) = false
    /\ now < RateLimitInfo.Cooldown info.
Proof.
  intros Hnow E Ha Hf. pose proof hours24_pos as H24.
  unfold checkRateLimit in E.
  destruct (rateLimitMap s !! subnet) as [i|] eqn:Ei.
  - set (i1 := if 24 * Time.Hour <=? Time.Sub now (RateLimitInfo.FirstSeen i)
               then RateLimitInfo.mk 0 now Time.zero else i) in E.
    destruct (negb (Time.IsZero (RateLimitInfo.Cooldown i1))
              && Time.Before now (RateLimitInfo.Cooldown i1)) eqn:Ec.
    + inversion E; subst; clear E. apply andb_true_iff in Ec as [Ez Eb].
      exists i1. simpl. rewrite lookup_insert_eq.
      apply negb_true_iff in Ez. unfold Time.Before in Eb. apply Z.ltb_lt in Eb. done.
    + cbv zeta in E.
      match type of E with
      | context [RateLimitInfo.Count ?x] => set (i2 := x) in E
      end.
      destruct (maxURLsPerSubnet <=? RateLimitInfo.Count i2).
      * inversion E; subst; clear E. eexists. simpl. rewrite lookup_insert_eq.
        repeat split; try reflexivity; unfold Time.IsZero, Time.Add; simpl.
        -- apply Z.eqb_neq. lia.
        -- lia.
      * inversion E; subst. discriminate.
  - cbv zeta in E.
    destruct (Store.CountDocuments up _ (col s)) as [count|].
    + destruct (maxURLsPerSubnet <=? count).
      * inversion E; subst; clear E. eexists. simpl. rewrite lookup_insert_eq.
        repeat split; try reflexivity; unfold Time.IsZero, Time.Add; simpl.
        -- apply Z.eqb_neq. lia.
        -- lia.
      * inversion E; subst. discriminate.
    + inversion E; subst. discriminate.
Qed.

(** C10. A denial without error comes with the subnet's state, whose
    cooldown is not the zero time and lies strictly after the time of the
    check; it is the [cooldown_until] of the 429 response, whose
    [cooldown_remaining] renders the time left, never a negative one. *)
Theorem denial_has_future_cooldown (now : Z) (up : bool) (subnet : string) (s : Server)
        (chk : CheckResult) (s' : Server) :
  0 <= now ->
  checkRateLimit now up subnet s = (chk, s') ->
  allowed chk = false -> failed chk = false ->
  exists info,
    rateInfo chk = Some info /\ rateLimitMap s' !! subnet = Some info
    /\ Time.IsZero (RateLimitInfo.Cooldown info) = false
    /\ now < RateLimitInfo.Cooldown info
    /\ forall ParseIP TrimSpace env r,
         now_check env = now -> count_up env = up ->
         getClientSubnet ParseIP TrimSpace r = subnet ->
         exists b,
           shortenHandler ParseIP TrimSpace env r s = Returned (TooManyRequests b, s')
           /\ rl_cooldown_until b = RateLimitInfo.Cooldown info
           /\ rl_cooldown_remaining b
              = formatDuration
                  (Z.max 0 (Time.Sub (RateLimitInfo.Cooldown info) (now_denied env))).
Proof.
  intros Hnow E Ha Hf.
  destruct (checkRateLimit_denial now up subnet s chk s' Hnow E Ha Hf)
    as (info & Hi & Hm & Hz & Hlt).
  exists info. repeat split; try done.
  intros ParseIP TrimSpace env r En Eu Es.
  unfold shortenHandler. rewrite En, Eu, Es, E. rewrite Hf, Ha, Hi. simpl.
  eexists. split; [reflexivity|]. simpl. split; [reflexivity|].
  apply formatDuration_clamp.
Qed.

Lemma denial_has_future_cooldown_witness :
  exists info,
    rateInfo (checkRateLimit (demoStart + Time.Hour) true demoSubnet atLimitServer).1 = Some info
    /\ rateLimitMap (checkRateLimit (demoStart + Time.Hour) true demoSubnet atLimitServer).2
         !! demoSubnet = Some info
    /\ Time.IsZero (RateLimitInfo.Cooldown info) = false
    /\ demoStart + Time.Hour < RateLimitInfo.Cooldown info
    /\ forall ParseIP TrimSpace env r,
         now_check env = demoStart + Time.Hour -> count_up env = true ->
         getClientSubnet ParseIP TrimSpace r = demoSubnet ->
         exists b,
           shortenHandler ParseIP TrimSpace env r atLimitServer
           = Returned (TooManyRequests b,
                       (checkRateLimit (demoStart + Time.Hour) true demoSubnet atLimitServer).2)
           /\ rl_cooldown_until b = RateLimitInfo.Cooldown info
           /\ rl_cooldown_remaining b
              = formatDuration
                  (Z.max 0 (Time.Sub (RateLimitInfo.Cooldown info) (now_denied env))).
Proof.
  apply (denial_has_future_cooldown (demoStart + Time.Hour) true demoSubnet atLimitServer).
  - vm_compute. discriminate.
  - apply surjective_pairing.
  - vm_compute. reflexivity.
  - vm_compute. reflexivity.
Defined.

(** ** Code generator *)

Lemma get_In (s : string) : forall (i : nat) (c : ascii),
  String.get i s = Some c -> In c (chars s).
Proof.
  induction s as [|a s IH]; intros i c H; [discriminate|].
  destruct i as [|i]; simpl in H.
  - inversion H. left. reflexivity.
  - right. exact (IH i c H).
Qed.

Lemma index_In (s : string) (i : Z) (c : ascii) : index s i = Some c -> In c (chars s).
Proof.
  unfold index. destruct ((0 <=? i) && (i <? Z.of_nat (String.length s))); [|discriminate].
  apply get_In.
Qed.

Lemma index_in_range (s : string) (i : Z) :
  0 <= i < Z.of_nat (String.length s) -> exists c, index s i = Some c.
Proof.
  intros H. unfold index.
  destruct (Z.leb_spec 0 i); [|lia]. destruct (Z.ltb_spec i (Z.of_nat (String.length s))); [|lia].
  simpl. assert (Hn : (Z.to_nat i < String.length s)%nat) by lia.
  clear -Hn. revert Hn. generalize (Z.to_nat i). induction s as [|a s IH]; intros n Hn.
  - simpl in Hn. lia.
  - destruct n as [|n]; simpl; [eauto|]. apply IH. simpl in Hn. lia.
Qed.

Lemma allChars_alnum (c : ascii) : In c (chars allChars) -> isAlnum c = true.
Proof.
  assert (H : forallb isAlnum (chars allChars) = true) by (vm_compute; reflexivity).
  rewrite forallb_forall in H. apply H.
Qed.

Lemma fillCode_length rnd n : forall k code,
  fillCode rnd n k = Some code -> String.length code = n.
Proof.
  induction n as [|n IH]; intros k code H; simpl in H.
  - inversion H. reflexivity.
  - destruct (index allChars (rnd k)); [|discriminate].
    destruct (fillCode rnd n (S k)) as [s|] eqn:E; [|discriminate].
    inversion H. simpl. f_equal. exact (IH _ _ E).
Qed.

Lemma fillCode_alnum rnd n : forall k code,
  fillCode rnd n k = Some code -> List.Forall (fun c => isAlnum c = true) (chars code).
Proof.
  induction n as [|n IH]; intros k code H; simpl in H.
  - inversion H. constructor.
  - destruct (index allChars (rnd k)) as [c|] eqn:Ec; [|discriminate].
    destruct (fillCode rnd n (S k)) as [s|] eqn:E; [|discriminate].
    inversion H. simpl. constructor.
    + apply allChars_alnum. exact (index_In _ _ _ Ec).
    + exact (IH _ _ E).
Qed.

Lemma fillCode_total rnd n :
  (forall k, 0 <= rnd k < 62) -> forall k, exists code, fillCode rnd n k = Some code.
Proof.
  intros Hr. induction n as [|n IH]; intros k; simpl; [eauto|].
  destruct (index_in_range allChars (rnd k)) as [c Ec].
  { specialize (Hr k). change (Z.of_nat (String.length allChars)) with 62. lia. }
  destruct (IH (S k)) as [s Es]. rewrite Ec, Es. eauto.
Qed.

Lemma containsLetter_iff (s : string) :
  containsLetter s = true <-> exists c, In c (chars s) /\ isLetter c = true.
Proof.
  induction s as [|a s IH]; simpl.
  - split; [discriminate | intros (c & [] & _)].
  - destruct (isLetter a) eqn:Ea.
    + split; [intros _; exists a; auto | reflexivity].
    + rewrite IH. split.
      * intros (c & Hc & Hl). exists c. auto.
      * intros (c & [<- | Hc] & Hl); [congruence | eauto].
Qed.

Lemma containsDigit_iff (s : string) :
  containsDigit s = true <-> exists c, In c (chars s) /\ isDigit c = true.
Proof.
  induction s as [|a s IH]; simpl.
  - split; [discriminate | intros (c & [] & _)].
  - destruct (isDigit a) eqn:Ea.
    + split; [intros _; exists a; auto | reflexivity].
    + rewrite IH. split.
      * intros (c & Hc & Hl). exists c. auto.
      * intros (c & [<- | Hc] & Hl); [congruence | eauto].
Qed.

Lemma genCodeLoop_returns rnd n fuel : forall k code,
  genCodeLoop rnd n fuel k = Returned code ->
  exists k', fillCode rnd n k' = Some code
             /\ containsLetter code = true /\ containsDigit code = true.
Proof.
  induction fuel as [|fuel IH]; intros k code H; simpl in H; [discriminate|].
  destruct (fillCode rnd n k) as [s|] eqn:E; [|discriminate].
  destruct (containsLetter s && containsDigit s) eqn:Ev.
  - inversion H; subst. apply andb_true_iff in Ev as [? ?]. eauto.
  - exact (IH _ _ H).
Qed.

(** Some attempt among the first [j + 1] from offset [k] passes the test:
    the loop returns within [j + 1] iterations. *)
Lemma genCodeLoop_progress rnd n :
  (forall k, 0 <= rnd k < 62) ->
  forall j k code fuel,
    fillCode rnd n (k + j * n) = Some code ->
    containsLetter code && containsDigit code = true ->
    (j < fuel)%nat ->
    exists code', genCodeLoop rnd n fuel k = Returned code'.
Proof.
  intros Hr. induction j as [|j IH]; intros k code fuel Hf Hv Hj.
  - destruct fuel as [|fuel]; [lia|]. simpl.
    replace (k + 0 * n)%nat with k in Hf by lia. rewrite Hf, Hv. eauto.
  - destruct fuel as [|fuel]; [lia|]. simpl.
    destruct (fillCode_total rnd n Hr k) as [s Es]. rewrite Es.
    destruct (containsLetter s && containsDigit s); [eauto|].
    apply (IH (k + n)%nat code fuel); [|done|lia].
    replace (k + n + j * n)%nat with (k + S j * n)%nat by lia. done.
Qed.

Lemma genCode_code_policy_parts (rnd : nat -> Z) (fuel : nat) (n : Z) (code : string) :
  genCode rnd fuel n = Returned code ->
  Z.of_nat (String.length code) = n
  /\ List.Forall (fun c => isAlnum c = true) (chars code)
  /\ containsLetter code = true /\ containsDigit code = true.
Proof.
  intros H. unfold genCode in H.
  destruct (Z.ltb_spec n 0); [discriminate|].
  destruct (genCodeLoop_returns _ _ _ _ _ H) as (k' & Hf & Hl & Hd).
  split; [rewrite (fillCode_length _ _ _ _ Hf); lia|].
  split; [exact (fillCode_alnum _ _ _ _ Hf)|]. done.
Qed.

(** C7. Whenever [genCode] returns, the code has exactly [n] characters,
    all of [[a-zA-Z0-9]], with at least one letter and at least one digit; in
    particular [genCode 6] returns codes of six characters.  And it does
    return: when [rand.Intn] keeps its contract and some attempt draws a
    code with a letter and a digit, enough iterations reach a result. *)
Theorem genCode_code_policy (rnd : nat -> Z) (n : Z) :
  (forall fuel code,
      genCode rnd fuel n = Returned code ->
      Z.of_nat (String.length code) = n
      /\ List.Forall (fun c => isAlnum c = true) (chars code)
      /\ (exists c, In c (chars code) /\ isLetter c = true)
      /\ (exists c, In c (chars code) /\ isDigit c = true))
  /\ (forall fuel code, genCode rnd fuel 6 = Returned code -> String.length code = 6%nat)
  /\ ((forall k, 0 <= rnd k < 62) -> 0 <= n ->
      forall j code fuel,
        fillCode rnd (Z.to_nat n) (j * Z.to_nat n) = Some code ->
        containsLetter code && containsDigit code = true ->
        (j < fuel)%nat ->
        exists code', genCode rnd fuel n = Returned code').
Proof.
  split; [|split].
  - intros fuel code H.
    destruct (genCode_code_policy_parts rnd fuel n code H) as (Hl & Ha & HL & HD).
    split; [exact Hl|]. split; [exact Ha|].
    split; [by apply containsLetter_iff | by apply containsDigit_iff].
  - intros fuel code H. unfold genCode in H. simpl in H.
    destruct (genCodeLoop_returns _ _ _ _ _ H) as (k' & Hf & _).
    exact (fillCode_length _ _ _ _ Hf).
  - intros Hr Hn j code fuel Hf Hv Hj. unfold genCode.
    destruct (Z.ltb_spec n 0); [lia|].
    exact (genCodeLoop_progress rnd _ Hr j 0%nat code fuel Hf Hv Hj).
Qed.

Lemma letter_not_digit (c : ascii) : isLetter c = true -> isDigit c = false.
Proof.
  unfold isLetter, isDigit. generalize (code_of c). intros z.
  change (code_of "a") with 97. change (code_of "z") with 122.
  change (code_of "A") with 65. change (code_of "Z") with 90.
  change (code_of "0") with 48. change (code_of "9") with 57.
  rewrite orb_true_iff, !andb_true_iff, andb_false_iff, !Z.leb_le, !Z.leb_gt. lia.
Qed.

Lemma isAlphanumericLoop_spec (s : string) : forall hasLetter hasDigit,
  isAlphanumericLoop s hasLetter hasDigit
  = forallb isAlnum (chars s)
    && (hasLetter || containsLetter s) && (hasDigit || containsDigit s).
Proof.
  induction s as [|c s IH]; intros hl hd; simpl.
  - by rewrite !orb_false_r.
  - unfold isAlnum at 1. destruct (isLetter c) eqn:El.
    + rewrite (letter_not_digit c El), IH. simpl. by rewrite !orb_true_r.
    + destruct (isDigit c) eqn:Ed; simpl; [|reflexivity].
      rewrite IH. by rewrite !orb_true_r.
Qed.

(** Every code [genCode 6] returns is one [mainHandler] routes to
    [redirectHandler]. *)
Lemma genCode_isAlphanumeric (rnd : nat -> Z) (fuel : nat) (code : string) :
  genCode rnd fuel 6 = Returned code -> isAlphanumeric code = true.
Proof.
  intros H. destruct (genCode_code_policy_parts rnd fuel 6 code H) as (Hl & Ha & HL & HD).
  unfold isAlphanumeric. assert (String.length code = 6%nat) as -> by lia. simpl.
  rewrite isAlphanumericLoop_spec, HL, HD. simpl. rewrite !andb_true_r.
  apply forallb_forall. rewrite List.Forall_forall in Ha. exact Ha.
Qed.

Example genCode_alternating : genCode alternatingSource 1 6 = Returned "a0a0a0".
Proof. vm_compute. reflexivity. Qed.

(** ** Listing *)

(** C9. [listHandler] returns exactly the cache entries whose expiry is
    strictly after [now] and leaves the server, cache included, as it was: an
    expired entry is not returned and stays in the cache. *)
Theorem listHandler_active_only (now : Z) (s : Server) :
  exists items,
    listHandler now s = (Listing (Z.of_nat (size items)) items now, s)
    /\ (forall code item,
          items !! code = Some item
          <-> cache s !! code = Some item /\ now < CacheItem.ExpiresAt item)
    /\ (forall code item,
          cache s !! code = Some item -> CacheItem.ExpiresAt item <= now ->
          items !! code = None /\ cache (listHandler now s).2 !! code = Some item).
Proof.
  eexists. split; [reflexivity|]. split.
  - intros code item. rewrite map_lookup_filter_Some. simpl.
    unfold Time.Before. rewrite Is_true_true, Z.ltb_lt. reflexivity.
  - intros code item Hc He. split; [|exact Hc].
    apply map_lookup_filter_None. right. intros x Hx. simpl.
    rewrite Hc in Hx. inversion Hx; subst.
    unfold Time.Before. rewrite Is_true_true, Z.ltb_lt. lia.
Qed.

(** ** Redirect *)

Lemma substring_all (s : string) : String.substring 0 (String.length s) s = s.
Proof. induction s as [|a s IH]; simpl; [reflexivity | by rewrite IH]. Qed.

Lemma TrimPrefix_slash (code : string) : TrimPrefix ("/" +:+ code) "/" = code.
Proof.
  unfold TrimPrefix. simpl.
  destruct code as [|a code]; simpl; [reflexivity|].
  by rewrite substring_all.
Qed.

Lemma find_matching (p : URLData.t -> bool) (c : list URLData.t) :
  List.find p c = match Store.matching p c with u :: _ => Some u | [] => None end.
Proof.
  unfold Store.matching. induction c as [|u c IH]; simpl; [reflexivity|].
  destruct (p u); [reflexivity | exact IH].
Qed.

Lemma deleteFirst_split (p : URLData.t -> bool) (c : list URLData.t) (u : URLData.t) :
  List.find p c = Some u ->
  exists l1 l2, c = l1 ++ u :: l2 /\ List.Forall (fun v => p v = false) l1
                /\ Store.deleteFirst p c = l1 ++ l2.
Proof.
  induction c as [|v c IH]; simpl; [discriminate|].
  destruct (p v) eqn:Ev; intros H.
  - inversion H; subst. exists [], c. simpl. auto.
  - destruct (IH H) as (l1 & l2 & -> & Hf & Hd).
    exists (v :: l1), l2. simpl. rewrite Hd. auto.
Qed.

Lemma mainHandler_redirects (now : Z) (find_up del_up : bool) (r : Request)
      (code : string) (s : Server) :
  Path r = "/" +:+ code -> String.length code = 6%nat -> isAlphanumeric code = true ->
  mainHandler now find_up del_up r s = redirectHandler now find_up del_up code s.
Proof.
  intros Hp Hl Ha. unfold mainHandler. rewrite Hp, TrimPrefix_slash, Hl, Ha.
  destruct code; [discriminate|]. reflexivity.
Qed.

(** C5. A redirect request for a well-formed code: a cache hit before its
    expiry redirects (302) to the original URL; a cache hit at or past its
    expiry removes the entry and goes on as a miss; on a miss, an unexpired
    record of the store is written to the cache and redirects (302), an
    expired one is deleted from the store and the answer is not-found, and a
    code in neither answers not-found. *)
Theorem redirect_cases (now : Z) (find_up del_up : bool) (r : Request)
        (code : string) (s : Server) :
  Path r = "/" +:+ code -> String.length code = 6%nat -> isAlphanumeric code = true ->
  let out := mainHandler now find_up del_up r s in
  (forall c, cache s !! code = Some c -> now < CacheItem.ExpiresAt c ->
             out = (Redirect (CacheItem.OriginalURL c) 302, s))
  /\ (forall c, cache s !! code = Some c -> CacheItem.ExpiresAt c <= now ->
                cache (setCache (delete code (cache s)) s) !! code = None
                /\ out = mainHandler now find_up del_up r (setCache (delete code (cache s)) s))
  /\ (forall u, cache s !! code = None -> find_up = true ->
                List.find (Store.byShortCode code) (col s) = Some u ->
                now < URLData.ExpiresAt u ->
                out = (Redirect (URLData.Original u) 302,
                       setCache (<[code := CacheItem.mk (URLData.Original u)
                                                        (URLData.ExpiresAt u)]> (cache s)) s))
  /\ (forall u, cache s !! code = None -> find_up = true ->
                List.find (Store.byShortCode code) (col s) = Some u ->
                URLData.ExpiresAt u <= now ->
                out.1 = NotFound
                /\ cache out.2 = cache s /\ rateLimitMap out.2 = rateLimitMap s
                /\ if del_up
                   then exists l1 l2,
                          col s = l1 ++ u :: l2
                          /\ List.Forall (fun v => URLData.ShortCode v <> code) l1
                          /\ col out.2 = l1 ++ l2
                   else col out.2 = col s)
  /\ (cache s !! code = None ->
      List.find (Store.byShortCode code) (col s) = None ->
      out = (NotFound, s)).
Proof.
  intros Hp Hl Ha out. subst out.
  rewrite !(mainHandler_redirects now find_up del_up r code) by done.
  unfold redirectHandler, Time.Before.
  split; [|split; [|split; [|split]]].
  - intros c Hc Ht. rewrite Hc. destruct (Z.ltb_spec now (CacheItem.ExpiresAt c)); [done|lia].
  - intros c Hc Ht. simpl. rewrite lookup_delete_eq. split; [done|]. rewrite Hc.
    destruct (Z.ltb_spec now (CacheItem.ExpiresAt c)); [lia|]. reflexivity.
  - intros u Hc -> Hf Ht. rewrite Hc. unfold Store.FindOne.
    rewrite find_matching in Hf.
    destruct (Store.matching (Store.byShortCode code) (col s)) as [|v l]; [discriminate|].
    inversion Hf; subst. destruct (Z.ltb_spec now (URLData.ExpiresAt u)); [done|lia].
  - intros u Hc -> Hf Ht. rewrite Hc. unfold Store.FindOne.
    pose proof Hf as Hf'. rewrite find_matching in Hf.
    destruct (Store.matching (Store.byShortCode code) (col s)) as [|v l]; [discriminate|].
    inversion Hf; subst. destruct (Z.ltb_spec now (URLData.ExpiresAt u)); [lia|].
    simpl. destruct del_up; simpl; [|done]. repeat split.
    destruct (deleteFirst_split _ _ _ Hf') as (l1 & l2 & E & Hall & Hd).
    exists l1, l2. repeat split; [done| |done].
    eapply List.Forall_impl; [|exact Hall]. intros v Hv. simpl in Hv.
    unfold Store.byShortCode in Hv. by apply String.eqb_neq.
  - intros Hc Hf. rewrite Hc. unfold Store.FindOne. rewrite find_matching in Hf.
    destruct (Store.matching (Store.byShortCode code) (col s)); [|discriminate].
    by destruct find_up.
Qed.

Lemma redirect_cases_witness :
  let out := mainHandler (demoStart + Time.Hour) true true demoRedirect liveServer in
  (forall c, cache liveServer !! demoCode = Some c ->
             demoStart + Time.Hour < CacheItem.ExpiresAt c ->
             out = (Redirect (CacheItem.OriginalURL c) 302, liveServer))
  /\ (forall c, cache liveServer !! demoCode = Some c ->
                CacheItem.ExpiresAt c <= demoStart + Time.Hour ->
                cache (setCache (delete demoCode (cache liveServer)) liveServer) !! demoCode
                = None
                /\ out = mainHandler (demoStart + Time.Hour) true true demoRedirect
                           (setCache (delete demoCode (cache liveServer)) liveServer))
  /\ (forall u, cache liveServer !! demoCode = None -> true = true ->
                List.find (Store.byShortCode demoCode) (col liveServer) = Some u ->
                demoStart + Time.Hour < URLData.ExpiresAt u ->
                out = (Redirect (URLData.Original u) 302,
                       setCache (<[demoCode := CacheItem.mk (URLData.Original u)
                                                 (URLData.ExpiresAt u)]> (cache liveServer))
                                liveServer))
  /\ (forall u, cache liveServer !! demoCode = None -> true = true ->
                List.find (Store.byShortCode demoCode) (col liveServer) = Some u ->
                URLData.ExpiresAt u <= demoStart + Time.Hour ->
                out.1 = NotFound
                /\ cache out.2 = cache liveServer
                /\ rateLimitMap out.2 = rateLimitMap liveServer
                /\ exists l1 l2,
                     col liveServer = l1 ++ u :: l2
                     /\ List.Forall (fun v => URLData.ShortCode v <> demoCode) l1
                     /\ col out.2 = l1 ++ l2)
  /\ (cache liveServer !! demoCode = None ->
      List.find (Store.byShortCode demoCode) (col liveServer) = None ->
      out = (NotFound, liveServer)).
Proof.
  apply (redirect_cases (demoStart + Time.Hour) true true demoRedirect demoCode liveServer);
    reflexivity.
Defined.

(** The five cases on concrete servers. *)
Example redirect_runs :
  (mainHandler (demoStart + Time.Hour) true true demoRedirect liveServer).1
  = Redirect "https://example.com/first" 302
  /\ mainHandler (100 * Time.Hour) true true demoRedirect staleServer
     = (NotFound, mkServer [] ∅ (rateLimitMap staleServer))
  /\ mainHandler (demoStart + Time.Hour) true true demoRedirect (setCache ∅ liveServer)
     = (Redirect "https://example.com/first" 302, liveServer)
  /\ mainHandler (demoStart + Time.Hour) true true demoRedirect emptyServer
     = (NotFound, emptyServer).
Proof. vm_compute. repeat split; reflexivity. Qed.

(** ** Cleanup *)

Lemma stale_iff (now t0 : Z) :
  (24 * Time.Hour <? Time.Sub now t0) = (24 * Time.Hour <? now - t0).
Proof.
  unfold Time.Sub, Time.minDuration, Time.maxDuration.
  change (24 * Time.Hour) with 86400000000000.
  destruct (Z.ltb_spec (now - t0) (- 2 ^ 63)); [|destruct (Z.ltb_spec (2 ^ 63 - 1) (now - t0))];
  repeat match goal with |- context [Z.ltb ?a ?b] => destruct (Z.ltb_spec a b) end; lia.
Qed.

(** What is below the millisecond does not count for a BSON date. *)
Lemma bsonDate_le (t : Z) : Store.bsonDate t <= t < Store.bsonDate t + Time.Millisecond.
Proof.
  unfold Store.bsonDate. change Time.Millisecond with 1000000.
  pose proof (Z.mul_div_le t 1000000 ltac:(lia)).
  pose proof (Z.mul_succ_div_gt t 1000000 ltac:(lia)). lia.
Qed.

Lemma bsonDate_mono (t u : Z) : t <= u -> Store.bsonDate t <= Store.bsonDate u.
Proof.
  intros H. unfold Store.bsonDate. change Time.Millisecond with 1000000.
  pose proof (Z.div_le_mono t u 1000000 ltac:(lia) H). lia.
Qed.

(** The bound of [$gt] is a BSON date as well.  Against a document whose
    expiry is in whole milliseconds, as the store holds it, the cut bound
    and the instant select alike: [Store.expiresAfter] compares with the
    instant. *)
Lemma expiresAfter_bsonDate (now : Z) (u : URLData.t) :
  Store.bsonDate (URLData.ExpiresAt u) = URLData.ExpiresAt u ->
  (Store.bsonDate now <? URLData.ExpiresAt u) = Store.expiresAfter now u.
Proof.
  intros Hu. unfold Store.expiresAfter.
  pose proof (bsonDate_le now) as Hn.
  destruct (Z.ltb_spec now (URLData.ExpiresAt u)) as [H|H].
  - apply Z.ltb_lt. lia.
  - apply Z.ltb_ge. rewrite <- Hu. by apply bsonDate_mono.
Qed.

(** C3, as the code has it.  A periodic run whose delete of the expired
    documents goes through performs that delete, which removes the
    documents that expire before the millisecond the run is in, and then the
    cache sweep, which removes the entries that expire before the instant of
    the run; a failed delete is logged and the run returns.  A periodic run
    never sweeps the rate limiter: that sweep belongs to the other ticker,
    which does not use the store, so no failure of the delete prevents it. *)
Theorem periodic_cleanup_steps (now : Z) (up : bool) (s : Server) :
  let out := performCleanup now up s in
  rateLimitMap out.2 = rateLimitMap s
  /\ (if up
      then (forall u, In u (col out.2)
                      <-> In u (col s) /\ Store.bsonDate now <= URLData.ExpiresAt u)
           /\ (forall code item,
                 cache out.2 !! code = Some item
                 <-> cache s !! code = Some item /\ now <= CacheItem.ExpiresAt item)
      else In LogCleanupError out.1 /\ col out.2 = col s)
  /\ (forall up',
        let out' := onTick rateLimitTicker now up' s in
        col out'.2 = col s /\ cache out'.2 = cache s
        /\ forall subnet info,
             rateLimitMap out'.2 !! subnet = Some info
             <-> rateLimitMap s !! subnet = Some info
                 /\ now - RateLimitInfo.FirstSeen info <= 24 * Time.Hour).
Proof.
  intros out. subst out. split; [|split].
  - unfold performCleanup. destruct up; reflexivity.
  - destruct up; simpl.
    + split.
      * intros u. rewrite filter_In. unfold Store.expiresBefore.
        rewrite negb_true_iff, Z.ltb_ge. reflexivity.
      * intros code item. unfold sweepCache. rewrite map_lookup_filter_Some. simpl.
        unfold Time.After. rewrite Is_true_true, negb_true_iff, Z.ltb_ge. reflexivity.
    + split; [right; left; reflexivity | reflexivity].
  - intros up'. simpl. split; [reflexivity|]. split; [reflexivity|].
    intros subnet info. rewrite map_lookup_filter_Some. simpl.
    rewrite stale_iff, Is_true_true, negb_true_iff, Z.ltb_ge. reflexivity.
Qed.

(** With the store down, a periodic run at hour 100 leaves the expired
    cache entry that its cache sweep would remove, and it leaves the stale
    subnet as well, store up or down. *)
Lemma cleanup_failure_skips_sweeps :
  (performCleanup (100 * Time.Hour) false staleServer).2 = staleServer
  /\ is_Some (cache (performCleanup (100 * Time.Hour) false staleServer).2 !! demoCode)
  /\ sweepCache (100 * Time.Hour) (cache staleServer) !! demoCode = None
  /\ is_Some (rateLimitMap (performCleanup (100 * Time.Hour) true staleServer).2 !! demoSubnet)
  /\ rateLimitMap (cleanupRateLimitMap (100 * Time.Hour) staleServer) !! demoSubnet = None.
Proof.
  split; [reflexivity|]. split; [vm_compute; eauto|]. split; [vm_compute; reflexivity|].
  split; [vm_compute; eauto | vm_compute; reflexivity].
Qed.

(** A run half a millisecond after a document expires: the document stays
    in the store, the cache entry of the same link goes. *)
Example cleanup_within_the_millisecond :
  performCleanup (10 * Time.Hour + 500 * Time.Microsecond) true staleServer
  = ([LogRunningCleanup; LogCleanupComplete 0 1],
     mkServer [staleLink] ∅ (rateLimitMap staleServer)).
Proof. vm_compute. reflexivity. Qed.

(** ** Create *)

Lemma checkRateLimit_frame (now : Z) (up : bool) (subnet : string) (s : Server) :
  col (checkRateLimit now up subnet s).2 = col s
  /\ cache (checkRateLimit now up subnet s).2 = cache s.
Proof.
  unfold checkRateLimit.
  repeat match goal with
         | |- context [match ?x with _ => _ end] => destruct x; simpl
         end; auto.
Qed.

Lemma incrementRateLimit_frame (now : Z) (subnet : string) (s : Server) :
  col (incrementRateLimit now subnet s) = col s
  /\ cache (incrementRateLimit now subnet s) = cache s.
Proof.
  unfold incrementRateLimit. destruct (rateLimitMap s !! subnet); simpl; auto.
Qed.

Lemma NoDup_snoc (l : list string) (x : string) :
  List.NoDup (l ++ [x]) <-> List.NoDup l /\ ~ In x l.
Proof.
  split.
  - intros H. apply NoDup_remove in H. rewrite app_nil_r in H. exact H.
  - intros [H1 H2]. induction l as [|a l IH]; simpl.
    + constructor; [intros []|constructor].
    + inversion H1; subst. constructor.
      * rewrite in_app_iff. intros [Ha|[->|[]]]; [done|]. apply H2. left. reflexivity.
      * apply IH; [done|]. intros Hx. apply H2. right. exact Hx.
Qed.

(** The two ways [checkRateLimit] ends: the error of the store, which only
    an untracked subnet can meet and which changes nothing, or a verdict
    that comes with the entry the map then holds for the subnet. *)
Lemma checkRateLimit_cases (now : Z) (up : bool) (subnet : string) (s : Server) :
  let cs := checkRateLimit now up subnet s in
  (failed cs.1 = true /\ allowed cs.1 = false /\ rateInfo cs.1 = None /\ cs.2 = s
   /\ rateLimitMap s !! subnet = None /\ up = false)
  \/ (failed cs.1 = false
      /\ exists info,
           rateInfo cs.1 = Some info
           /\ cs.2 = setRateLimitMap (<[subnet := info]> (rateLimitMap s)) s).
Proof.
  unfold checkRateLimit.
  destruct (rateLimitMap s !! subnet) as [i|] eqn:Ei.
  - right.
    repeat match goal with
           | |- context [if ?x then _ else _] => destruct x; simpl
           end; (split; [reflexivity|]); eexists; split; reflexivity.
  - cbv zeta. unfold Store.CountDocuments. destruct up.
    + right. destruct (maxURLsPerSubnet <=? _); simpl;
        (split; [reflexivity|]); eexists; split; reflexivity.
    + left. simpl. by split_and!.
Qed.

Lemma incrementRateLimit_tracked (now : Z) (subnet : string) (s : Server)
      (i : RateLimitInfo.t) :
  rateLimitMap s !! subnet = Some i ->
  is_Some (rateLimitMap (incrementRateLimit now subnet s) !! subnet).
Proof.
  intros H. unfold incrementRateLimit. rewrite H. simpl.
  rewrite lookup_insert_eq. eauto.
Qed.

(** C4, as the code has it.  Whenever the rate limit admits the request,
    the URL passes the prefix test, [genCode] returns a code and the insert
    goes through, the create succeeds, whatever the store and the cache
    already hold under that code: the code is looked up nowhere.  The new
    ShortLink is appended to the store, as the driver writes it, and the
    cache entry of its code is overwritten.  A code the store already held
    is then held twice; the codes of the store stay pairwise distinct
    exactly when they were and the new code is not among them. *)
Theorem create_inserts_unchecked (ParseIP : string -> option (list Byte.byte))
        (TrimSpace : string -> string) (env : ShortenEnv) (r : Request)
        (s : Server) (url code : string) :
  allowed (checkRateLimit (now_check env) (count_up env)
             (getClientSubnet ParseIP TrimSpace r) s).1 = true ->
  Body r = Some url ->
  HasPrefix url "http" = true ->
  genCode (rnd env) (fuel env) 6 = Returned code ->
  insert_up env = true ->
  exists b s',
    shortenHandler ParseIP TrimSpace env r s = Returned (Shortened b, s')
    /\ sh_short_code b = code /\ sh_original_url b = url
    /\ sh_created_at b = now_create env
    /\ sh_expires_at b = now_create env + expiryDays * 24 * Time.Hour
    /\ col s'
       = col s ++ [URLData.mk url code
                     (Store.bsonDate (sh_created_at b)) (Store.bsonDate (sh_expires_at b))
                     (getClientIP TrimSpace r) (getClientSubnet ParseIP TrimSpace r)]
    /\ cache s' = <[code := CacheItem.mk url (sh_expires_at b)]> (cache s)
    /\ (In code (codes (col s)) -> ~ List.NoDup (codes (col s')))
    /\ (List.NoDup (codes (col s'))
        <-> List.NoDup (codes (col s)) /\ ~ In code (codes (col s))).
Proof.
  intros Ha Hb Hp Hg Hi. unfold shortenHandler.
  set (subnet := getClientSubnet ParseIP TrimSpace r) in *.
  destruct (checkRateLimit_frame (now_check env) (count_up env) subnet s) as [Hcol Hcache].
  pose proof (checkRateLimit_cases (now_check env) (count_up env) subnet s) as Hc.
  destruct (checkRateLimit (now_check env) (count_up env) subnet s) as [chk s1].
  simpl in Ha, Hcol, Hcache, Hc.
  destruct Hc as [(_ & Hd & _)|(Hf & info & Hinfo & Hs1)]; [rewrite Ha in Hd; discriminate|].
  rewrite Hf, Ha, Hb, Hp, Hg. simpl. unfold Store.InsertOne. rewrite Hi. cbv zeta.
  match goal with
  | |- context [incrementRateLimit ?t ?k ?x] =>
      destruct (incrementRateLimit_tracked t k x info) as [i' Hi'];
      [rewrite Hs1; simpl; apply lookup_insert_eq|];
      destruct (incrementRateLimit_frame t k x) as [Hc2 Hca2];
      rewrite Hi'
  end.
  eexists _, _. split; [reflexivity|]. simpl.
  rewrite Hc2, Hca2. simpl. rewrite Hcol, Hcache.
  assert (Hnd : List.NoDup (codes (col s ++ [Store.written
                  (URLData.mk url code (now_create env)
                     (Time.Add (now_create env) (expiryDays * 24 * Time.Hour))
                     (getClientIP TrimSpace r) subnet)]))
                <-> List.NoDup (codes (col s)) /\ ~ In code (codes (col s))).
  { unfold codes. rewrite List.map_app. simpl. apply NoDup_snoc. }
  split; [reflexivity|]. split; [reflexivity|]. split; [reflexivity|].
  split; [reflexivity|]. split; [reflexivity|]. split; [reflexivity|].
  split; [|exact Hnd].
  intros Hin Hn. apply Hnd in Hn as [_ Hn]. exact (Hn Hin).
Qed.

(** The store and the cache hold [a0a0a0]; [genCode] draws [a0a0a0] again:
    the create succeeds, the store then holds the code twice and the cache
    entry is the new link's. *)
Lemma create_duplicates_code :
  match shortenHandler parseDottedQuad trimASCIISpace demoEnv
          (demoCreate "https://example.com/second") liveServer with
  | Returned (Shortened b, s') =>
      sh_short_code b = demoCode
      /\ codes (col liveServer) = [demoCode]
      /\ codes (col s') = [demoCode; demoCode]
      /\ (CacheItem.OriginalURL <$> cache liveServer !! demoCode)
         = Some "https://example.com/first"
      /\ (CacheItem.OriginalURL <$> cache s' !! demoCode)
         = Some "https://example.com/second"
  | _ => False
  end.
Proof. vm_compute. repeat split; reflexivity. Qed.

(** The witness runs on a collision: [liveServer] holds [a0a0a0] in the
    store and in the cache, and [genCode] draws [a0a0a0]. *)
Lemma create_inserts_unchecked_witness :
  exists b s',
    shortenHandler parseDottedQuad trimASCIISpace demoEnv
      (demoCreate "https://example.com/second") liveServer
    = Returned (Shortened b, s')
    /\ sh_short_code b = demoCode /\ sh_original_url b = "https://example.com/second"
    /\ sh_created_at b = now_create demoEnv
    /\ sh_expires_at b = now_create demoEnv + expiryDays * 24 * Time.Hour
    /\ col s'
       = col liveServer
           ++ [URLData.mk "https://example.com/second" demoCode
                 (Store.bsonDate (sh_created_at b)) (Store.bsonDate (sh_expires_at b))
                 (getClientIP trimASCIISpace (demoCreate "https://example.com/second"))
                 (getClientSubnet parseDottedQuad trimASCIISpace
                    (demoCreate "https://example.com/second"))]
    /\ cache s'
       = <[demoCode := CacheItem.mk "https://example.com/second" (sh_expires_at b)]>
           (cache liveServer)
    /\ (In demoCode (codes (col liveServer)) -> ~ List.NoDup (codes (col s')))
    /\ (List.NoDup (codes (col s'))
        <-> List.NoDup (codes (col liveServer)) /\ ~ In demoCode (codes (col liveServer))).
Proof.
  apply (create_inserts_unchecked parseDottedQuad trimASCIISpace demoEnv
           (demoCreate "https://example.com/second") liveServer
           "https://example.com/second" demoCode); vm_compute; reflexivity.
Defined.

(** What line 460 does reject: a URL that does not start with the four
    bytes [http] is answered 400 and nothing is stored or cached. *)
Lemma shorten_rejects_without_http_prefix (ParseIP : string -> option (list Byte.byte))
      (TrimSpace : string -> string) (env : ShortenEnv) (r : Request) (s : Server)
      (url : string) :
  Body r = Some url -> HasPrefix url "http" = false ->
  allowed (checkRateLimit (now_check env) (count_up env)
             (getClientSubnet ParseIP TrimSpace r) s).1 = true ->
  exists s',
    shortenHandler ParseIP TrimSpace env r s = Returned (HttpError "invalid url" 400, s')
    /\ col s' = col s /\ cache s' = cache s.
Proof.
  intros Hb Hp Ha. unfold shortenHandler.
  destruct (checkRateLimit_frame (now_check env) (count_up env)
              (getClientSubnet ParseIP TrimSpace r) s) as [Hcol Hcache].
  destruct (checkRateLimit (now_check env) (count_up env)
              (getClientSubnet ParseIP TrimSpace r) s) as [chk s1] eqn:E.
  simpl in *. rewrite Ha, Hb, Hp. simpl.
  assert (Hf : failed chk = false).
  { unfold checkRateLimit in E.
    repeat match type of E with
           | context [match ?x with _ => _ end] => destruct x; simpl in E
           end; inversion E; subst; try reflexivity; discriminate. }
  rewrite Hf. eauto.
Qed.

(** C2 at a URL whose scheme is [httpx]: the request passes the rate
    limit, line 460 lets the URL through because it starts with [http], and
    the answer is 200 with the link stored and cached. *)
Lemma shorten_accepts_httpx :
  urlScheme "httpx://example.com" = "httpx"
  /\ match shortenHandler parseDottedQuad trimASCIISpace demoEnv
             (demoCreate "httpx://example.com") emptyServer with
     | Returned (resp, s') =>
         status resp = 200
         /\ List.map URLData.Original (col s') = ["httpx://example.com"]
         /\ (CacheItem.OriginalURL <$> cache s' !! demoCode) = Some "httpx://example.com"
     | _ => False
     end.
Proof. vm_compute. repeat split; reflexivity. Qed.

(** A create 345678 nanoseconds into a millisecond: the answer and the
    cache carry the expiry to the nanosecond, the stored document carries
    it cut to the millisecond. *)
Example create_stores_whole_milliseconds :
  match shortenHandler parseDottedQuad trimASCIISpace
          (mkShortenEnv (now_check demoEnv) (now_denied demoEnv)
             (now_create demoEnv + 345678) (now_commit demoEnv + Time.Millisecond)
             (now_since demoEnv + Time.Millisecond) true true alternatingSource 1)
          (demoCreate "https://example.com") emptyServer with
  | Returned (Shortened b, s') =>
      sh_expires_at b = now_create demoEnv + 345678 + expiryDays * 24 * Time.Hour
      /\ (CacheItem.ExpiresAt <$> cache s' !! demoCode) = Some (sh_expires_at b)
      /\ List.map URLData.ExpiresAt (col s') = [sh_expires_at b - 345678]
      /\ List.map URLData.CreatedAt (col s') = [now_create demoEnv]
  | _ => False
  end.
Proof. vm_compute. repeat split; reflexivity. Qed.

(** ** Subnet classification *)

Lemma To4_IPv4 (a b c d : Byte.byte) : IP.To4 (IPv4 a b c d) = Some [a; b; c; d].
Proof. reflexivity. Qed.

Lemma To4_four (a b c d : Byte.byte) : IP.To4 [a; b; c; d] = Some [a; b; c; d].
Proof. reflexivity. Qed.

Lemma To16_sixteen (ip : list Byte.byte) : length ip = 16%nat -> IP.To16 ip = Some ip.
Proof. intros H. unfold IP.To16. rewrite H. reflexivity. Qed.

Lemma x02_length (b : Byte.byte) : String.length (Fmt.x02 b) = 2%nat.
Proof. reflexivity. Qed.

Section Classification.

Variable ParseIP : string -> option (list Byte.byte).
Variable TrimSpace : string -> string.

(** C6. The subnet key is a function of the address text alone.  An address
    that parses to an IPv4 address maps to its first three octets followed
    by [.0/24], so two IPv4 addresses with the same first three octets have
    the same key; an address that parses to sixteen bytes that are not an
    IPv4 address maps to its first eight bytes, as four groups of four hex
    digits followed by [::/64]; an address that does not parse maps to
    itself. *)
Theorem subnetOf_classification :
  (forall r1 r2, getClientIP TrimSpace r1 = getClientIP TrimSpace r2 ->
                 getClientSubnet ParseIP TrimSpace r1 = getClientSubnet ParseIP TrimSpace r2)
  /\ (forall s ip a b c d,
        ParseIP s = Some ip -> IP.To4 ip = Some [a; b; c; d] ->
        subnetOf ParseIP s
        = Fmt.byte a +:+ "." +:+ Fmt.byte b +:+ "." +:+ Fmt.byte c +:+ ".0/24")
  /\ (forall s1 s2 ip1 ip2 a b c d1 d2,
        ParseIP s1 = Some ip1 -> IP.To4 ip1 = Some [a; b; c; d1] ->
        ParseIP s2 = Some ip2 -> IP.To4 ip2 = Some [a; b; c; d2] ->
        subnetOf ParseIP s1 = subnetOf ParseIP s2)
  /\ (forall s b0 b1 b2 b3 b4 b5 b6 b7 rest,
        ParseIP s = Some (b0 :: b1 :: b2 :: b3 :: b4 :: b5 :: b6 :: b7 :: rest) ->
        length rest = 8%nat ->
        IP.To4 (b0 :: b1 :: b2 :: b3 :: b4 :: b5 :: b6 :: b7 :: rest) = None ->
        subnetOf ParseIP s
        = Fmt.x02 b0 +:+ Fmt.x02 b1 +:+ ":" +:+ Fmt.x02 b2 +:+ Fmt.x02 b3 +:+ ":"
            +:+ Fmt.x02 b4 +:+ Fmt.x02 b5 +:+ ":" +:+ Fmt.x02 b6 +:+ Fmt.x02 b7 +:+ "::/64")
  /\ (forall s, ParseIP s = None -> subnetOf ParseIP s = s).
Proof.
  split; [|split; [|split; [|split]]].
  - intros r1 r2 H. unfold getClientSubnet. by rewrite H.
  - intros s ip a b c d Hp H4. unfold subnetOf. rewrite Hp, H4. reflexivity.
  - intros s1 s2 ip1 ip2 a b c d1 d2 Hp1 H1 Hp2 H2. unfold subnetOf.
    rewrite Hp1, H1, Hp2, H2. reflexivity.
  - intros s b0 b1 b2 b3 b4 b5 b6 b7 rest Hp Hl H4. unfold subnetOf.
    rewrite Hp, H4, To16_sixteen by (simpl; lia). reflexivity.
  - intros s Hp. unfold subnetOf. by rewrite Hp.
Qed.

End Classification.

Example subnetOf_same_24 :
  subnetOf parseDottedQuad "192.168.1.77" = "192.168.1.0/24"
  /\ subnetOf parseDottedQuad "192.168.1.200" = "192.168.1.0/24"
  /\ subnetOf parseDottedQuad "192.168.2.77" = "192.168.2.0/24".
Proof. vm_compute. repeat split; reflexivity. Qed.

Example subnetOf_ipv6 :
  subnetOf parseWithLiteral "2001:db8:85a3:8d3:1319:8a2e:370:7348"
  = "2001:0db8:85a3:08d3::/64".
Proof. vm_compute. reflexivity. Qed.

Example subnetOf_unparsed : subnetOf parseDottedQuad "[" = "[".
Proof. vm_compute. reflexivity. Qed.

(** ** [float64] arithmetic: how far a rounded result is from the exact one *)

Lemma digits2_pos_bounds (p : positive) :
  2 ^ (Z.pos (digits2_pos p) - 1) <= Z.pos p < 2 ^ Z.pos (digits2_pos p).
Proof.
  induction p as [p IH|p IH|]; simpl digits2_pos.
  - rewrite Pos2Z.inj_succ. replace (Z.succ (Z.pos (digits2_pos p)) - 1) with
      (Z.succ (Z.pos (digits2_pos p) - 1)) by lia.
    rewrite !Z.pow_succ_r by lia. lia.
  - rewrite Pos2Z.inj_succ. replace (Z.succ (Z.pos (digits2_pos p)) - 1) with
      (Z.succ (Z.pos (digits2_pos p) - 1)) by lia.
    rewrite !Z.pow_succ_r by lia. lia.
  - simpl. lia.
Qed.

Lemma digits2_pos_unique (p : positive) (k : Z) :
  2 ^ (k - 1) <= Z.pos p < 2 ^ k -> Z.pos (digits2_pos p) = k.
Proof.
  intros [H1 H2]. pose proof (digits2_pos_bounds p) as [H3 H4].
  assert (0 < k).
  { destruct (Z.lt_ge_cases 0 k) as [?|Hk]; [done|].
    destruct (Z.eq_dec k 0) as [->|]; [simpl in H2; lia|].
    rewrite Z.pow_neg_r in H2 by lia. lia. }
  destruct (Z.lt_trichotomy (Z.pos (digits2_pos p)) k) as [Hlt|[?|Hgt]]; [|done|].
  - assert (2 ^ Z.pos (digits2_pos p) <= 2 ^ (k - 1)) by (apply Z.pow_le_mono_r; lia). lia.
  - assert (2 ^ k <= 2 ^ (Z.pos (digits2_pos p) - 1)) by (apply Z.pow_le_mono_r; lia). lia.
Qed.

Lemma iter_pos_nat {A : Type} (f : A -> A) (p : positive) :
  forall x, SpecFloat.iter_pos f p x = Nat.iter (Pos.to_nat p) f x.
Proof.
  induction p as [p IH|p IH|]; intros x; simpl SpecFloat.iter_pos.
  - rewrite !IH, Pos2Nat.inj_xI, Nat.iter_succ_r.
    replace (2 * Pos.to_nat p)%nat with (Pos.to_nat p + Pos.to_nat p)%nat by lia.
    by rewrite Nat.iter_add.
  - rewrite !IH, Pos2Nat.inj_xO.
    replace (2 * Pos.to_nat p)%nat with (Pos.to_nat p + Pos.to_nat p)%nat by lia.
    by rewrite Nat.iter_add.
  - reflexivity.
Qed.

Lemma shr_1_m (mrs : shr_record) :
  0 <= shr_m mrs -> shr_m (shr_1 mrs) = shr_m mrs / 2.
Proof.
  destruct mrs as [m r s]. destruct m as [|p|p]; simpl; intros H; [reflexivity| |lia].
  destruct p as [p|p|]; simpl.
  - rewrite Pos2Z.inj_xI. apply Z.div_unique with (r := 1); lia.
  - rewrite Pos2Z.inj_xO. apply Z.div_unique with (r := 0); lia.
  - reflexivity.
Qed.

Lemma iter_shr_1_m (k : nat) (mrs : shr_record) :
  0 <= shr_m mrs ->
  shr_m (Nat.iter k shr_1 mrs) = shr_m mrs / 2 ^ Z.of_nat k.
Proof.
  intros H. induction k as [|k IH].
  - simpl. by rewrite Z.div_1_r.
  - rewrite Nat2Z.inj_succ, Z.pow_succ_r by lia. simpl Nat.iter.
    rewrite shr_1_m.
    + rewrite IH, Z.div_div by lia. f_equal. lia.
    + rewrite IH. apply Z.div_pos; lia.
Qed.

Lemma shr_m_of_loc (m : Z) (l : location) : shr_m (shr_record_of_loc m l) = m.
Proof. destruct l as [|[]]; reflexivity. Qed.

Lemma loc_of_loc (m : Z) (l : location) : loc_of_shr_record (shr_record_of_loc m l) = l.
Proof. destruct l as [|[]]; reflexivity. Qed.

Lemma round_nearest_even_near (m : Z) (l : location) :
  m <= round_nearest_even m l <= m + 1.
Proof. destruct l as [|[]]; simpl; try lia. destruct (Z.even m); lia. Qed.

(** The first shift of [binary_round_aux]: a mantissa of [53 + n] bits
    loses its [n] low bits. *)
Lemma shr_fexp_m (mx : positive) (ex : Z) (lx : location) :
  53 <= Z.pos (digits2_pos mx) -> -1074 <= ex ->
  let n := Z.pos (digits2_pos mx) - 53 in
  shr_m (shr_fexp 53 1024 (Z.pos mx) ex lx).1 = Z.pos mx / 2 ^ n
  /\ (shr_fexp 53 1024 (Z.pos mx) ex lx).2 = ex + n
  /\ (n = 0 -> (shr_fexp 53 1024 (Z.pos mx) ex lx).1 = shr_record_of_loc (Z.pos mx) lx).
Proof.
  intros Hd He n. unfold shr_fexp, fexp, emin. simpl Zdigits2.
  replace (Z.max (Z.pos (digits2_pos mx) + ex - 53) (3 - 1024 - 53) - ex) with n by lia.
  unfold shr. destruct n as [|p|p] eqn:En; [| |lia].
  - simpl. rewrite shr_m_of_loc, Z.div_1_r. split; [done|]. split; [lia|done].
  - simpl fst. simpl snd. rewrite iter_pos_nat, iter_shr_1_m, shr_m_of_loc.
    + rewrite positive_nat_Z. split; [reflexivity|]. split; [reflexivity|]. discriminate.
    + rewrite shr_m_of_loc. lia.
Qed.

(** Rounding a mantissa of at least 53 bits in the normal range: the low
    bits are dropped and the result is the truncated mantissa or the next
    one, with a 53-bit mantissa again. *)
Lemma binary_round_aux_encloses (mx : positive) (ex : Z) (lx : location) :
  53 <= Z.pos (digits2_pos mx) -> -1074 <= ex -> Z.pos (digits2_pos mx) + ex <= 1023 ->
  exists m e,
    binary_round_aux 53 1024 false (Z.pos mx) ex lx = S754_finite false m e
    /\ 2 ^ 52 <= Z.pos m < 2 ^ 53
    /\ ex + (Z.pos (digits2_pos mx) - 53) <= e <= ex + (Z.pos (digits2_pos mx) - 53) + 1
    /\ Z.pos mx / 2 ^ (Z.pos (digits2_pos mx) - 53)
       <= Z.pos m * 2 ^ (e - (ex + (Z.pos (digits2_pos mx) - 53)))
       <= Z.pos mx / 2 ^ (Z.pos (digits2_pos mx) - 53) + 1
    /\ (lx = loc_Exact -> Z.pos (digits2_pos mx) = 53 -> m = mx /\ e = ex).
Proof.
  intros Hd He Hov.
  set (d := Z.pos (digits2_pos mx)) in *. set (n := d - 53).
  destruct (shr_fexp_m mx ex lx Hd He) as (Hm1 & He1 & Hx1). fold d in Hm1, He1, Hx1.
  fold n in Hm1, He1, Hx1.
  unfold binary_round_aux.
  destruct (shr_fexp 53 1024 (Z.pos mx) ex lx) as [mrs' e'] eqn:E1. simpl in Hm1, He1, Hx1.
  set (m0 := Z.pos mx / 2 ^ n) in *.
  assert (Hm0 : 2 ^ 52 <= m0 < 2 ^ 53).
  { pose proof (digits2_pos_bounds mx) as [Hlo Hhi]. fold d in Hlo, Hhi.
    assert (Hn : 0 <= n) by (unfold n; lia).
    replace (d - 1) with (52 + n) in Hlo by (unfold n; lia).
    replace d with (53 + n) in Hhi by (unfold n; lia).
    rewrite Z.pow_add_r in Hlo, Hhi by lia.
    assert (0 < 2 ^ n) by (apply Z.pow_pos_nonneg; lia).
    unfold m0. split.
    - apply Z.div_le_lower_bound; lia.
    - apply Z.div_lt_upper_bound; lia. }
  pose proof (round_nearest_even_near (shr_m mrs') (loc_of_shr_record mrs')) as Hr.
  set (mr := round_nearest_even (shr_m mrs') (loc_of_shr_record mrs')) in *.
  rewrite Hm1 in Hr.
  destruct mr as [|pr|pr] eqn:Emr; [lia| |lia].
  assert (Hdr : Z.pos (digits2_pos pr) = 53 \/ (Z.pos pr = 2 ^ 53 /\ Z.pos (digits2_pos pr) = 54)).
  { destruct (Z.lt_ge_cases (Z.pos pr) (2 ^ 53)) as [Hlt|Hge].
    - left. apply digits2_pos_unique. simpl Z.sub. lia.
    - right. split; [lia|]. apply digits2_pos_unique. simpl Z.sub. lia. }
  assert (He' : -1074 <= e') by (unfold n in *; lia).
  destruct Hdr as [Hdr|[Hpr Hdr]].
  - destruct (shr_fexp_m pr e' loc_Exact) as (Hm2 & He2 & Hx2); [lia|lia|].
    rewrite Hdr in Hm2, He2, Hx2. simpl in Hm2, He2.
    destruct (shr_fexp 53 1024 (Z.pos pr) e' loc_Exact) as [mrs'' e''] eqn:E2.
    simpl in Hm2, He2, Hx2. rewrite Z.div_1_r in Hm2. rewrite Hm2.
    assert (e'' = e') as -> by lia.
    destruct (Z.leb_spec e' (1024 - 53)) as [_|Hbad]; [|unfold n in *; lia].
    pose proof (digits2_pos_bounds pr) as Hb. rewrite Hdr in Hb.
    exists pr, e'. split; [reflexivity|]. split; [lia|]. split; [unfold n in *; lia|].
    replace (e' - (ex + n)) with 0 by lia. rewrite Z.mul_1_r. split; [lia|].
    intros -> Hd53. assert (n = 0) as Hn0 by (unfold n; lia).
    specialize (Hx1 Hn0). subst mrs'. unfold mr in Emr. simpl in Emr.
    inversion Emr. split; [done|lia].
  - destruct (shr_fexp_m pr e' loc_Exact) as (Hm2 & He2 & Hx2); [lia|lia|].
    rewrite Hdr in Hm2, He2. simpl in Hm2, He2.
    destruct (shr_fexp 53 1024 (Z.pos pr) e' loc_Exact) as [mrs'' e''] eqn:E2.
    simpl in Hm2, He2. rewrite Hpr in Hm2. change (2 ^ 53 / 2) with (Z.pos (2 ^ 52)) in Hm2.
    rewrite Hm2.
    destruct (Z.leb_spec e'' (1024 - 53)) as [_|Hbad]; [|unfold n in *; lia].
    exists (2 ^ 52)%positive, e''. split; [reflexivity|].
    split; [change (Z.pos (2 ^ 52)) with (2 ^ 52); lia|].
    split; [unfold n in *; lia|].
    replace (e'' - (ex + n)) with 1 by lia.
    change (Z.pos (2 ^ 52) * 2 ^ 1) with (2 ^ 53). split; [lia|].
    intros -> Hd53. assert (n = 0) as Hn0 by (unfold n; lia).
    specialize (Hx1 Hn0). subst mrs'. unfold mr in Emr. simpl in Emr. unfold m0 in Hm0.
    rewrite Hn0, Z.div_1_r in Hm0. lia.
Qed.

Lemma iter_xO (k p : positive) : Z.pos (Pos.iter xO p k) = Z.pos p * 2 ^ Z.pos k.
Proof.
  induction k as [|k IH] using Pos.peano_ind.
  - simpl. lia.
  - rewrite Pos.iter_succ, Pos2Z.inj_xO, IH, Pos2Z.inj_succ, Z.pow_succ_r by lia. lia.
Qed.

(** [float64(z)] is exact below [2^53]. *)
Lemma ofInt_exact (z : Z) :
  0 < z < 2 ^ 53 ->
  exists m e,
    Float64.ofInt z = S754_finite false m e
    /\ 2 ^ 52 <= Z.pos m < 2 ^ 53 /\ -52 <= e <= 0 /\ Z.pos m = z * 2 ^ (- e).
Proof.
  intros [Hz1 Hz2]. destruct z as [|p|p]; [lia| |lia].
  unfold Float64.ofInt, Float64.prec, Float64.emax, binary_normalize, binary_round.
  pose proof (digits2_pos_bounds p) as [Hlo Hhi].
  set (d := Z.pos (digits2_pos p)) in *.
  assert (Hd : 1 <= d <= 53).
  { split; [unfold d; lia|].
    destruct (Z.le_gt_cases d 53) as [?|Hgt]; [done|].
    assert (2 ^ 53 <= 2 ^ (d - 1)) by (apply Z.pow_le_mono_r; lia). lia. }
  unfold fexp, emin. replace (Z.max (d + 0 - 53) (3 - 1024 - 53)) with (d - 53) by lia.
  unfold shl_align. replace (d - 53 - 0) with (d - 53) by lia.
  destruct (d - 53) as [|k|k] eqn:Ek; [| lia |].
  - destruct (binary_round_aux_encloses p 0 loc_Exact) as (m & e & -> & Hm & He & _ & Hex);
      fold d; try lia.
    destruct (Hex eq_refl ltac:(fold d; lia)) as [-> ->]. exists p, 0. repeat split; lia.
  - assert (Hmz : Z.pos (Pos.iter xO p k) = Z.pos p * 2 ^ Z.pos k) by apply iter_xO.
    assert (Hk : Z.pos k = 53 - d) by lia.
    assert (Hdz : Z.pos (digits2_pos (Pos.iter xO p k)) = 53).
    { apply digits2_pos_unique. rewrite Hmz, Hk.
      assert (E1 : 2 ^ (53 - 1) = 2 ^ (d - 1) * 2 ^ (53 - d))
        by (rewrite <- Z.pow_add_r by lia; f_equal; lia).
      assert (E2 : 2 ^ 53 = 2 ^ d * 2 ^ (53 - d))
        by (rewrite <- Z.pow_add_r by lia; f_equal; lia).
      rewrite E1, E2.
      assert (0 < 2 ^ (53 - d)) by (apply Z.pow_pos_nonneg; lia).
      split; [apply Z.mul_le_mono_nonneg_r; lia | apply Z.mul_lt_mono_pos_r; lia]. }
    destruct (binary_round_aux_encloses (Pos.iter xO p k) (Z.neg k) loc_Exact)
      as (m & e & -> & Hm & He & _ & Hex); try lia.
    destruct (Hex eq_refl Hdz) as [-> ->].
    eexists _, _. split; [reflexivity|]. split; [lia|]. split; [lia|].
    rewrite Hmz. simpl Z.opp. reflexivity.
Qed.

Lemma ofInt_within (z : Z) :
  0 <= z < 2 ^ 53 ->
  Float64.within (-52) 0 (Float64.ofInt z)
  /\ Float64.units (Float64.ofInt z) = z * 2 ^ 1074.
Proof.
  intros Hz. destruct (Z.eq_dec z 0) as [->|Hnz]; [split; [exact I | reflexivity]|].
  destruct (ofInt_exact z) as (m & e & -> & Hm & He & Hv); [lia|].
  split; [simpl; lia|]. simpl. rewrite Hv, <- Z.mul_assoc, <- Z.pow_add_r by lia.
  f_equal. f_equal. lia.
Qed.

(** [int(f)] discards the fraction. *)
Lemma toInt_units (f : spec_float) :
  Float64.within (-1074) 900 f -> Float64.units f < 2 ^ 63 * 2 ^ 1074 ->
  Float64.toInt f = Float64.units f / 2 ^ 1074.
Proof.
  destruct f as [[]|[]| |[] m e]; simpl; try done.
  intros [Hm He] Hlt.
  assert (Hv : (if 0 <=? e then Z.pos m * 2 ^ e else Z.pos m / 2 ^ (- e))
               = Z.pos m * 2 ^ (e + 1074) / 2 ^ 1074).
  { destruct (Z.leb_spec 0 e).
    - rewrite Z.pow_add_r, Z.mul_assoc by lia.
      rewrite Z.div_mul; [reflexivity|]. apply Z.pow_nonzero; lia.
    - assert (E : 2 ^ 1074 = 2 ^ (- e) * 2 ^ (e + 1074))
        by (rewrite <- Z.pow_add_r by lia; f_equal; lia).
      rewrite E, Z.div_mul_cancel_r; [reflexivity| |]; apply Z.pow_nonzero; lia. }
  rewrite Hv.
  assert (0 <= Z.pos m * 2 ^ (e + 1074) / 2 ^ 1074 < 2 ^ 63).
  { split.
    - apply Z.div_pos; [|lia]. apply Z.mul_nonneg_nonneg; [lia|]. apply Z.pow_nonneg. lia.
    - apply Z.div_lt_upper_bound; lia. }
  destruct (Z.leb_spec (- 2 ^ 63) (Z.pos m * 2 ^ (e + 1074) / 2 ^ 1074)); [|lia].
  destruct (Z.ltb_spec (Z.pos m * 2 ^ (e + 1074) / 2 ^ 1074) (2 ^ 63)); [|lia].
  reflexivity.
Qed.

(** What a rounded value keeps of the exact one: it is at most
    [1 + 2^-52] times it, and it is not below any grid point under it. *)
Lemma rounded_upper (a b v : Z) :
  0 < b -> Float64.rounded a b v -> v * b * 2 ^ 52 <= a * (2 ^ 52 + 1).
Proof.
  intros Hb (g & m & Hg & H52 & Hm & ->).
  assert (HG : 0 < 2 ^ g) by (apply Z.pow_pos_nonneg; lia).
  set (G := 2 ^ g) in *. set (m0 := a / (b * G)) in *.
  assert (Hdiv : m0 * (b * G) <= a).
  { unfold m0. rewrite Z.mul_comm. apply Z.mul_div_le. nia. }
  assert (0 < b * G) by nia.
  assert (m * 2 ^ 52 <= m0 * (2 ^ 52 + 1)) by lia.
  replace (m * G * b * 2 ^ 52) with (m * 2 ^ 52 * (b * G)) by ring.
  transitivity (m0 * (2 ^ 52 + 1) * (b * G)).
  - apply Z.mul_le_mono_nonneg_r; lia.
  - replace (m0 * (2 ^ 52 + 1) * (b * G)) with (m0 * (b * G) * (2 ^ 52 + 1)) by ring.
    apply Z.mul_le_mono_nonneg_r; lia.
Qed.

Lemma rounded_lower (a b v q k : Z) :
  0 < b -> Float64.rounded a b v ->
  0 <= k -> a < b * 2 ^ (k + 53) -> (2 ^ k | q) -> q * b <= a -> q <= v.
Proof.
  intros Hb (g & m & Hg & H52 & Hm & ->) Hk Hlt Hdvd Hq.
  assert (HG : 0 < 2 ^ g) by (apply Z.pow_pos_nonneg; lia).
  set (m0 := a / (b * 2 ^ g)) in *.
  assert (0 < b * 2 ^ g) by nia.
  assert (Hdiv : m0 * (b * 2 ^ g) <= a).
  { unfold m0. rewrite Z.mul_comm. apply Z.mul_div_le. lia. }
  assert (Hgk : g <= k).
  { destruct (Z.le_gt_cases g k) as [?|Hgt]; [done|]. exfalso.
    assert (2 ^ (k + 1) <= 2 ^ g) by (apply Z.pow_le_mono_r; lia).
    assert (E : 2 ^ (k + 53) = 2 ^ 52 * 2 ^ (k + 1))
      by (rewrite <- Z.pow_add_r by lia; f_equal; lia).
    rewrite E in Hlt.
    assert (2 ^ 52 * (b * 2 ^ g) <= m0 * (b * 2 ^ g))
      by (apply Z.mul_le_mono_nonneg_r; lia).
    assert (b * (2 ^ 52 * 2 ^ (k + 1)) <= 2 ^ 52 * (b * 2 ^ g)).
    { replace (b * (2 ^ 52 * 2 ^ (k + 1))) with (2 ^ 52 * b * 2 ^ (k + 1)) by ring.
      replace (2 ^ 52 * (b * 2 ^ g)) with (2 ^ 52 * b * 2 ^ g) by ring.
      apply Z.mul_le_mono_nonneg_l; lia. }
    lia. }
  assert (Hdg : (2 ^ g | q)).
  { apply Z.divide_trans with (2 ^ k); [|done].
    exists (2 ^ (k - g)). rewrite <- Z.pow_add_r by lia. f_equal. lia. }
  destruct Hdg as [q' ->].
  assert (q' <= m0).
  { unfold m0. apply Z.div_le_lower_bound; [lia|].
    replace (b * 2 ^ g * q') with (q' * 2 ^ g * b) by ring. done. }
  transitivity (m0 * 2 ^ g).
  - apply Z.mul_le_mono_nonneg_r; lia.
  - apply Z.mul_le_mono_nonneg_r; lia.
Qed.
Lemma div_core (m1 m2 : positive) (e1 e2 : Z) :
  2 ^ 52 <= Z.pos m1 < 2 ^ 53 -> 2 ^ 52 <= Z.pos m2 < 2 ^ 53 ->
  -1021 <= e1 - e2 ->
  SFdiv_core_binary 53 1024 (Z.pos m1) e1 (Z.pos m2) e2
  = (Z.pos m1 * 2 ^ 53 / Z.pos m2, e1 - e2 - 53,
     new_location (Z.pos m2) (Z.pos m1 * 2 ^ 53 mod Z.pos m2)).
Proof.
  intros H1 H2 He. unfold SFdiv_core_binary. simpl Zdigits2.
  rewrite (digits2_pos_unique m1 53), (digits2_pos_unique m2 53) by (simpl Z.sub; lia).
  unfold fexp, emin.
  replace (Z.min (Z.max (53 + e1 - (53 + e2) - 53) (3 - 1024 - 53)) (e1 - e2))
    with (e1 - e2 - 53) by lia.
  replace (e1 - e2 - (e1 - e2 - 53)) with 53 by lia.
  cbv zeta. rewrite Z.shiftl_mul_pow2 by lia.
  unfold Z.div, Z.modulo.
  destruct (Z.div_eucl (Z.pos m1 * 2 ^ 53) (Z.pos m2)) as [q r]. reflexivity.
Qed.

Lemma pow2_split (a b : Z) : 0 <= a -> 0 <= b -> 2 ^ (a + b) = 2 ^ a * 2 ^ b.
Proof. intros. by rewrite Z.pow_add_r. Qed.

(** A quotient of two positive floats is the exact quotient, rounded. *)
Lemma div_rounded (m1 m2 : positive) (e1 e2 : Z) :
  2 ^ 52 <= Z.pos m1 < 2 ^ 53 -> 2 ^ 52 <= Z.pos m2 < 2 ^ 53 ->
  -500 <= e1 <= 500 -> -500 <= e2 <= 500 ->
  Float64.within (e1 - e2 - 53) (e1 - e2 - 51)
    (Float64.div (S754_finite false m1 e1) (S754_finite false m2 e2))
  /\ Float64.rounded
       (Float64.units (S754_finite false m1 e1) * 2 ^ 1074)
       (Float64.units (S754_finite false m2 e2))
       (Float64.units (Float64.div (S754_finite false m1 e1) (S754_finite false m2 e2))).
Proof.
  intros H1 H2 He1 He2.
  unfold Float64.div, Float64.prec, Float64.emax, SFdiv.
  rewrite div_core by lia. simpl xorb.
  set (q := Z.pos m1 * 2 ^ 53 / Z.pos m2).
  assert (Hq : 2 ^ 52 <= q < 2 ^ 54).
  { unfold q. split.
    - apply Z.div_le_lower_bound; lia.
    - apply Z.div_lt_upper_bound; lia. }
  destruct q as [|pq|pq] eqn:Eq; [lia| |lia].
  pose proof (digits2_pos_bounds pq) as Hdb.
  set (d := Z.pos (digits2_pos pq)) in *.
  assert (Hd : d = 53 \/ d = 54).
  { destruct (Z.lt_ge_cases (Z.pos pq) (2 ^ 53)).
    - left. apply digits2_pos_unique. simpl Z.sub. lia.
    - right. apply digits2_pos_unique. simpl Z.sub. lia. }
  destruct (binary_round_aux_encloses pq (e1 - e2 - 53)
              (new_location (Z.pos m2) (Z.pos m1 * 2 ^ 53 mod Z.pos m2)))
    as (m & e & -> & Hm & He & Hr & _); fold d; try lia.
  fold d in He, Hr. set (n := d - 53) in *.
  split; [simpl; lia|].
  simpl Float64.units.
  exists (e1 - e2 - 53 + n + 1074), (Z.pos m * 2 ^ (e - (e1 - e2 - 53 + n))).
  assert (Hn : 0 <= n <= 1) by lia.
  set (P := 2 ^ (e2 + (e1 - e2 - 53 + n) + 2148)).
  assert (HP : 0 < P) by (apply Z.pow_pos_nonneg; lia).
  assert (EA : Z.pos m1 * 2 ^ (e1 + 1074) * 2 ^ 1074 = Z.pos m1 * 2 ^ (53 - n) * P).
  { unfold P. rewrite <- !Z.mul_assoc, <- !pow2_split by lia. f_equal. f_equal. lia. }
  assert (EB : Z.pos m2 * 2 ^ (e2 + 1074) * 2 ^ (e1 - e2 - 53 + n + 1074) = Z.pos m2 * P).
  { unfold P. rewrite <- !Z.mul_assoc, <- !pow2_split by lia. f_equal. f_equal. lia. }
  assert (Em0 : Z.pos m1 * 2 ^ (e1 + 1074) * 2 ^ 1074
                / (Z.pos m2 * 2 ^ (e2 + 1074) * 2 ^ (e1 - e2 - 53 + n + 1074))
                = Z.pos pq / 2 ^ n).
  { rewrite EA, EB, Z.div_mul_cancel_r by lia.
    rewrite <- Eq. unfold q. rewrite Z.div_div by lia.
    replace (2 ^ 53) with (2 ^ (53 - n) * 2 ^ n) by (rewrite <- pow2_split by lia; f_equal; lia).
    rewrite Z.mul_assoc, Z.div_mul_cancel_r; [reflexivity|lia|].
    apply Z.pow_nonzero; lia. }
  rewrite Em0. split; [lia|]. split.
  { apply Z.div_le_lower_bound; [apply Z.pow_pos_nonneg; lia|].
    destruct Hdb as [Hlo _]. replace (d - 1) with (52 + n) in Hlo by (unfold n; lia).
    rewrite pow2_split in Hlo by lia. lia. }
  split.
  { replace (e - (e1 - e2 - 53 + n)) with (e - (e1 - e2 - 53 + (d - 53))) by (unfold n; lia).
    exact Hr. }
  rewrite <- Z.mul_assoc, <- pow2_split by lia. f_equal. f_equal. lia.
Qed.

Lemma shl_align_fst (m : positive) (e ez : Z) :
  ez <= e -> Z.pos (shl_align m e ez).1 = Z.pos m * 2 ^ (e - ez).
Proof.
  intros H. unfold shl_align. destruct (ez - e) as [|p|p] eqn:E; simpl.
  - replace (e - ez) with 0 by lia. lia.
  - lia.
  - rewrite iter_xO. f_equal. f_equal. lia.
Qed.

Lemma pow2_lt_exponent (a b : Z) : 0 <= b -> 2 ^ a < 2 ^ b -> a < b.
Proof.
  intros Hb H. destruct (Z.lt_ge_cases a b) as [?|Hge]; [done|].
  assert (2 ^ b <= 2 ^ a) by (apply Z.pow_le_mono_r; lia). lia.
Qed.

Lemma add_core (m1 m2 : positive) (e1 e2 : Z) :
  2 ^ 52 <= Z.pos m1 < 2 ^ 53 -> 2 ^ 52 <= Z.pos m2 < 2 ^ 53 ->
  -500 <= e1 <= 500 -> -500 <= e2 <= 500 ->
  exists ps,
    Z.pos ps = Z.pos m1 * 2 ^ (e1 - Z.min e1 e2) + Z.pos m2 * 2 ^ (e2 - Z.min e1 e2)
    /\ 53 <= Z.pos (digits2_pos ps) <= 54 + (Z.max e1 e2 - Z.min e1 e2)
    /\ Float64.add (S754_finite false m1 e1) (S754_finite false m2 e2)
       = binary_round_aux 53 1024 false (Z.pos ps) (Z.min e1 e2) loc_Exact.
Proof.
  intros H1 H2 He1 He2.
  unfold Float64.add, Float64.prec, Float64.emax, SFadd, cond_Zopp.
  set (ez := Z.min e1 e2).
  rewrite !shl_align_fst by (unfold ez; lia).
  set (S := Z.pos m1 * 2 ^ (e1 - ez) + Z.pos m2 * 2 ^ (e2 - ez)).
  assert (Hp1 : 1 <= 2 ^ (e1 - ez)) by (apply (Z.pow_le_mono_r 2 0); unfold ez; lia).
  assert (Hp2 : 1 <= 2 ^ (e2 - ez)) by (apply (Z.pow_le_mono_r 2 0); unfold ez; lia).
  set (mx := Z.max e1 e2).
  assert (Hp3 : 2 ^ (e1 - ez) <= 2 ^ (mx - ez)) by (apply Z.pow_le_mono_r; unfold ez, mx; lia).
  assert (Hp4 : 2 ^ (e2 - ez) <= 2 ^ (mx - ez)) by (apply Z.pow_le_mono_r; unfold ez, mx; lia).
  assert (HS : 2 ^ 52 <= S < 2 ^ (54 + (mx - ez))).
  { unfold S. split; [nia|].
    rewrite pow2_split by (unfold ez, mx; lia). nia. }
  destruct S as [|ps|ps] eqn:ES; [lia| |lia].
  exists ps. split; [reflexivity|].
  unfold binary_normalize, binary_round.
  pose proof (digits2_pos_bounds ps) as Hdb.
  set (d := Z.pos (digits2_pos ps)) in *.
  assert (Hd : 53 <= d <= 54 + (mx - ez)).
  { split.
    - assert (52 < d); [|lia]. apply pow2_lt_exponent; [unfold d; lia|lia].
    - assert (d - 1 < 54 + (mx - ez)); [|lia].
      apply pow2_lt_exponent; [unfold ez, mx; lia|lia]. }
  split; [exact Hd|].
  unfold fexp, emin.
  replace (Z.max (d + ez - 53) (3 - 1024 - 53)) with (ez + (d - 53)) by (unfold ez; lia).
  unfold shl_align.
  replace (ez + (d - 53) - ez) with (d - 53) by lia.
  destruct (d - 53) eqn:E; [reflexivity|reflexivity|lia].
Qed.

(** A sum of two positive floats is the exact sum, rounded. *)
Lemma add_rounded (m1 m2 : positive) (e1 e2 : Z) :
  2 ^ 52 <= Z.pos m1 < 2 ^ 53 -> 2 ^ 52 <= Z.pos m2 < 2 ^ 53 ->
  -500 <= e1 <= 500 -> -500 <= e2 <= 500 ->
  Float64.within (Z.min e1 e2) (Z.max e1 e2 + 2)
    (Float64.add (S754_finite false m1 e1) (S754_finite false m2 e2))
  /\ Float64.rounded
       (Float64.units (S754_finite false m1 e1) + Float64.units (S754_finite false m2 e2))
       1
       (Float64.units (Float64.add (S754_finite false m1 e1) (S754_finite false m2 e2))).
Proof.
  intros H1 H2 He1 He2.
  destruct (add_core m1 m2 e1 e2 H1 H2 He1 He2) as (ps & ES & Hd & ->).
  set (ez := Z.min e1 e2) in *. set (mx := Z.max e1 e2) in *.
  pose proof (digits2_pos_bounds ps) as Hdb.
  set (d := Z.pos (digits2_pos ps)) in *.
  destruct (binary_round_aux_encloses ps ez loc_Exact)
    as (m & e & -> & Hm & He & Hr & _); fold d; try (unfold ez, mx in *; lia).
  fold d in He, Hr. set (n := d - 53) in *.
  split; [simpl; unfold ez, mx in *; lia|].
  simpl Float64.units.
  exists (ez + n + 1074), (Z.pos m * 2 ^ (e - (ez + n))).
  assert (Hn : 0 <= n) by (unfold n; lia).
  assert (Hez : -500 <= ez <= 500) by (unfold ez; lia).
  assert (EA : Z.pos m1 * 2 ^ (e1 + 1074) + Z.pos m2 * 2 ^ (e2 + 1074)
               = Z.pos ps * 2 ^ (ez + 1074)).
  { rewrite ES. rewrite Z.mul_add_distr_r, <- !Z.mul_assoc.
    rewrite <- !pow2_split by (unfold ez; lia).
    f_equal; f_equal; f_equal; lia. }
  assert (Em0 : (Z.pos m1 * 2 ^ (e1 + 1074) + Z.pos m2 * 2 ^ (e2 + 1074))
                / (1 * 2 ^ (ez + n + 1074)) = Z.pos ps / 2 ^ n).
  { rewrite EA, Z.mul_1_l.
    replace (ez + n + 1074) with (n + (ez + 1074)) by lia.
    rewrite (pow2_split n (ez + 1074)) by lia.
    rewrite Z.div_mul_cancel_r; [reflexivity| |]; apply Z.pow_nonzero; lia. }
  rewrite Em0. split; [lia|]. split.
  { apply Z.div_le_lower_bound; [apply Z.pow_pos_nonneg; lia|].
    destruct Hdb as [Hlo _]. replace (d - 1) with (52 + n) in Hlo by (unfold n; lia).
    rewrite pow2_split in Hlo by lia. lia. }
  split; [exact Hr|].
  rewrite <- Z.mul_assoc, <- pow2_split by lia. f_equal. f_equal. lia.
Qed.

Lemma within_weaken (lo hi lo' hi' : Z) (f : spec_float) :
  lo' <= lo -> hi <= hi' -> Float64.within lo hi f -> Float64.within lo' hi' f.
Proof. destruct f as [[]|[]| |[] m e]; simpl; try done. lia. Qed.

Lemma units_nonneg (f : spec_float) : 0 <= Float64.units f.
Proof.
  destruct f as [[]|[]| |[] m e]; simpl; lia.
Qed.

Lemma pow2_1074_pos : 0 < 2 ^ 1074.
Proof. apply Z.pow_pos_nonneg; lia. Qed.

(** ** Durations in units *)

(** The float count of units is not below the whole count [q], and exceeds
    the exact count by a relative [2^-52] at most, twice. *)
Lemma inUnits_bounds (U d : Z) :
  2 ^ 20 <= U < 2 ^ 42 -> 0 <= d < 2 ^ 63 ->
  Float64.within (-110) 10 (inUnits U d)
  /\ (d / U) * 2 ^ 1074 <= Float64.units (inUnits U d)
  /\ exists vf,
       0 <= vf
       /\ vf * U * 2 ^ 52 <= (d mod U) * 2 ^ 1074 * (2 ^ 52 + 1)
       /\ Float64.units (inUnits U d) * 2 ^ 52
          <= ((d / U) * 2 ^ 1074 + vf) * (2 ^ 52 + 1).
Proof.
  intros HU Hd. unfold inUnits.
  rewrite Z.quot_div_nonneg, Z.rem_mod_nonneg by lia.
  pose proof pow2_1074_pos as Hu. set (u := 2 ^ 1074) in *.
  set (q := d / U). set (r := d mod U).
  assert (Hr : 0 <= r < U) by (apply Z.mod_pos_bound; lia).
  assert (Hq : 0 <= q < 2 ^ 43).
  { unfold q. split; [apply Z.div_pos; lia|]. apply Z.div_lt_upper_bound; lia. }
  destruct (ofInt_within q) as [Wq Vq]; [lia|].
  destruct (ofInt_within r) as [Wr Vr]; [lia|].
  destruct (ofInt_exact U) as (mU & eU & EU & HmU & HeU & HvU); [lia|].
  assert (VU : Float64.units (Float64.ofInt U) = U * u).
  { apply ofInt_within. lia. }
  fold u in Vq, Vr.
  set (frac := Float64.div (Float64.ofInt r) (Float64.ofInt U)).
  assert (Hfrac : Float64.within (-105) 1 frac
                  /\ Float64.units frac * U * 2 ^ 52 <= r * u * (2 ^ 52 + 1)).
  { unfold frac. rewrite EU in *.
    destruct (Float64.ofInt r) as [[]|[]| |[] mr er] eqn:Er; simpl in Wr; try done.
    - simpl. lia.
    - destruct (div_rounded mr mU er eU) as [W R]; try lia.
      split; [eapply within_weaken; [| |exact W]; lia|].
      apply rounded_upper in R; [|rewrite VU; lia].
      rewrite Vr, VU in R.
      assert (Float64.units (Float64.div (S754_finite false mr er) (S754_finite false mU eU))
              * U * 2 ^ 52 * u <= r * u * (2 ^ 52 + 1) * u) by lia.
      apply Z.mul_le_mono_pos_r with u; lia. }
  destruct Hfrac as [Wf Uf].
  pose proof (units_nonneg frac) as Hvf0.
  set (vf := Float64.units frac) in *.
  assert (Hsum : Float64.within (-110) 10 (Float64.add (Float64.ofInt q) frac)
                 /\ q * u <= Float64.units (Float64.add (Float64.ofInt q) frac)
                 /\ Float64.units (Float64.add (Float64.ofInt q) frac) * 2 ^ 52
                    <= (q * u + vf) * (2 ^ 52 + 1)).
  { unfold vf in *. clearbody frac.
    destruct (Float64.ofInt q) as [[]|[]| |[] mq eq] eqn:Eq; simpl in Wq; try done;
      destruct frac as [[]|[]| |[] mf ef] eqn:Ef; simpl in Wf; try done.
    - simpl in *. lia.
    - change (Float64.add (S754_zero false) (S754_finite false mf ef))
        with (S754_finite false mf ef).
      split; [simpl; lia|]. simpl Float64.units in *. lia.
    - change (Float64.add (S754_finite false mq eq) (S754_zero false))
        with (S754_finite false mq eq).
      split; [simpl; lia|]. simpl Float64.units in *. lia.
    - destruct (add_rounded mq mf eq ef) as [W R]; try lia.
      split; [eapply within_weaken; [| |exact W]; lia|].
      rewrite Vq in R. split.
      + apply (rounded_lower _ 1 _ (q * u) 1074) in R; try lia.
        * assert (Float64.units (S754_finite false mf ef) * U * 2 ^ 52
                  < U * u * 2 ^ 53) by nia.
          assert (Float64.units (S754_finite false mf ef) < 2 * u) by nia.
          change (2 ^ (1074 + 53)) with (2 ^ 53 * u). lia.
        * exists q. unfold u. lia.
      + apply rounded_upper in R; lia. }
  destruct Hsum as (Ws & Ls & Us).
  split; [exact Ws|]. split; [exact Ls|].
  exists vf. split; [exact Hvf0|]. split; [exact Uf|exact Us].
Qed.

(** ** Duration formatting *)

Lemma Hours_inUnits (d : Z) : Hours d = inUnits Time.Hour d.
Proof. reflexivity. Qed.

Lemma Minutes_inUnits (d : Z) : Minutes d = inUnits Time.Minute d.
Proof. reflexivity. Qed.

Lemma Seconds_inUnits (d : Z) : Seconds d = inUnits Time.Second d.
Proof. reflexivity. Qed.

(** [int(d.Hours())] is the whole number of hours, at least up to 1247
    hours. *)
Lemma toInt_Hours (d : Z) :
  0 <= d < 2 ^ 63 ->
  d / Time.Hour <= Float64.toInt (Hours d)
  /\ (d / Time.Hour < 1248 -> Float64.toInt (Hours d) = d / Time.Hour).
Proof.
  intros Hd. rewrite Hours_inUnits.
  destruct (inUnits_bounds Time.Hour d) as (W & L & vf & Hvf & Uf & Us); [done|lia|].
  change Time.Hour with 3600000000000 in *.
  set (q := d / 3600000000000) in *. set (r := d mod 3600000000000) in *.
  assert (Hr : 0 <= r < 3600000000000) by (apply Z.mod_pos_bound; lia).
  assert (Hq : 0 <= q < 2 ^ 43).
  { unfold q. split; [apply Z.div_pos; lia|]. apply Z.div_lt_upper_bound; lia. }
  set (V := Float64.units (inUnits 3600000000000 d)) in *.
  pose proof pow2_1074_pos as Hu.
  rewrite toInt_units; [| eapply within_weaken; [| |exact W]; lia |].
  2:{ fold V. concrete_unit. lia. }
  fold V. clearbody q r V. split.
  - apply Z.div_le_lower_bound; lia.
  - intros Hq'. symmetry. apply Z.div_unique with (r := V - q * 2 ^ 1074).
    + left. split; [lia|]. concrete_unit. lia.
    + lia.
Qed.

Lemma toInt_Minutes (d : Z) :
  0 <= d < 2 ^ 63 ->
  d / Time.Minute <= Float64.toInt (Minutes d)
  /\ (d / Time.Minute < 75000 -> Float64.toInt (Minutes d) = d / Time.Minute).
Proof.
  intros Hd. rewrite Minutes_inUnits.
  destruct (inUnits_bounds Time.Minute d) as (W & L & vf & Hvf & Uf & Us); [done|lia|].
  change Time.Minute with 60000000000 in *.
  set (q := d / 60000000000) in *. set (r := d mod 60000000000) in *.
  assert (Hr : 0 <= r < 60000000000) by (apply Z.mod_pos_bound; lia).
  assert (Hq : 0 <= q < 2 ^ 43).
  { unfold q. split; [apply Z.div_pos; lia|]. apply Z.div_lt_upper_bound; lia. }
  set (V := Float64.units (inUnits 60000000000 d)) in *.
  pose proof pow2_1074_pos as Hu.
  rewrite toInt_units; [| eapply within_weaken; [| |exact W]; lia |].
  2:{ fold V. concrete_unit. lia. }
  fold V. clearbody q r V. split.
  - apply Z.div_le_lower_bound; lia.
  - intros Hq'. symmetry. apply Z.div_unique with (r := V - q * 2 ^ 1074).
    + left. split; [lia|]. concrete_unit. lia.
    + lia.
Qed.

Lemma toInt_Seconds (d : Z) :
  0 <= d < 2 ^ 63 ->
  d / Time.Second <= Float64.toInt (Seconds d)
  /\ (d / Time.Second < 4500000 -> Float64.toInt (Seconds d) = d / Time.Second).
Proof.
  intros Hd. rewrite Seconds_inUnits.
  destruct (inUnits_bounds Time.Second d) as (W & L & vf & Hvf & Uf & Us); [done|lia|].
  change Time.Second with 1000000000 in *.
  set (q := d / 1000000000) in *. set (r := d mod 1000000000) in *.
  assert (Hr : 0 <= r < 1000000000) by (apply Z.mod_pos_bound; lia).
  assert (Hq : 0 <= q < 2 ^ 43).
  { unfold q. split; [apply Z.div_pos; lia|]. apply Z.div_lt_upper_bound; lia. }
  set (V := Float64.units (inUnits 1000000000 d)) in *.
  pose proof pow2_1074_pos as Hu.
  rewrite toInt_units; [| eapply within_weaken; [| |exact W]; lia |].
  2:{ fold V. concrete_unit. lia. }
  fold V. clearbody q r V. split.
  - apply Z.div_le_lower_bound; lia.
  - intros Hq'. symmetry. apply Z.div_unique with (r := V - q * 2 ^ 1074).
    + left. split; [lia|]. concrete_unit. lia.
    + lia.
Qed.

(** [int(d.Hours() / 24)]: positive from one day on, zero below, and the
    whole number of days at least up to 599 hours. *)
Lemma toInt_days (d : Z) :
  0 <= d < 2 ^ 63 ->
  (24 <= d / Time.Hour -> 1 <= Float64.toInt (Float64.div (Hours d) (Float64.ofInt 24)))
  /\ (d / Time.Hour < 24 -> Float64.toInt (Float64.div (Hours d) (Float64.ofInt 24)) = 0)
  /\ (d / Time.Hour < 600 ->
      Float64.toInt (Float64.div (Hours d) (Float64.ofInt 24)) = d / Time.Hour / 24).
Proof.
  intros Hd. rewrite Hours_inUnits.
  destruct (inUnits_bounds Time.Hour d) as (W & L & vf & Hvf & Uf & Us); [done|lia|].
  change Time.Hour with 3600000000000 in *.
  set (q := d / 3600000000000) in *. set (r := d mod 3600000000000) in *.
  assert (Hr : 0 <= r < 3600000000000) by (apply Z.mod_pos_bound; lia).
  assert (Hq : 0 <= q < 2 ^ 43).
  { unfold q. split; [apply Z.div_pos; lia|]. apply Z.div_lt_upper_bound; lia. }
  pose proof pow2_1074_pos as Hu.
  destruct (ofInt_exact 24) as (m24 & e24 & E24 & Hm24 & He24 & Hv24); [lia|].
  assert (V24 : Float64.units (Float64.ofInt 24) = 24 * 2 ^ 1074) by (apply ofInt_within; lia).
  rewrite E24 in *.
  set (F := inUnits 3600000000000 d) in *. clearbody q r F.
  destruct F as [[]|[]| |[] m e] eqn:EF; simpl in W; try done.
  - simpl Float64.units in *. simpl Float64.div. simpl Float64.toInt.
    assert (q = 0) by lia. subst q. repeat split; lia.
  - destruct (div_rounded m m24 e e24) as [Wd R]; try lia.
    set (V := Float64.units (S754_finite false m e)) in *.
    set (D := Float64.units (Float64.div (S754_finite false m e) (S754_finite false m24 e24)))
      in *.
    rewrite V24 in R.
    assert (HV : V < 2 ^ 44 * 2 ^ 1074) by (concrete_unit; lia).
    assert (Up : D * 24 * 2 ^ 52 <= V * (2 ^ 52 + 1)).
    { apply rounded_upper in R; [|lia].
      apply Z.mul_le_mono_pos_r with (2 ^ 1074); lia. }
    assert (Lo : forall k, 0 <= k -> 24 * k <= q -> k * 2 ^ 1074 <= D).
    { intros k Hk Hkq.
      apply (rounded_lower (V * 2 ^ 1074) (24 * 2 ^ 1074) D (k * 2 ^ 1074) 1074);
        [lia | exact R | lia | | | ].
      - change (2 ^ (1074 + 53)) with (2 ^ 53 * 2 ^ 1074).
        replace (24 * 2 ^ 1074 * (2 ^ 53 * 2 ^ 1074))
          with (24 * 2 ^ 53 * 2 ^ 1074 * 2 ^ 1074) by ring.
        apply Z.mul_lt_mono_pos_r; [lia|]. concrete_unit. lia.
      - exists k. lia.
      - replace (k * 2 ^ 1074 * (24 * 2 ^ 1074)) with (24 * k * 2 ^ 1074 * 2 ^ 1074) by ring.
        apply Z.mul_le_mono_nonneg_r; [lia|]. concrete_unit. lia. }
    rewrite toInt_units; [| eapply within_weaken; [| |exact Wd]; lia |].
    2:{ fold D. concrete_unit. lia. }
    fold D. assert (HD0 : 0 <= D) by apply units_nonneg.
    clearbody V D. split; [|split].
    + intros H24. specialize (Lo 1 ltac:(lia) ltac:(lia)).
      apply Z.div_le_lower_bound; lia.
    + intros H24. apply Z.div_small. split; [lia|]. concrete_unit. lia.
    + intros H600.
      assert (Hk : 24 * (q / 24) <= q < 24 * (q / 24) + 24).
      { pose proof (Z.mul_div_le q 24). pose proof (Z.mul_succ_div_gt q 24). lia. }
      assert (Hk0 : 0 <= q / 24) by (apply Z.div_pos; lia).
      specialize (Lo (q / 24) Hk0 ltac:(lia)).
      set (k := q / 24) in *. clearbody k. symmetry. apply Z.div_unique with (r := D - k * 2 ^ 1074).
      * left. split; [lia|]. concrete_unit. lia.
      * lia.
Qed.

(** C8. [formatDuration] renders a negative duration as [0 seconds] and
    otherwise the largest applicable pair of units: days and hours from one
    day on, else hours and minutes from one hour on, else minutes and
    seconds from one minute on, else seconds alone.  Below one day the
    numbers are the whole units of the duration, and so are the days and
    hours up to 600 hours; 90000 seconds render as [1 days 1 hours]. *)
Theorem formatDuration_units (d : Z) :
  - 2 ^ 63 <= d < 2 ^ 63 ->
  (d < 0 -> formatDuration d = "0 seconds")
  /\ (24 * Time.Hour <= d ->
      exists days hours,
        1 <= days /\ 0 <= hours < 24
        /\ formatDuration d = Fmt.d days +:+ " days " +:+ Fmt.d hours +:+ " hours")
  /\ (24 * Time.Hour <= d < 600 * Time.Hour ->
      formatDuration d
      = Fmt.d (d / (24 * Time.Hour)) +:+ " days " +:+ Fmt.d (d / Time.Hour mod 24) +:+ " hours")
  /\ (Time.Hour <= d < 24 * Time.Hour ->
      formatDuration d
      = Fmt.d (d / Time.Hour) +:+ " hours " +:+ Fmt.d (d / Time.Minute mod 60) +:+ " minutes")
  /\ (Time.Minute <= d < Time.Hour ->
      formatDuration d
      = Fmt.d (d / Time.Minute) +:+ " minutes "
          +:+ Fmt.d (d / Time.Second mod 60) +:+ " seconds")
  /\ (0 <= d < Time.Minute -> formatDuration d = Fmt.d (d / Time.Second) +:+ " seconds")
  /\ formatDuration (90000 * Time.Second) = "1 days 1 hours".
Proof.
  intros Hd.
  split; [intros Hneg; unfold formatDuration; destruct (Z.ltb_spec d 0); [done|lia]|].
  assert (Hpos : 0 <= d ->
                 formatDuration d
                 = let days := Float64.toInt (Float64.div (Hours d) (Float64.ofInt 24)) in
                   let hours := Z.rem (Float64.toInt (Hours d)) 24 in
                   let minutes := Z.rem (Float64.toInt (Minutes d)) 60 in
                   let seconds := Z.rem (Float64.toInt (Seconds d)) 60 in
                   if 0 <? days then Fmt.d days +:+ " days " +:+ Fmt.d hours +:+ " hours"
                   else if 0 <? hours
                        then Fmt.d hours +:+ " hours " +:+ Fmt.d minutes +:+ " minutes"
                        else if 0 <? minutes
                             then Fmt.d minutes +:+ " minutes " +:+ Fmt.d seconds +:+ " seconds"
                             else Fmt.d seconds +:+ " seconds").
  { intros H0. unfold formatDuration. destruct (Z.ltb_spec d 0); [lia|reflexivity]. }
  change Time.Hour with 3600000000000 in *. change Time.Minute with 60000000000 in *.
  change Time.Second with 1000000000 in *.
  assert (Hdiv : 0 <= d ->
                 (3600000000000 * (d / 3600000000000) <= d
                  < 3600000000000 * (d / 3600000000000) + 3600000000000)
                 /\ (60000000000 * (d / 60000000000) <= d
                     < 60000000000 * (d / 60000000000) + 60000000000)
                 /\ (1000000000 * (d / 1000000000) <= d
                     < 1000000000 * (d / 1000000000) + 1000000000)).
  { intros H0.
    pose proof (Z.mul_div_le d 3600000000000). pose proof (Z.mul_succ_div_gt d 3600000000000).
    pose proof (Z.mul_div_le d 60000000000). pose proof (Z.mul_succ_div_gt d 60000000000).
    pose proof (Z.mul_div_le d 1000000000). pose proof (Z.mul_succ_div_gt d 1000000000).
    lia. }
  split; [|split; [|split; [|split; [|split]]]].
  - intros Hday. rewrite Hpos by lia. cbv zeta.
    destruct (Hdiv ltac:(lia)) as (Hqh & Hqm & Hqs).
    destruct (toInt_days d) as (Hd1 & _ & _); [lia|].
    destruct (toInt_Hours d) as (Hh & _); [lia|].
    change Time.Hour with 3600000000000 in *.
    specialize (Hd1 ltac:(lia)).
    destruct (Z.ltb_spec 0 (Float64.toInt (Float64.div (Hours d) (Float64.ofInt 24)))); [|lia].
    eexists _, _. split; [eassumption|]. split; [|reflexivity].
    rewrite Z.rem_mod_nonneg by lia. apply Z.mod_pos_bound. lia.
  - intros Hday. rewrite Hpos by lia. cbv zeta.
    destruct (Hdiv ltac:(lia)) as (Hqh & Hqm & Hqs).
    destruct (toInt_days d) as (_ & _ & Hd3); [lia|].
    destruct (toInt_Hours d) as (_ & Hh); [lia|].
    change Time.Hour with 3600000000000 in *.
    rewrite Hd3, Hh by lia. rewrite Z.rem_mod_nonneg by lia.
    rewrite Z.div_div by lia.
    change (24 * 3600000000000) with (3600000000000 * 24).
    assert (1 <= d / (3600000000000 * 24)) by (apply Z.div_le_lower_bound; lia).
    destruct (Z.ltb_spec 0 (d / (3600000000000 * 24))); [reflexivity|lia].
  - intros Hhour. rewrite Hpos by lia. cbv zeta.
    destruct (Hdiv ltac:(lia)) as (Hqh & Hqm & Hqs).
    destruct (toInt_days d) as (_ & Hd2 & _); [lia|].
    destruct (toInt_Hours d) as (_ & Hh); [lia|].
    destruct (toInt_Minutes d) as (_ & Hm); [lia|].
    change Time.Hour with 3600000000000 in *. change Time.Minute with 60000000000 in *.
    rewrite Hd2, Hh, Hm by lia. simpl (0 <? 0).
    rewrite !Z.rem_mod_nonneg by lia.
    rewrite (Z.mod_small (d / 3600000000000)) by lia.
    destruct (Z.ltb_spec 0 (d / 3600000000000)); [reflexivity|lia].
  - intros Hmin. rewrite Hpos by lia. cbv zeta.
    destruct (Hdiv ltac:(lia)) as (Hqh & Hqm & Hqs).
    destruct (toInt_days d) as (_ & Hd2 & _); [lia|].
    destruct (toInt_Hours d) as (_ & Hh); [lia|].
    destruct (toInt_Minutes d) as (_ & Hm); [lia|].
    destruct (toInt_Seconds d) as (_ & Hs); [lia|].
    change Time.Hour with 3600000000000 in *. change Time.Minute with 60000000000 in *.
    change Time.Second with 1000000000 in *.
    rewrite Hd2, Hh, Hm, Hs by lia. simpl (0 <? 0).
    rewrite !Z.rem_mod_nonneg by lia.
    replace (d / 3600000000000) with 0 by lia. simpl (0 <? 0 mod 24).
    rewrite (Z.mod_small (d / 60000000000)) by lia.
    destruct (Z.ltb_spec 0 (d / 60000000000)); [reflexivity|lia].
  - intros Hsec. rewrite Hpos by lia. cbv zeta.
    destruct (Hdiv ltac:(lia)) as (Hqh & Hqm & Hqs).
    destruct (toInt_days d) as (_ & Hd2 & _); [lia|].
    destruct (toInt_Hours d) as (_ & Hh); [lia|].
    destruct (toInt_Minutes d) as (_ & Hm); [lia|].
    destruct (toInt_Seconds d) as (_ & Hs); [lia|].
    change Time.Hour with 3600000000000 in *. change Time.Minute with 60000000000 in *.
    change Time.Second with 1000000000 in *.
    rewrite Hd2, Hh, Hm, Hs by lia. simpl (0 <? 0).
    rewrite !Z.rem_mod_nonneg by lia.
    replace (d / 3600000000000) with 0 by lia. replace (d / 60000000000) with 0 by lia.
    simpl (0 <? 0 mod 24). simpl (0 <? 0 mod 60).
    rewrite (Z.mod_small (d / 1000000000)) by lia. reflexivity.
  - vm_compute. reflexivity.
Qed.

Lemma formatDuration_units_witness :
  (90000 * Time.Second < 0 -> formatDuration (90000 * Time.Second) = "0 seconds")
  /\ (24 * Time.Hour <= 90000 * Time.Second ->
      exists days hours,
        1 <= days /\ 0 <= hours < 24
        /\ formatDuration (90000 * Time.Second)
           = Fmt.d days +:+ " days " +:+ Fmt.d hours +:+ " hours")
  /\ (24 * Time.Hour <= 90000 * Time.Second < 600 * Time.Hour ->
      formatDuration (90000 * Time.Second)
      = Fmt.d (90000 * Time.Second / (24 * Time.Hour)) +:+ " days "
          +:+ Fmt.d (90000 * Time.Second / Time.Hour mod 24) +:+ " hours")
  /\ (Time.Hour <= 90000 * Time.Second < 24 * Time.Hour ->
      formatDuration (90000 * Time.Second)
      = Fmt.d (90000 * Time.Second / Time.Hour) +:+ " hours "
          +:+ Fmt.d (90000 * Time.Second / Time.Minute mod 60) +:+ " minutes")
  /\ (Time.Minute <= 90000 * Time.Second < Time.Hour ->
      formatDuration (90000 * Time.Second)
      = Fmt.d (90000 * Time.Second / Time.Minute) +:+ " minutes "
          +:+ Fmt.d (90000 * Time.Second / Time.Second mod 60) +:+ " seconds")
  /\ (0 <= 90000 * Time.Second < Time.Minute ->
      formatDuration (90000 * Time.Second)
      = Fmt.d (90000 * Time.Second / Time.Second) +:+ " seconds")
  /\ formatDuration (90000 * Time.Second) = "1 days 1 hours".
Proof.
  apply (formatDuration_units (90000 * Time.Second)).
  vm_compute. split; [discriminate | reflexivity].
Defined.

(** The README's [expires_in], a whole day short by a nanosecond, and a
    duration past 4096 hours whose hour count [float64] rounds up. *)
Example formatDuration_runs :
  formatDuration (365 * 24 * Time.Hour) = "365 days 0 hours"
  /\ formatDuration (24 * Time.Hour - 1) = "23 hours 59 minutes"
  /\ formatDuration (59 * Time.Second) = "59 seconds"
  /\ formatDuration (4096 * Time.Hour - 1) = "170 days 15 hours"
  /\ formatDuration (4097 * Time.Hour - 1) = "170 days 17 hours".
Proof. vm_compute. repeat split; reflexivity. Qed.

(** * Further properties of the code *)

(** ** Short codes: validation, routing and the way back from a create *)

(** X1. [isAlphanumeric] accepts exactly the strings of six bytes, all of
    [[a-zA-Z0-9]], that hold at least one letter and at least one digit; so
    six letters, six digits, the empty string and any other length are
    refused. *)
Theorem isAlphanumeric_spec (s : string) :
  isAlphanumeric s = true
  <-> String.length s = 6%nat
      /\ List.Forall (fun c => isAlnum c = true) (chars s)
      /\ containsLetter s = true /\ containsDigit s = true.
Proof.
  unfold isAlphanumeric. split.
  - destruct (Nat.eqb_spec (String.length s) 6) as [Hl|Hl]; simpl; [|discriminate].
    rewrite isAlphanumericLoop_spec. simpl.
    rewrite !andb_true_iff, forallb_forall, List.Forall_forall. intros [[Ha HL] HD].
    auto.
  - intros (Hl & Ha & HL & HD). rewrite Hl. simpl.
    rewrite isAlphanumericLoop_spec, HL, HD. simpl. rewrite !andb_true_r.
    apply forallb_forall. rewrite List.Forall_forall in Ha. exact Ha.
Qed.

Lemma isAlphanumeric_length (s : string) :
  isAlphanumeric s = true -> String.length s = 6%nat.
Proof.
  unfold isAlphanumeric.
  destruct (Nat.eqb_spec (String.length s) 6); simpl; [done | discriminate].
Qed.

(** No pattern of the mux is the path of a short code: [/health] has six
    letters after its slash, and no digit. *)
Lemma patterns_not_codes (p : string * Route) :
  In p patterns -> isAlphanumeric (TrimPrefix p.1 "/") = false.
Proof.
  unfold patterns. simpl.
  intros [<-|[<-|[<-|[<-|[]]]]]; vm_compute; reflexivity.
Qed.

Lemma dispatch_code (code : string) :
  isAlphanumeric code = true -> dispatch ("/" +:+ code) = toMain.
Proof.
  intros Ha. unfold dispatch.
  destruct (List.find _ patterns) as [p|] eqn:E; [|reflexivity].
  apply List.find_some in E as [Hin He]. apply String.eqb_eq in He.
  pose proof (patterns_not_codes p Hin) as Hn.
  rewrite He, TrimPrefix_slash, Ha in Hn. discriminate.
Qed.

Section Codes.

Variable ParseIP : string -> option (list Byte.byte).
Variable TrimSpace : string -> string.

Lemma serve_code_path (env : RequestEnv) (r : Request) (code : string) (s : Server) :
  Path r = "/" +:+ code ->
  isAlphanumeric code = true ->
  serve ParseIP TrimSpace env r s
  = Returned
      (Answered (redirectHandler (now_handler env) (lookup_up env) (remove_up env)
                   code s).1,
       (redirectHandler (now_handler env) (lookup_up env) (remove_up env) code s).2).
Proof.
  intros Hp Ha. unfold serve. rewrite Hp, (dispatch_code code Ha).
  rewrite (mainHandler_redirects _ _ _ r code s Hp (isAlphanumeric_length code Ha) Ha).
  by destruct (redirectHandler _ _ _ code s).
Qed.

(** X2. A request whose path is a slash followed by a well-formed code is
    handed by the mux to [mainHandler] and by [mainHandler] to
    [redirectHandler]: none of the fixed routes takes it, [/health]
    included, whose six letters hold no digit.  The root path is answered
    with [index.html], and a path that is neither the root, nor a fixed
    route, nor a well-formed code is answered not-found without a look at
    the cache or the store. *)
Theorem code_path_reaches_redirect (env : RequestEnv) (r : Request) (code : string)
        (s : Server) :
  Path r = "/" +:+ code ->
  (isAlphanumeric code = true ->
   dispatch (Path r) = toMain
   /\ serve ParseIP TrimSpace env r s
      = Returned
          (Answered (redirectHandler (now_handler env) (lookup_up env) (remove_up env)
                       code s).1,
           (redirectHandler (now_handler env) (lookup_up env) (remove_up env) code s).2))
  /\ (code = "" ->
      serve ParseIP TrimSpace env r s = Returned (Answered (ServeFile "index.html"), s))
  /\ (isAlphanumeric code = false -> code <> "" -> dispatch (Path r) = toMain ->
      serve ParseIP TrimSpace env r s = Returned (Answered NotFound, s))
  /\ (forall p, In p patterns -> dispatch p.1 = p.2 /\ dispatch p.1 <> toMain).
Proof.
  intros Hp. split; [|split; [|split]].
  - intros Ha. split; [rewrite Hp; by apply dispatch_code|].
    by apply serve_code_path.
  - intros ->. unfold serve, mainHandler. rewrite Hp. reflexivity.
  - intros Ha Hne Hd. unfold serve. rewrite Hd. unfold mainHandler.
    rewrite Hp, TrimPrefix_slash, Ha, andb_false_r.
    destruct (String.eqb_spec code ""); [done | reflexivity].
  - unfold patterns. simpl.
    intros p [<-|[<-|[<-|[<-|[]]]]]; vm_compute; (split; [reflexivity | discriminate]).
Qed.

Lemma shortenHandler_success (env : ShortenEnv) (r : Request) (s s' : Server)
      (b : ShortenedBody) :
  shortenHandler ParseIP TrimSpace env r s = Returned (Shortened b, s') ->
  let subnet := getClientSubnet ParseIP TrimSpace r in
  let cs := checkRateLimit (now_check env) (count_up env) subnet s in
  let exp := Time.Add (now_create env) (expiryDays * 24 * Time.Hour) in
  exists url code info,
    failed cs.1 = false /\ allowed cs.1 = true
    /\ Body r = Some url /\ HasPrefix url "http" = true
    /\ genCode (rnd env) (fuel env) 6 = Returned code
    /\ insert_up env = true
    /\ s' = incrementRateLimit (now_commit env) subnet
              (setCache (<[code := CacheItem.mk url exp]> (cache cs.2))
                 (setCol (col cs.2
                            ++ [Store.written
                                  (URLData.mk url code (now_create env) exp
                                     (getClientIP TrimSpace r) subnet)]) cs.2))
    /\ rateLimitMap s' !! subnet = Some info
    /\ b = mkShortened
             ("http://" +:+ (if String.eqb (Host r) "" then "localhost:5000" else Host r)
                +:+ "/" +:+ code)
             url (now_create env) exp (formatDuration (Time.Sub exp (now_create env)))
             code (getClientIP TrimSpace r) subnet
             (let remaining :=
                wrap64 (wrap64 (maxURLsPerSubnet - RateLimitInfo.Count info) - 1) in
              if remaining <? 0 then 0 else remaining)
             maxURLsPerSubnet
             (formatDuration
                (wrap64 (24 * Time.Hour
                         - Time.Sub (now_since env) (RateLimitInfo.FirstSeen info)))).
Proof.
  unfold shortenHandler. intros H. cbv zeta.
  destruct (checkRateLimit (now_check env) (count_up env)
              (getClientSubnet ParseIP TrimSpace r) s) as [chk s1].
  simpl.
  destruct (failed chk); [discriminate|].
  destruct (allowed chk); simpl in H.
  2:{ destruct (rateInfo chk); discriminate. }
  destruct (Body r) as [url|]; [|discriminate].
  destruct (HasPrefix url "http") eqn:Hp; simpl in H; [|discriminate].
  destruct (genCode (rnd env) (fuel env) 6) as [code| |]; try discriminate.
  unfold Store.InsertOne in H. destruct (insert_up env); [|discriminate].
  cbv zeta in H.
  match type of H with
  | context [rateLimitMap ?x !! _] => destruct (rateLimitMap x !! getClientSubnet ParseIP TrimSpace r) as [info|] eqn:Ei
  end; [|discriminate].
  inversion H; subst; clear H.
  exists url, code, info. split_and!; try reflexivity; assumption.
Qed.

(** X3. The way back from a create: once [shortenHandler] has answered 200
    with a short code, a request for the path of that code, made before the
    expiry the answer gives, is redirected (302) to the URL that was
    submitted, out of the cache and whatever the store then answers, and it
    leaves the server as it is. *)
Theorem create_then_redirect (senv : ShortenEnv) (r : Request) (s s' : Server)
        (b : ShortenedBody) (env : RequestEnv) (r' : Request) :
  shortenHandler ParseIP TrimSpace senv r s = Returned (Shortened b, s') ->
  Path r' = "/" +:+ sh_short_code b ->
  now_handler env < sh_expires_at b ->
  Body r = Some (sh_original_url b)
  /\ serve ParseIP TrimSpace env r' s'
     = Returned (Answered (Redirect (sh_original_url b) 302), s').
Proof.
  intros H Hp Hnow.
  destruct (shortenHandler_success senv r s s' b H)
    as (url & code & info & _ & _ & Hb & _ & Hg & _ & Hs & _ & ->).
  simpl in *. split; [exact Hb|].
  pose proof (genCode_isAlphanumeric _ _ _ Hg) as Ha.
  rewrite (serve_code_path env r' code s' Hp Ha).
  assert (Hc : cache s' !! code
               = Some (CacheItem.mk url (Time.Add (now_create senv)
                                                  (expiryDays * 24 * Time.Hour)))).
  { rewrite Hs.
    match goal with
    | |- cache (incrementRateLimit ?t ?k ?x) !! _ = _ =>
        destruct (incrementRateLimit_frame t k x) as [_ ->]
    end.
    simpl. apply lookup_insert_eq. }
  unfold redirectHandler. rewrite Hc. simpl.
  unfold Time.Before. destruct (Z.ltb_spec (now_handler env)
    (Time.Add (now_create senv) (expiryDays * 24 * Time.Hour))); [reflexivity | lia].
Qed.

End Codes.

Lemma code_path_reaches_redirect_witness :
  (isAlphanumeric demoCode = true ->
   dispatch (Path demoRedirect) = toMain
   /\ serve parseDottedQuad trimASCIISpace demoRequestEnv demoRedirect liveServer
      = Returned
          (Answered (redirectHandler (now_handler demoRequestEnv) (lookup_up demoRequestEnv)
                       (remove_up demoRequestEnv) demoCode liveServer).1,
           (redirectHandler (now_handler demoRequestEnv) (lookup_up demoRequestEnv)
              (remove_up demoRequestEnv) demoCode liveServer).2))
  /\ (demoCode = "" ->
      serve parseDottedQuad trimASCIISpace demoRequestEnv demoRedirect liveServer
      = Returned (Answered (ServeFile "index.html"), liveServer))
  /\ (isAlphanumeric demoCode = false -> demoCode <> "" ->
      dispatch (Path demoRedirect) = toMain ->
      serve parseDottedQuad trimASCIISpace demoRequestEnv demoRedirect liveServer
      = Returned (Answered NotFound, liveServer))
  /\ (forall p, In p patterns -> dispatch p.1 = p.2 /\ dispatch p.1 <> toMain).
Proof.
  apply (code_path_reaches_redirect parseDottedQuad trimASCIISpace demoRequestEnv
           demoRedirect demoCode liveServer); vm_compute; reflexivity.
Defined.

Lemma create_then_redirect_witness :
  Body (demoCreate "https://example.com") = Some (sh_original_url createdBody)
  /\ serve parseDottedQuad trimASCIISpace demoRequestEnv demoRedirect createdServer
     = Returned (Answered (Redirect (sh_original_url createdBody) 302), createdServer).
Proof.
  apply (create_then_redirect parseDottedQuad trimASCIISpace demoEnv
           (demoCreate "https://example.com") emptyServer createdServer createdBody
           demoRequestEnv demoRedirect); vm_compute; reflexivity.
Defined.

(** ** The create handler: what it answers and what it leaves behind *)

Lemma incrementRateLimit_lookup (now : Z) (subnet : string) (s : Server)
      (i : RateLimitInfo.t) :
  rateLimitMap s !! subnet = Some i ->
  - 2 ^ 63 <= RateLimitInfo.Count i + 1 < 2 ^ 63 ->
  rateLimitMap (incrementRateLimit now subnet s) !! subnet
  = Some (if maxURLsPerSubnet <=? RateLimitInfo.Count i + 1
          then RateLimitInfo.mk (RateLimitInfo.Count i + 1) (RateLimitInfo.FirstSeen i)
                                (Time.Add now (cooldownHours * Time.Hour))
          else RateLimitInfo.mk (RateLimitInfo.Count i + 1) (RateLimitInfo.FirstSeen i)
                                (RateLimitInfo.Cooldown i)).
Proof.
  intros H Hr. unfold incrementRateLimit. rewrite H. simpl.
  rewrite lookup_insert_eq, (wrap64_small _ Hr).
  by destruct (maxURLsPerSubnet <=? RateLimitInfo.Count i + 1).
Qed.

Lemma checkRateLimit_admits (now : Z) (up : bool) (subnet : string) (s : Server) :
  (forall i, rateLimitMap s !! subnet = Some i -> 0 <= RateLimitInfo.Count i) ->
  allowed (checkRateLimit now up subnet s).1 = true ->
  exists info,
    rateLimitMap (checkRateLimit now up subnet s).2 !! subnet = Some info
    /\ 0 <= RateLimitInfo.Count info < maxURLsPerSubnet.
Proof.
  intros Hc. unfold checkRateLimit.
  destruct (rateLimitMap s !! subnet) as [i|] eqn:Ei.
  - specialize (Hc i eq_refl).
    repeat match goal with
           | |- context [if ?x then _ else _] => destruct x eqn:?; simpl
           end; try discriminate; intros _; rewrite lookup_insert_eq; eexists;
      (split; [reflexivity|]); simpl;
      repeat match goal with
             | E : (_ <=? _) = _ |- _ => first [apply Z.leb_le in E | apply Z.leb_gt in E]
             end; simpl in *; lia.
  - cbv zeta. unfold Store.CountDocuments. destruct up; [|discriminate].
    set (n := Z.of_nat (length _)).
    destruct (Z.leb_spec maxURLsPerSubnet n); simpl; [discriminate|].
    intros _. rewrite lookup_insert_eq. eexists. split; [reflexivity|]. simpl. lia.
Qed.

Lemma genCode_in_range (rnd : nat -> Z) (fuel : nat) (n : Z) :
  (forall k, 0 <= rnd k < 62) -> 0 <= n -> genCode rnd fuel n <> Panicked.
Proof.
  intros Hr Hn. unfold genCode. destruct (Z.ltb_spec n 0); [lia|].
  generalize 0%nat. induction fuel as [|fuel IH]; intros k; simpl; [discriminate|].
  destruct (fillCode_total rnd (Z.to_nat n) Hr k) as [code ->].
  destruct (containsLetter code && containsDigit code); [discriminate | apply IH].
Qed.

Section Create.

Variable ParseIP : string -> option (list Byte.byte).
Variable TrimSpace : string -> string.

(** X4. [shortenHandler] does not panic when [rand.Intn] keeps its
    contract: the state the 429 answer reads through [rateInfo] is never the
    nil pointer, every index into [allChars] is in range, and the entry read
    for [remaining] after the commit is there.  It can only fail to answer
    where [genCode] does, by drawing unusable codes for ever. *)
Theorem shortenHandler_never_panics (env : ShortenEnv) (r : Request) (s : Server) :
  (forall k, 0 <= rnd env k < 62) ->
  shortenHandler ParseIP TrimSpace env r s <> Panicked
  /\ (shortenHandler ParseIP TrimSpace env r s = OutOfFuel ->
      genCode (rnd env) (fuel env) 6 = OutOfFuel).
Proof.
  intros Hr. unfold shortenHandler.
  pose proof (checkRateLimit_cases (now_check env) (count_up env)
                (getClientSubnet ParseIP TrimSpace r) s) as Hc.
  destruct (checkRateLimit (now_check env) (count_up env)
              (getClientSubnet ParseIP TrimSpace r) s) as [chk s1].
  simpl in Hc.
  destruct Hc as [(-> & _)|(-> & info & Hi & Hs)]; [split; discriminate|].
  rewrite Hi. destruct (allowed chk); simpl; [|split; discriminate].
  destruct (Body r) as [url|]; [|split; discriminate].
  destruct (HasPrefix url "http"); simpl; [|split; discriminate].
  pose proof (genCode_in_range (rnd env) (fuel env) 6 Hr ltac:(lia)) as Hg.
  destruct (genCode (rnd env) (fuel env) 6) as [code| |]; [|done|split; done].
  unfold Store.InsertOne. destruct (insert_up env); [|split; discriminate].
  cbv zeta.
  match goal with
  | |- context [incrementRateLimit ?t ?k ?x] =>
      destruct (incrementRateLimit_tracked t k x info) as [i' ->]
  end.
  - rewrite Hs. simpl. apply lookup_insert_eq.
  - split; discriminate.
Qed.

(** A run of [shortenHandler] that returns either answers 200 or stops in
    the state its rate-limit check left, with a 429, a 400 or a 500. *)
Lemma shortenHandler_returned (env : ShortenEnv) (r : Request) (s s' : Server)
      (resp : Response) :
  shortenHandler ParseIP TrimSpace env r s = Returned (resp, s') ->
  (exists b, resp = Shortened b)
  \/ (s' = (checkRateLimit (now_check env) (count_up env)
              (getClientSubnet ParseIP TrimSpace r) s).2
      /\ In (status resp) [429; 400; 500]).
Proof.
  unfold shortenHandler. intros H.
  destruct (checkRateLimit (now_check env) (count_up env)
              (getClientSubnet ParseIP TrimSpace r) s) as [chk s1].
  simpl in *.
  assert (Hok : forall resp0, Returned (resp0, s1) = Returned (resp, s') ->
                              In (status resp0) [429; 400; 500] ->
                              (exists b, resp = Shortened b)
                              \/ (s' = s1 /\ In (status resp) [429; 400; 500])).
  { intros resp0 E Hin. inversion E; subst. auto. }
  destruct (failed chk); [apply (Hok _ H); simpl; auto|].
  destruct (allowed chk); simpl in H.
  2:{ destruct (rateInfo chk); [|discriminate]. apply (Hok _ H); simpl; auto. }
  destruct (Body r) as [url|]; [|apply (Hok _ H); simpl; auto].
  destruct (HasPrefix url "http"); simpl in H; [|apply (Hok _ H); simpl; auto].
  destruct (genCode (rnd env) (fuel env) 6) as [code| |]; try discriminate.
  unfold Store.InsertOne in H. destruct (insert_up env); [|apply (Hok _ H); simpl; auto].
  cbv zeta in H.
  match type of H with
  | context [rateLimitMap ?x !! ?k] => destruct (rateLimitMap x !! k)
  end; [|discriminate].
  inversion H; subst. eauto.
Qed.

(** X5. A create that is not answered 200 persists nothing and costs no
    quota: whatever the answer (429, 400 or 500), the store and the cache
    are as before and the server is in the state the rate-limit check alone
    leaves, the count of the subnet not incremented. *)
Theorem shorten_failure_persists_nothing (env : ShortenEnv) (r : Request)
        (s s' : Server) (resp : Response) :
  shortenHandler ParseIP TrimSpace env r s = Returned (resp, s') ->
  status resp <> 200 ->
  s' = (checkRateLimit (now_check env) (count_up env)
          (getClientSubnet ParseIP TrimSpace r) s).2
  /\ col s' = col s /\ cache s' = cache s
  /\ In (status resp) [429; 400; 500].
Proof.
  intros H Hst.
  destruct (shortenHandler_returned env r s s' resp H) as [[b ->]|[-> Hin]].
  - simpl in Hst. done.
  - destruct (checkRateLimit_frame (now_check env) (count_up env)
                (getClientSubnet ParseIP TrimSpace r) s) as [Hcol Hcache].
    auto.
Qed.

(** X6. The rate limiter asks the store only about a subnet it does not
    track.  For a tracked subnet the verdict and the new state of the
    limiter are the same whatever the store holds and whether it answers.
    For an untracked one, a store that answers gives the count of the
    documents that carry that subnet and were created at or after the BSON
    date of 24 hours ago, which is that instant cut to the millisecond; the
    request is admitted when the count is below the limit and denied, with
    a cooldown of 24 hours from now, otherwise.  The empty
    subnet key counts nothing, since a document with an empty subnet is
    stored without the field.  A store that fails gives the error, with no
    verdict, no entry and no change, and [shortenHandler] answers 500. *)
Theorem checkRateLimit_store_use (now : Z) (subnet : string) (s : Server) :
  (forall i up up' docs,
      rateLimitMap s !! subnet = Some i ->
      let cs := checkRateLimit now up subnet s in
      let cs' := checkRateLimit now up' subnet (setCol docs s) in
      failed cs.1 = false /\ cs'.1 = cs.1 /\ rateLimitMap cs'.2 = rateLimitMap cs.2)
  /\ (rateLimitMap s !! subnet = None ->
      let since := (now - 24 * Time.Hour) / Time.Millisecond * Time.Millisecond in
      let n := Z.of_nat (length (List.filter
                                   (fun u => negb (String.eqb subnet "")
                                             && String.eqb (URLData.CreatorSubnet u) subnet
                                             && (since <=? URLData.CreatedAt u))
                                   (col s))) in
      exists info,
        checkRateLimit now true subnet s
        = (mkCheck (n <? maxURLsPerSubnet) (Some info) false,
           setRateLimitMap (<[subnet := info]> (rateLimitMap s)) s)
        /\ RateLimitInfo.Count info = n /\ RateLimitInfo.FirstSeen info = now
        /\ RateLimitInfo.Cooldown info
           = (if n <? maxURLsPerSubnet then Time.zero
              else Time.Add now (cooldownHours * Time.Hour))
        /\ (subnet = "" -> n = 0))
  /\ (rateLimitMap s !! subnet = None ->
      checkRateLimit now false subnet s = (mkCheck false None true, s)
      /\ forall env r,
           now_check env = now -> count_up env = false ->
           getClientSubnet ParseIP TrimSpace r = subnet ->
           shortenHandler ParseIP TrimSpace env r s
           = Returned (HttpError "internal server error" 500, s)).
Proof.
  split; [|split].
  - intros i up up' docs Hi. unfold checkRateLimit. simpl. rewrite Hi.
    repeat match goal with
           | |- context [if ?x then _ else _] => destruct x; simpl
           end; auto.
  - intros Hn. unfold checkRateLimit. rewrite Hn. cbv zeta.
    unfold Store.CountDocuments, Store.matching, Time.Add.
    replace (now + - 24 * Time.Hour) with (now - 24 * Time.Hour) by lia.
    change (Store.bySubnetSince subnet (now - 24 * Time.Hour))
      with (fun u => negb (String.eqb subnet "")
                     && String.eqb (URLData.CreatorSubnet u) subnet
                     && ((now - 24 * Time.Hour) / Time.Millisecond * Time.Millisecond
                         <=? URLData.CreatedAt u)).
    set (n := Z.of_nat (length _)).
    assert (He : subnet = "" -> n = 0).
    { intros ->. subst n. simpl. induction (col s) as [|u l IH]; [reflexivity | exact IH]. }
    destruct (Z.leb_spec maxURLsPerSubnet n); destruct (Z.ltb_spec n maxURLsPerSubnet);
      try lia; eexists; (split; [reflexivity|]); simpl; split_and!; auto.
  - intros Hn.
    assert (E : checkRateLimit now false subnet s = (mkCheck false None true, s)).
    { unfold checkRateLimit. rewrite Hn. reflexivity. }
    split; [exact E|].
    intros env r Hnow Hup Hs. unfold shortenHandler. rewrite Hnow, Hup, Hs, E. reflexivity.
Qed.

(** Two seeds.  A document stored without a subnet is not counted for the
    empty key; a document created 500 microseconds before the instant 24
    hours ago, in the same millisecond, is counted. *)
Example checkRateLimit_seeds :
  (checkRateLimit (demoStart + Time.Hour) true ""
     (mkServer [URLData.mk "https://example.com" demoCode demoStart
                  (demoStart + expiryDays * 24 * Time.Hour) "" ""] ∅ ∅)).1
  = mkCheck true (Some (RateLimitInfo.mk 0 (demoStart + Time.Hour) Time.zero)) false
  /\ (checkRateLimit (demoStart + 24 * Time.Hour + 500 * Time.Microsecond) true demoSubnet
        (mkServer [liveLink] ∅ ∅)).1
     = mkCheck true
         (Some (RateLimitInfo.mk 1 (demoStart + 24 * Time.Hour + 500 * Time.Microsecond)
                  Time.zero))
         false.
Proof. vm_compute. split; reflexivity. Qed.

(** X7. What a 200 answer reports.  The link expires 365 days after its
    creation and [expires_in] always reads [365 days 0 hours]; the short URL
    is built on the [Host] of the request, on [localhost:5000] when it has
    none.  The count behind [remaining] is read through the pointer after
    the commit, so it includes the new link, and one more is taken off:
    [remaining] is the limit minus the count minus one, floored at zero, one
    less than the creations still open to the subnet until none is left. *)
Theorem shorten_answer_fields (env : ShortenEnv) (r : Request) (s s' : Server)
        (b : ShortenedBody) :
  shortenHandler ParseIP TrimSpace env r s = Returned (Shortened b, s') ->
  (forall i, rateLimitMap s !! getClientSubnet ParseIP TrimSpace r = Some i ->
             0 <= RateLimitInfo.Count i) ->
  exists info,
    rateLimitMap s' !! getClientSubnet ParseIP TrimSpace r = Some info
    /\ 1 <= RateLimitInfo.Count info <= maxURLsPerSubnet
    /\ sh_remaining b = Z.max 0 (maxURLsPerSubnet - RateLimitInfo.Count info - 1)
    /\ sh_limit b = maxURLsPerSubnet
    /\ sh_expires_at b = sh_created_at b + 365 * 24 * Time.Hour
    /\ sh_expires_in b = "365 days 0 hours"
    /\ sh_short_url b
       = "http://" +:+ (if String.eqb (Host r) "" then "localhost:5000" else Host r)
           +:+ "/" +:+ sh_short_code b
    /\ sh_ip b = getClientIP TrimSpace r
    /\ sh_subnet b = getClientSubnet ParseIP TrimSpace r.
Proof.
  intros H Hcount.
  destruct (shortenHandler_success ParseIP TrimSpace env r s s' b H)
    as (url & code & info & Hf & Ha & _ & _ & _ & _ & Hs & Hi & ->).
  simpl. exists info. split; [exact Hi|].
  set (subnet := getClientSubnet ParseIP TrimSpace r) in *.
  assert (Hc : 1 <= RateLimitInfo.Count info <= maxURLsPerSubnet).
  { destruct (checkRateLimit_admits (now_check env) (count_up env) subnet s Hcount Ha)
      as (i1 & Hi1 & Hc1).
    rewrite Hs in Hi.
    match type of Hi with
    | rateLimitMap (incrementRateLimit ?t ?k ?x) !! _ = _ =>
        rewrite (incrementRateLimit_lookup t k x i1) in Hi
    end; [| exact Hi1 | unfold maxURLsPerSubnet in Hc1; lia].
    unfold maxURLsPerSubnet in *.
    destruct (Z.leb_spec 10 (RateLimitInfo.Count i1 + 1));
      inversion Hi; subst; simpl; lia. }
  split; [exact Hc|].
  split.
  { unfold maxURLsPerSubnet in *.
    rewrite (wrap64_small (10 - RateLimitInfo.Count info)) by lia.
    rewrite (wrap64_small (10 - RateLimitInfo.Count info - 1)) by lia.
    destruct (Z.ltb_spec (10 - RateLimitInfo.Count info - 1) 0); lia. }
  split; [reflexivity|].
  split; [unfold Time.Add, expiryDays; lia|].
  split; [|auto].
  replace (Time.Sub (Time.Add (now_create env) (expiryDays * 24 * Time.Hour))
                    (now_create env))
    with (365 * 24 * Time.Hour).
  - vm_compute. reflexivity.
  - unfold Time.Sub, Time.Add.
    replace (now_create env + expiryDays * 24 * Time.Hour - now_create env)
      with (expiryDays * 24 * Time.Hour) by lia.
    vm_compute. reflexivity.
Qed.

End Create.

Lemma shortenHandler_never_panics_witness :
  shortenHandler parseDottedQuad trimASCIISpace demoEnv
    (demoCreate "https://example.com") emptyServer <> Panicked
  /\ (shortenHandler parseDottedQuad trimASCIISpace demoEnv
        (demoCreate "https://example.com") emptyServer = OutOfFuel ->
      genCode (rnd demoEnv) (fuel demoEnv) 6 = OutOfFuel).
Proof.
  apply (shortenHandler_never_panics parseDottedQuad trimASCIISpace demoEnv
           (demoCreate "https://example.com") emptyServer).
  intros k. simpl. unfold alternatingSource. destruct (Nat.even k); lia.
Defined.

Lemma shorten_failure_persists_nothing_witness :
  checkedServer
  = (checkRateLimit (now_check demoEnv) (count_up demoEnv)
       (getClientSubnet parseDottedQuad trimASCIISpace (demoCreate "ftp://example.com"))
       emptyServer).2
  /\ col checkedServer = col emptyServer /\ cache checkedServer = cache emptyServer
  /\ In (status (HttpError "invalid url" 400)) [429; 400; 500].
Proof.
  apply (shorten_failure_persists_nothing parseDottedQuad trimASCIISpace demoEnv
           (demoCreate "ftp://example.com") emptyServer).
  - vm_compute. reflexivity.
  - vm_compute. discriminate.
Defined.

Lemma shorten_answer_fields_witness :
  exists info,
    rateLimitMap createdServer
      !! getClientSubnet parseDottedQuad trimASCIISpace (demoCreate "https://example.com")
    = Some info
    /\ 1 <= RateLimitInfo.Count info <= maxURLsPerSubnet
    /\ sh_remaining createdBody = Z.max 0 (maxURLsPerSubnet - RateLimitInfo.Count info - 1)
    /\ sh_limit createdBody = maxURLsPerSubnet
    /\ sh_expires_at createdBody = sh_created_at createdBody + 365 * 24 * Time.Hour
    /\ sh_expires_in createdBody = "365 days 0 hours"
    /\ sh_short_url createdBody
       = "http://" +:+ (if String.eqb (Host (demoCreate "https://example.com")) ""
                        then "localhost:5000" else Host (demoCreate "https://example.com"))
           +:+ "/" +:+ sh_short_code createdBody
    /\ sh_ip createdBody = getClientIP trimASCIISpace (demoCreate "https://example.com")
    /\ sh_subnet createdBody
       = getClientSubnet parseDottedQuad trimASCIISpace (demoCreate "https://example.com").
Proof.
  apply (shorten_answer_fields parseDottedQuad trimASCIISpace demoEnv
           (demoCreate "https://example.com") emptyServer createdServer createdBody).
  - vm_compute. reflexivity.
  - intros i H. vm_compute in H. discriminate.
Defined.

(** ** The rate limiter over the life of the server *)

Lemma settled_later (t t' : Z) (i : RateLimitInfo.t) :
  settled t i -> t <= t' -> settled t' i.
Proof. unfold settled. intros (H1 & H2 & H3 & H4) Ht. repeat split; try tauto; lia. Qed.

Lemma rateSettled_later (t t' : Z) (s : Server) :
  rateSettled t s -> t <= t' -> rateSettled t' s.
Proof. intros H Ht subnet i Hi. exact (settled_later t t' i (H subnet i Hi) Ht). Qed.

Lemma rateSettled_insert (t : Z) (s : Server) (k : string) (i : RateLimitInfo.t) :
  rateSettled t s -> settled t i ->
  rateSettled t (setRateLimitMap (<[k := i]> (rateLimitMap s)) s).
Proof.
  intros H Hi subnet j. simpl. rewrite lookup_insert_Some.
  intros [[_ <-]|[_ Hj]]; [exact Hi | exact (H subnet j Hj)].
Qed.

Lemma settled_fresh (now n : Z) :
  0 <= now -> 0 <= n ->
  settled now (if maxURLsPerSubnet <=? n
               then RateLimitInfo.mk n now (Time.Add now (cooldownHours * Time.Hour))
               else RateLimitInfo.mk n now Time.zero).
Proof.
  intros Hnow Hn. pose proof hours24_pos as H24. unfold settled, Time.Add, Time.zero.
  change (cooldownHours * Time.Hour) with (24 * Time.Hour) in *.
  destruct (Z.leb_spec maxURLsPerSubnet n); simpl; repeat split; intros; lia.
Qed.

(** The verdict on a tracked subnet whose state is settled, and the state
    the check leaves. *)
Lemma checkRateLimit_settled_tracked (t now : Z) (up : bool) (subnet : string)
      (s : Server) (i : RateLimitInfo.t) :
  settled t i -> rateLimitMap s !! subnet = Some i ->
  checkRateLimit now up subnet s
  = if 24 * Time.Hour <=? now - RateLimitInfo.FirstSeen i
    then (mkCheck true (Some (RateLimitInfo.mk 0 now Time.zero)) false,
          setRateLimitMap (<[subnet := RateLimitInfo.mk 0 now Time.zero]> (rateLimitMap s)) s)
    else (mkCheck (RateLimitInfo.Count i <? maxURLsPerSubnet) (Some i) false, s).
Proof.
  intros (H1 & H2 & H3 & H4) Hi. unfold checkRateLimit. rewrite Hi.
  rewrite window_elapsed_iff.
  destruct (Z.leb_spec (24 * Time.Hour) (now - RateLimitInfo.FirstSeen i)) as [Hw|Hw].
  - reflexivity.
  - unfold Time.IsZero, Time.Before, Time.After.
    destruct (Z.eqb_spec (RateLimitInfo.Cooldown i) 0) as [Hz|Hz]; simpl.
    + assert (Hc : RateLimitInfo.Count i < maxURLsPerSubnet).
      { destruct (Z.lt_ge_cases (RateLimitInfo.Count i) maxURLsPerSubnet) as [|Hge]; [done|].
        apply H3 in Hge. done. }
      destruct (Z.leb_spec maxURLsPerSubnet (RateLimitInfo.Count i)); [lia|].
      destruct (Z.ltb_spec (RateLimitInfo.Count i) maxURLsPerSubnet); [|lia].
      by rewrite (setRateLimitMap_id subnet i s Hi).
    + specialize (H4 Hz). apply H3 in Hz.
      destruct (Z.ltb_spec now (RateLimitInfo.Cooldown i)); [|lia]. simpl.
      destruct (Z.ltb_spec (RateLimitInfo.Count i) maxURLsPerSubnet); [lia|].
      by rewrite (setRateLimitMap_id subnet i s Hi).
Qed.

Lemma checkRateLimit_keeps_settled (t now : Z) (up : bool) (subnet : string) (s : Server) :
  rateSettled t s -> 0 <= t <= now ->
  rateSettled now (checkRateLimit now up subnet s).2.
Proof.
  intros Hs Ht.
  destruct (rateLimitMap s !! subnet) as [i|] eqn:Ei.
  - rewrite (checkRateLimit_settled_tracked t now up subnet s i (Hs subnet i Ei) Ei).
    destruct (24 * Time.Hour <=? now - RateLimitInfo.FirstSeen i); simpl.
    + apply rateSettled_insert; [apply (rateSettled_later t); [done | lia]|].
      exact (settled_fresh now 0 ltac:(lia) ltac:(lia)).
    + apply (rateSettled_later t); [done | lia].
  - unfold checkRateLimit. rewrite Ei. cbv zeta. unfold Store.CountDocuments.
    destruct up; simpl; [|apply (rateSettled_later t); [done | lia]].
    set (n := Z.of_nat (length _)).
    pose proof (settled_fresh now n ltac:(lia) ltac:(subst n; lia)) as Hf.
    destruct (maxURLsPerSubnet <=? n); simpl;
      (apply rateSettled_insert; [apply (rateSettled_later t); [done | lia] | exact Hf]).
Qed.

Lemma incrementRateLimit_keeps_settled (t now : Z) (subnet : string) (s : Server) :
  rateSettled t s -> t <= now ->
  (forall i, rateLimitMap s !! subnet = Some i -> RateLimitInfo.Count i < maxURLsPerSubnet) ->
  rateSettled t (incrementRateLimit now subnet s).
Proof.
  intros Hs Ht Hc. pose proof hours24_pos as H24.
  unfold incrementRateLimit.
  destruct (rateLimitMap s !! subnet) as [i|] eqn:Ei; [|exact Hs].
  specialize (Hc i eq_refl). destruct (Hs subnet i Ei) as (H1 & H2 & H3 & H4).
  apply rateSettled_insert; [exact Hs|].
  simpl. rewrite wrap64_small by (unfold maxURLsPerSubnet in Hc; lia).
  assert (Hz : RateLimitInfo.Cooldown i = 0).
  { destruct (Z.eq_dec (RateLimitInfo.Cooldown i) 0) as [|Hn]; [done|]. apply H3 in Hn. lia. }
  unfold settled, Time.Add.
  change (cooldownHours * Time.Hour) with (24 * Time.Hour) in *.
  destruct (Z.leb_spec maxURLsPerSubnet (RateLimitInfo.Count i + 1)); simpl;
    repeat split; intros; try lia.
Qed.

Lemma cleanupRateLimitMap_keeps_settled (t now : Z) (s : Server) :
  rateSettled t s -> rateSettled t (cleanupRateLimitMap now s).
Proof.
  intros Hs subnet i. simpl. rewrite map_lookup_filter_Some. intros [Hi _].
  exact (Hs subnet i Hi).
Qed.

Section Limiter.

Variable ParseIP : string -> option (list Byte.byte).
Variable TrimSpace : string -> string.

Lemma shortenHandler_keeps_settled (t : Z) (env : ShortenEnv) (r : Request)
      (s s' : Server) (resp : Response) :
  rateSettled t s -> 0 <= t <= now_check env -> now_check env <= now_commit env ->
  shortenHandler ParseIP TrimSpace env r s = Returned (resp, s') ->
  rateSettled (now_check env) s'.
Proof.
  intros Hs Ht Hc H.
  set (subnet := getClientSubnet ParseIP TrimSpace r) in *.
  pose proof (checkRateLimit_keeps_settled t (now_check env) (count_up env) subnet s Hs Ht)
    as Hs1.
  destruct (shortenHandler_returned ParseIP TrimSpace env r s s' resp H) as [[b ->]|[-> _]].
  - destruct (shortenHandler_success ParseIP TrimSpace env r s s' b H)
      as (url & code & info & _ & Ha & _ & _ & _ & _ & -> & _).
    fold subnet in Ha |- *.
    destruct (checkRateLimit_admits (now_check env) (count_up env) subnet s) as (i1 & Hi1 & Hc1).
    { intros i Hi. exact (proj1 (proj2 (Hs subnet i Hi))). }
    { exact Ha. }
    apply (incrementRateLimit_keeps_settled (now_check env)); [exact Hs1 | exact Hc |].
    simpl. intros i Hi. rewrite Hi1 in Hi. inversion Hi; subst. lia.
  - exact Hs1.
Qed.

Lemma rateSettled_same_map (t : Z) (s s' : Server) :
  rateLimitMap s' = rateLimitMap s -> rateSettled t s -> rateSettled t s'.
Proof. unfold rateSettled. intros ->. auto. Qed.

Lemma redirectHandler_rateLimitMap (now : Z) (find_up del_up : bool) (code : string)
      (s : Server) :
  rateLimitMap (redirectHandler now find_up del_up code s).2 = rateLimitMap s.
Proof.
  unfold redirectHandler.
  destruct (cache s !! code) as [c|]; [destruct (Time.Before now (CacheItem.ExpiresAt c))|];
    simpl; try reflexivity;
    (destruct (Store.FindOne _ _ _) as [u|]; [|reflexivity]);
    (destruct (Time.Before now (URLData.ExpiresAt u)); [reflexivity|]);
    destruct del_up; reflexivity.
Qed.

Lemma mainHandler_rateLimitMap (now : Z) (find_up del_up : bool) (r : Request) (s : Server) :
  rateLimitMap (mainHandler now find_up del_up r s).2 = rateLimitMap s.
Proof.
  unfold mainHandler.
  destruct (String.eqb _ ""); [reflexivity|].
  destruct (_ && _); [apply redirectHandler_rateLimitMap | reflexivity].
Qed.

Lemma performCleanup_rateLimitMap (now : Z) (up : bool) (s : Server) :
  rateLimitMap (performCleanup now up s).2 = rateLimitMap s.
Proof. unfold performCleanup. destruct up; reflexivity. Qed.

Lemma initialCleanup_rateLimitMap (now now_load : Z) (up up_load : bool) (s : Server) :
  rateLimitMap (initialCleanup now now_load up up_load s).2 = rateLimitMap s.
Proof. unfold initialCleanup, loadActiveCache. destruct up, up_load; reflexivity. Qed.

Lemma run_keeps_settled (evs : list Event) : forall (t : Z) (s s' : Server),
  0 <= t -> rateSettled t s -> timely t evs ->
  run ParseIP TrimSpace evs s = Returned s' ->
  exists t', t <= t' /\ rateSettled t' s'.
Proof.
  induction evs as [|ev evs IH]; intros t s s' Ht Hs Hev H; simpl in H.
  - inversion H; subst. exists t. split; [lia | exact Hs].
  - destruct ev as [env r | tk now up]; simpl in H, Hev.
    + unfold serve in H. destruct (dispatch (Path r)).
      * destruct (shortenHandler ParseIP TrimSpace (shortenEnv env) r s)
          as [[resp s1]| |] eqn:E; try discriminate.
        destruct Hev as [Hc Hev].
        destruct (IH (now_check (shortenEnv env)) s1 s') as (t' & Ht' & Hs'); try done.
        -- lia.
        -- apply (shortenHandler_keeps_settled t (shortenEnv env) r s s1 resp); try done; lia.
        -- exists t'. split; [lia | exact Hs'].
      * exact (IH t s s' Ht Hs Hev H).
      * exact (IH t s s' Ht Hs Hev H).
      * exact (IH t s s' Ht Hs Hev H).
      * pose proof (mainHandler_rateLimitMap (now_handler env) (lookup_up env)
                      (remove_up env) r s) as Hm.
        destruct (mainHandler _ _ _ r s) as [resp s1]. simpl in Hm.
        exact (IH t s1 s' Ht (rateSettled_same_map t s s1 Hm Hs) Hev H).
    + destruct tk; simpl in H.
      * apply (IH t (performCleanup now up s).2 s' Ht); [|exact Hev | exact H].
        exact (rateSettled_same_map t s _ (performCleanup_rateLimitMap now up s) Hs).
      * apply (IH t (cleanupRateLimitMap now s) s' Ht); [|exact Hev | exact H].
        by apply cleanupRateLimitMap_keeps_settled.
Qed.

(** X8. From startup on, under clocks that do not go back, every subnet
    the rate limiter tracks is settled in every state the server reaches,
    whatever requests and ticks came in: its count is not negative, it
    carries a cooldown exactly when the count has reached the limit, and the
    cooldown ends no earlier than 24 hours after the window opened. *)
Theorem main_keeps_rate_limiter_settled (now now_load : Z) (up up_load : bool)
        (docs : list URLData.t) (evs : list Event) (s : Server) :
  timely 0 evs ->
  main ParseIP TrimSpace now now_load up up_load docs evs = Returned s ->
  exists t,
    rateSettled t s
    /\ forall subnet i,
         rateLimitMap s !! subnet = Some i ->
         0 <= RateLimitInfo.Count i
         /\ (RateLimitInfo.Cooldown i <> 0 <-> maxURLsPerSubnet <= RateLimitInfo.Count i)
         /\ (RateLimitInfo.Cooldown i <> 0 ->
             RateLimitInfo.FirstSeen i + 24 * Time.Hour <= RateLimitInfo.Cooldown i).
Proof.
  intros Hev H. unfold main in H.
  destruct (run_keeps_settled evs 0
              (initialCleanup now now_load up up_load (mkServer docs ∅ ∅)).2 s)
    as (t & _ & Hs); [lia | | exact Hev | exact H |].
  - intros subnet i. rewrite initialCleanup_rateLimitMap. simpl.
    rewrite lookup_empty. discriminate.
  - exists t. split; [exact Hs|].
    intros subnet i Hi. destruct (Hs subnet i Hi) as (_ & H2 & H3 & H4). auto.
Qed.

End Limiter.

(** X9. The verdict on a tracked subnet in a settled state: it is denied
    exactly when its window is less than 24 hours old and its count has
    reached the limit, and a denial changes nothing; from 24 hours on the
    check opens a new window with a count of zero and admits.  The store is
    not asked and the cooldown does not enter the verdict. *)
Theorem tracked_subnet_verdict (t now : Z) (up : bool) (subnet : string) (s : Server)
        (i : RateLimitInfo.t) :
  rateSettled t s ->
  rateLimitMap s !! subnet = Some i ->
  let cs := checkRateLimit now up subnet s in
  failed cs.1 = false
  /\ (allowed cs.1 = false
      <-> now - RateLimitInfo.FirstSeen i < 24 * Time.Hour
          /\ maxURLsPerSubnet <= RateLimitInfo.Count i)
  /\ (allowed cs.1 = false -> cs.2 = s /\ rateInfo cs.1 = Some i)
  /\ (24 * Time.Hour <= now - RateLimitInfo.FirstSeen i ->
      rateInfo cs.1 = Some (RateLimitInfo.mk 0 now Time.zero)
      /\ rateLimitMap cs.2 !! subnet = Some (RateLimitInfo.mk 0 now Time.zero)).
Proof.
  intros Hs Hi. cbv zeta.
  rewrite (checkRateLimit_settled_tracked t now up subnet s i (Hs subnet i Hi) Hi).
  destruct (Z.leb_spec (24 * Time.Hour) (now - RateLimitInfo.FirstSeen i)) as [Hw|Hw]; simpl.
  - split; [reflexivity|]. split; [split; [discriminate | lia]|].
    split; [discriminate|]. intros _. split; [reflexivity | apply lookup_insert_eq].
  - split; [reflexivity|]. rewrite Z.ltb_ge.
    split; [split; [intros; lia | intros [_ ?]; done]|].
    split; [done | lia].
Qed.

(** X10. The sweep of the rate limiter never lifts a denial: a subnet that
    a check at [now] denies is denied as well, with the same state handed
    back, when a sweep at an earlier or the same time has run before the
    check. *)
Theorem sweep_never_lifts_denial (t now : Z) (up : bool) (subnet : string) (s : Server) :
  t <= now ->
  allowed (checkRateLimit now up subnet s).1 = false ->
  (checkRateLimit now up subnet (cleanupRateLimitMap t s)).1
  = (checkRateLimit now up subnet s).1.
Proof.
  intros Ht Hd. unfold checkRateLimit in *. simpl.
  destruct (rateLimitMap s !! subnet) as [i|] eqn:Ei.
  - rewrite window_elapsed_iff in Hd.
    destruct (Z.leb_spec (24 * Time.Hour) (now - RateLimitInfo.FirstSeen i)) as [Hw|Hw].
    { simpl in Hd. discriminate. }
    assert (Hk : filter (fun kv => negb (24 * Time.Hour <? Time.Sub t (RateLimitInfo.FirstSeen kv.2)))
                        (rateLimitMap s) !! subnet = Some i).
    { apply map_lookup_filter_Some. split; [exact Ei|]. simpl.
      rewrite stale_iff. destruct (Z.ltb_spec (24 * Time.Hour) (t - RateLimitInfo.FirstSeen i));
        [lia | done]. }
    rewrite Hk, window_elapsed_iff.
    destruct (Z.leb_spec (24 * Time.Hour) (now - RateLimitInfo.FirstSeen i)); [lia|].
    repeat match goal with
           | |- context [if ?x then _ else _] => destruct x; simpl
           end; reflexivity.
  - assert (Hk : filter (fun kv => negb (24 * Time.Hour <? Time.Sub t (RateLimitInfo.FirstSeen kv.2)))
                        (rateLimitMap s) !! subnet = None).
    { apply map_lookup_filter_None. left. exact Ei. }
    rewrite Hk. cbv zeta.
    destruct (Store.CountDocuments up _ (col s)); [|reflexivity].
    destruct (maxURLsPerSubnet <=? a); reflexivity.
Qed.

Example cooledServer_settled : rateSettled (demoStart + 10 * Time.Hour) cooledServer.
Proof.
  intros subnet i Hi. simpl in Hi.
  apply lookup_insert_Some in Hi as [[_ <-]|[_ Hi]];
    [|rewrite lookup_empty in Hi; discriminate].
  unfold settled. simpl. vm_compute. repeat split; intros; discriminate.
Qed.

Lemma main_keeps_rate_limiter_settled_witness :
  exists t,
    rateSettled t createdServer
    /\ forall subnet i,
         rateLimitMap createdServer !! subnet = Some i ->
         0 <= RateLimitInfo.Count i
         /\ (RateLimitInfo.Cooldown i <> 0 <-> maxURLsPerSubnet <= RateLimitInfo.Count i)
         /\ (RateLimitInfo.Cooldown i <> 0 ->
             RateLimitInfo.FirstSeen i + 24 * Time.Hour <= RateLimitInfo.Cooldown i).
Proof.
  apply (main_keeps_rate_limiter_settled parseDottedQuad trimASCIISpace
           demoStart demoStart true true [] demoEvents createdServer).
  - vm_compute. repeat split; discriminate.
  - vm_compute. reflexivity.
Defined.

Lemma tracked_subnet_verdict_witness :
  let cs := checkRateLimit (demoStart + 12 * Time.Hour) true demoSubnet cooledServer in
  failed cs.1 = false
  /\ (allowed cs.1 = false
      <-> demoStart + 12 * Time.Hour - demoStart < 24 * Time.Hour
          /\ maxURLsPerSubnet <= 10)
  /\ (allowed cs.1 = false
      -> cs.2 = cooledServer
         /\ rateInfo cs.1
            = Some (RateLimitInfo.mk 10 demoStart
                      (demoStart + 9 * Time.Hour + Time.Second + cooldownHours * Time.Hour)))
  /\ (24 * Time.Hour <= demoStart + 12 * Time.Hour - demoStart ->
      rateInfo cs.1 = Some (RateLimitInfo.mk 0 (demoStart + 12 * Time.Hour) Time.zero)
      /\ rateLimitMap cs.2 !! demoSubnet
         = Some (RateLimitInfo.mk 0 (demoStart + 12 * Time.Hour) Time.zero)).
Proof.
  apply (tracked_subnet_verdict (demoStart + 10 * Time.Hour) (demoStart + 12 * Time.Hour)
           true demoSubnet cooledServer
           (RateLimitInfo.mk 10 demoStart
              (demoStart + 9 * Time.Hour + Time.Second + cooldownHours * Time.Hour))).
  - exact cooledServer_settled.
  - vm_compute. reflexivity.
Defined.

Lemma sweep_never_lifts_denial_witness :
  (checkRateLimit (demoStart + 12 * Time.Hour) true demoSubnet
     (cleanupRateLimitMap (demoStart + 11 * Time.Hour) cooledServer)).1
  = (checkRateLimit (demoStart + 12 * Time.Hour) true demoSubnet cooledServer).1.
Proof.
  apply (sweep_never_lifts_denial (demoStart + 11 * Time.Hour) (demoStart + 12 * Time.Hour)
           true demoSubnet cooledServer).
  - vm_compute. discriminate.
  - vm_compute. reflexivity.
Defined.

(** ** Statistics and health *)

(** The two counters of the loop over the cache are the sizes of the two
    parts the test [now.Before(item.ExpiresAt)] cuts the cache into. *)
Lemma countCache_sizes (now : Z) (c : gmap string CacheItem.t) :
  countCache now c
  = (Z.of_nat (size (filter (fun kv => Time.Before now (CacheItem.ExpiresAt kv.2)) c)),
     Z.of_nat (size (filter (fun kv => negb (Time.Before now (CacheItem.ExpiresAt kv.2))) c))).
Proof.
  unfold countCache. apply (map_fold_weak_ind (fun r m =>
    r = (Z.of_nat (size (filter (fun kv => Time.Before now (CacheItem.ExpiresAt kv.2)) m)),
         Z.of_nat (size (filter (fun kv => negb (Time.Before now (CacheItem.ExpiresAt kv.2))) m))))).
  - rewrite !map_filter_empty, map_size_empty. reflexivity.
  - intros i x m r Hi ->. cbn [fst snd].
    destruct (Time.Before now (CacheItem.ExpiresAt x)) eqn:E.
    + rewrite map_filter_insert_True by (cbn [snd]; rewrite E; simpl; tauto).
      rewrite map_filter_insert_not' by (first [by (cbn [snd]; rewrite E; simpl; tauto) | by (intros ? ?; simplify_eq)]).
      rewrite map_size_insert_None by (apply map_lookup_filter_None; by left).
      f_equal. lia.
    + rewrite map_filter_insert_not' by (first [by (cbn [snd]; rewrite E; simpl; tauto) | by (intros ? ?; simplify_eq)]).
      rewrite map_filter_insert_True by (cbn [snd]; rewrite E; simpl; tauto).
      rewrite map_size_insert_None by (apply map_lookup_filter_None; by left).
      f_equal. lia.
Qed.

Lemma countCooldown_size (now : Z) (m : gmap string RateLimitInfo.t) :
  countCooldown now m
  = Z.of_nat (size (filter (fun kv => negb (Time.IsZero (RateLimitInfo.Cooldown kv.2))
                                      && Time.Before now (RateLimitInfo.Cooldown kv.2)) m)).
Proof.
  unfold countCooldown. apply (map_fold_weak_ind (fun r m =>
    r = Z.of_nat (size (filter (fun kv => negb (Time.IsZero (RateLimitInfo.Cooldown kv.2))
                                          && Time.Before now (RateLimitInfo.Cooldown kv.2)) m)))).
  - rewrite map_filter_empty, map_size_empty. reflexivity.
  - intros i x m' r Hi ->.
    destruct (negb (Time.IsZero (RateLimitInfo.Cooldown x))
              && Time.Before now (RateLimitInfo.Cooldown x)) eqn:E.
    + rewrite map_filter_insert_True by (cbn [snd]; rewrite E; simpl; tauto).
      rewrite map_size_insert_None by (apply map_lookup_filter_None; by left). lia.
    + rewrite map_filter_insert_not' by (first [by (cbn [snd]; rewrite E; simpl; tauto) | by (intros ? ?; simplify_eq)]). reflexivity.
Qed.

Lemma size_filter_complement {A : Type} (p : string * A -> bool) (m : gmap string A) :
  (size (filter (fun kv => p kv) m) + size (filter (fun kv => negb (p kv)) m))%nat = size m.
Proof.
  induction m as [|i x m Hi IH] using map_ind.
  - rewrite !map_filter_empty, map_size_empty. reflexivity.
  - rewrite map_size_insert_None by done.
    destruct (p (i, x)) eqn:E.
    + rewrite map_filter_insert_True by (cbn [snd]; rewrite E; simpl; tauto).
      rewrite map_filter_insert_not' by (first [by (cbn [snd]; rewrite E; simpl; tauto) | by (intros ? ?; simplify_eq)]).
      rewrite map_size_insert_None by (apply map_lookup_filter_None; by left). lia.
    + rewrite map_filter_insert_not' by (first [by (cbn [snd]; rewrite E; simpl; tauto) | by (intros ? ?; simplify_eq)]).
      rewrite map_filter_insert_True by (cbn [snd]; rewrite E; simpl; tauto).
      rewrite map_size_insert_None by (apply map_lookup_filter_None; by left). lia.
Qed.

(** X11. The counters of [/api/stats] and [/health] at one instant.  The
    active and the expired entries add up to the length of the cache, which
    is the [cache_len] of [/health]; the active count is the [count] that
    [/api/list] answers; the subnets in cooldown are those whose cooldown is
    set and in the future, at most the tracked ones, whose number is the
    [rate_limit_subnets] of [/health]; and the database totals, present
    exactly when their query went through, are the number of documents and,
    no larger, the number of those that expire after now. *)
Theorem stats_counters (env : StatsEnv) (s : Server) :
  let b := statsHandler env s in
  let h := healthHandler (stats_now env) s in
  st_cache_active b + st_cache_expired b = st_cache_total b
  /\ st_cache_total b = h_cache_len h
  /\ (exists items,
        listHandler (stats_now env) s
        = (Listing (st_cache_active b) items (stats_now env), s))
  /\ st_subnets_in_cooldown b
     = Z.of_nat (size (filter (fun kv => RateLimitInfo.Cooldown kv.2 <> 0
                                         /\ stats_now env < RateLimitInfo.Cooldown kv.2)
                              (rateLimitMap s)))
  /\ 0 <= st_subnets_in_cooldown b <= st_total_tracked_subnets b
  /\ st_total_tracked_subnets b = h_rate_limit_subnets h
  /\ (st_database_total b
      = if total_up env then Some (Z.of_nat (length (col s))) else None)
  /\ (st_database_active b
      = if active_up env
        then Some (Z.of_nat (length (List.filter
                                       (fun u => stats_now env <? URLData.ExpiresAt u)
                                       (col s))))
        else None)
  /\ (forall total active,
        st_database_total b = Some total -> st_database_active b = Some active ->
        0 <= active <= total).
Proof.
  cbv zeta. unfold statsHandler, healthHandler, listHandler. simpl.
  rewrite countCache_sizes, countCooldown_size. simpl.
  pose proof (size_filter_complement
                (fun kv => Time.Before (stats_now env) (CacheItem.ExpiresAt kv.2))
                (cache s)) as Hsum.
  assert (Hall : List.filter anyDocument (col s) = col s).
  { induction (col s) as [|u l IH]; simpl; [reflexivity | by rewrite IH]. }
  split; [lia|]. split; [reflexivity|]. split; [eauto|].
  split.
  { f_equal. f_equal. apply map_filter_ext. intros i x _. simpl.
    unfold Time.IsZero, Time.Before.
    destruct (Z.eqb_spec (RateLimitInfo.Cooldown x) 0);
      destruct (Z.ltb_spec (stats_now env) (RateLimitInfo.Cooldown x)); simpl;
      intuition lia. }
  split.
  { pose proof (map_size_filter
                  (fun kv : string * RateLimitInfo.t =>
                     negb (Time.IsZero (RateLimitInfo.Cooldown kv.2))
                     && Time.Before (stats_now env) (RateLimitInfo.Cooldown kv.2))
                  (rateLimitMap s)). lia. }
  split; [reflexivity|].
  unfold Store.CountDocuments, Store.matching, Store.expiresAfter. rewrite Hall.
  split; [by destruct (total_up env)|]. split; [by destruct (active_up env)|].
  intros total active. destruct (total_up env), (active_up env); try discriminate.
  intros [= <-] [= <-].
  pose proof (List.filter_length_le (fun u => stats_now env <? URLData.ExpiresAt u) (col s)).
  lia.
Qed.

Example stats_runs :
  let b := statsHandler demoStatsEnv createdServer in
  (st_cache_total b, st_cache_active b, st_cache_expired b) = (1, 1, 0)
  /\ (st_total_tracked_subnets b, st_subnets_in_cooldown b) = (1, 0)
  /\ (st_database_total b, st_database_active b, st_unique_creator_subnets b)
     = (Some 1, Some 1, Some 1)
  /\ statsHandler demoStatsEnv staleServer
     = mkStats demoTick 1 0 1 10 24 1 0 "subnet /24" "every 1 hour" (demoTick + Time.Hour)
               (Some 1) (Some 0) (Some 1).
Proof. vm_compute. repeat split; reflexivity. Qed.

(** ** The cache and the store behind it *)

Lemma find_snoc {A : Type} (p : A -> bool) (l : list A) (x : A) :
  List.find p (l ++ [x])
  = match List.find p l with
    | Some y => Some y
    | None => if p x then Some x else None
    end.
Proof.
  induction l as [|a l IH]; simpl; [reflexivity|].
  destruct (p a); [reflexivity | exact IH].
Qed.

(** The cache after the loop of [loadActiveCache] over the documents [l]:
    under a code, the last document of [l] with that code, and what the
    cache held where [l] has none. *)
Lemma load_lookup (l : list URLData.t) : forall (c : gmap string CacheItem.t) (code : string),
  fold_left (fun c u => <[URLData.ShortCode u :=
                            CacheItem.mk (URLData.Original u) (URLData.ExpiresAt u)]> c) l c
    !! code
  = match List.find (Store.byShortCode code) (List.rev l) with
    | Some u => Some (itemOf u)
    | None => c !! code
    end.
Proof.
  induction l as [|u l IH]; intros c code; simpl; [reflexivity|].
  rewrite IH, find_snoc.
  destruct (List.find (Store.byShortCode code) (List.rev l)); [reflexivity|].
  unfold Store.byShortCode. destruct (String.eqb_spec (URLData.ShortCode u) code) as [<-|Hne].
  - by rewrite lookup_insert_eq.
  - by rewrite lookup_insert_ne.
Qed.

(** X12. [loadActiveCache], when its query goes through, writes to the
    cache the documents that expire after [now], in the order of the store:
    under a code the cache then holds the last such document with that code,
    so of two live documents with one code the later wins, and an entry
    whose code has no live document stays as it was.  Store and rate
    limiter are not touched and the log gives the new length of the cache.
    When the query fails nothing changes. *)
Theorem loadActiveCache_last_wins (now : Z) (s : Server) (code : string) :
  let out := loadActiveCache now true s in
  cache out.2 !! code
  = match List.find (fun u => Store.byShortCode code u && (now <? URLData.ExpiresAt u))
                    (List.rev (col s)) with
    | Some u => Some (CacheItem.mk (URLData.Original u) (URLData.ExpiresAt u))
    | None => cache s !! code
    end
  /\ col out.2 = col s /\ rateLimitMap out.2 = rateLimitMap s
  /\ out.1 = [LogCacheLoaded (Z.of_nat (size (cache out.2)))]
  /\ loadActiveCache now false s = ([LogCacheLoadError], s).
Proof.
  cbv zeta. unfold loadActiveCache. simpl. rewrite load_lookup.
  split; [|auto].
  unfold Store.matching. rewrite <- List.filter_rev.
  induction (List.rev (col s)) as [|u l IH]; simpl; [reflexivity|].
  unfold Store.expiresAfter at 1.
  destruct (now <? URLData.ExpiresAt u); simpl.
  - rewrite andb_true_r. destruct (Store.byShortCode code u); [reflexivity | exact IH].
  - rewrite andb_false_r. exact IH.
Qed.

Lemma load_backed (now : Z) (up : bool) (s : Server) :
  backed s -> backed (loadActiveCache now up s).2.
Proof.
  intros Hb. unfold loadActiveCache. destruct up; [|exact Hb].
  intros code item. simpl. rewrite load_lookup.
  destruct (List.find _ _) as [u|] eqn:E.
  - intros [= <-]. apply List.find_some in E as [Hin Hc].
    apply List.in_rev in Hin. apply List.filter_In in Hin as [Hin _].
    apply String.eqb_eq in Hc. exists u. split_and!; auto.
  - apply Hb.
Qed.

(** X13. Startup.  When its delete goes through, [initialCleanup] leaves
    in the store the documents that do not expire before the BSON date of
    [now], which is [now] cut to the millisecond: a document that expired
    within the running millisecond stays.  The cache it then loads holds
    only entries that expire after the time of the load, each with a
    document of the store behind it that has its code, URL and expiry, and
    an entry for the code of every document that expires after that time.  When the load fails the cache
    stays empty, and when the delete fails nothing is deleted and nothing
    loaded: the server starts with a cold cache. *)
Theorem initialCleanup_startup (now now_load : Z) (up_load : bool) (docs : list URLData.t) :
  let out := initialCleanup now now_load true up_load (mkServer docs ∅ ∅) in
  (forall u, In u (col out.2)
             <-> In u docs /\ Store.bsonDate now <= URLData.ExpiresAt u)
  /\ (forall code item,
        cache out.2 !! code = Some item ->
        exists u, In u (col out.2) /\ URLData.ShortCode u = code /\ item = itemOf u)
  /\ (forall code item,
        cache out.2 !! code = Some item -> now_load < CacheItem.ExpiresAt item)
  /\ (up_load = true ->
      forall u, In u (col out.2) -> now_load < URLData.ExpiresAt u ->
                is_Some (cache out.2 !! URLData.ShortCode u))
  /\ (up_load = false -> cache out.2 = ∅)
  /\ initialCleanup now now_load false up_load (mkServer docs ∅ ∅)
     = ([LogRunningCleanup; LogCleanupError], mkServer docs ∅ ∅).
Proof.
  cbv zeta. unfold initialCleanup. simpl.
  set (kept := List.filter (fun u => negb (Store.expiresBefore now u)) docs).
  set (s1 := setCol kept (mkServer docs ∅ ∅)).
  assert (Hkept : forall u, In u kept
                            <-> In u docs /\ Store.bsonDate now <= URLData.ExpiresAt u).
  { intros u. unfold kept. rewrite List.filter_In.
    unfold Store.expiresBefore. rewrite negb_true_iff, Z.ltb_ge. reflexivity. }
  unfold loadActiveCache in *. destruct up_load; simpl in *.
  - split; [exact Hkept|]. split; [|split; [|split; [|split; [discriminate|reflexivity]]]].
    + intros code item. rewrite load_lookup.
      destruct (List.find _ _) as [u|] eqn:Ef.
      * intros [= <-]. apply List.find_some in Ef as [Hin Hc].
        apply List.in_rev in Hin. apply List.filter_In in Hin as [Hin _].
        apply String.eqb_eq in Hc. exists u. auto.
      * rewrite lookup_empty. discriminate.
    + intros code item. rewrite load_lookup.
      destruct (List.find _ _) as [u|] eqn:Ef.
      * intros [= <-]. apply List.find_some in Ef as [Hin _].
        apply List.in_rev in Hin. apply List.filter_In in Hin as [_ Hx].
        unfold Store.expiresAfter in Hx. apply Z.ltb_lt in Hx. exact Hx.
      * rewrite lookup_empty. discriminate.
    + intros _ u Hin Hu. rewrite load_lookup.
      destruct (List.find _ _) as [v|] eqn:Ef; [eauto|].
      exfalso. assert (Hx : Store.byShortCode (URLData.ShortCode u) u = false).
      { apply (List.find_none _ _ Ef u).
        apply -> List.in_rev. apply List.filter_In. split; [exact Hin|].
        unfold Store.expiresAfter. apply Z.ltb_lt. exact Hu. }
      unfold Store.byShortCode in Hx. rewrite String.eqb_refl in Hx. discriminate.
  - split; [exact Hkept|].
    split; [intros code item; rewrite lookup_empty; discriminate|].
    split; [intros code item; rewrite lookup_empty; discriminate|].
    split; [discriminate|]. split; reflexivity.
Qed.

(** ** Periodic cleanup *)

Lemma filter_length_split {A : Type} (p : A -> bool) (l : list A) :
  (length (List.filter p l) + length (List.filter (fun x => negb (p x)) l))%nat = length l.
Proof.
  induction l as [|a l IH]; simpl; [reflexivity|].
  destruct (p a); simpl; lia.
Qed.

Lemma filter_twice {A : Type} (p : A -> bool) (l : list A) :
  List.filter p (List.filter p l) = List.filter p l.
Proof.
  induction l as [|a l IH]; simpl; [reflexivity|].
  destruct (p a) eqn:E; simpl; [rewrite E, IH; reflexivity | exact IH].
Qed.

Lemma filter_none {A : Type} (p : A -> bool) (l : list A) :
  List.filter p (List.filter (fun x => negb (p x)) l) = [].
Proof.
  induction l as [|a l IH]; simpl; [reflexivity|].
  destruct (p a) eqn:E; simpl; [exact IH | rewrite E; exact IH].
Qed.

Lemma sweepCache_twice (now : Z) (c : gmap string CacheItem.t) :
  sweepCache now (sweepCache now c) = sweepCache now c.
Proof.
  unfold sweepCache. apply map_eq. intros k. apply option_eq. intros item.
  rewrite !map_lookup_filter_Some. tauto.
Qed.

(** X14. What a periodic cleanup that goes through reports and what a
    second one finds.  The two numbers of its closing log line are the
    number of documents that left the store and the number of entries that
    left the cache, and the line is written exactly when one of them is
    positive.  A second run at the same instant removes nothing and writes
    no closing line. *)
Theorem performCleanup_counts (now : Z) (s : Server) :
  let out := performCleanup now true s in
  let deleted := Z.of_nat (length (col s)) - Z.of_nat (length (col out.2)) in
  let cleaned := Z.of_nat (size (cache s)) - Z.of_nat (size (cache out.2)) in
  0 <= deleted /\ 0 <= cleaned
  /\ out.1 = LogRunningCleanup
             :: (if (0 <? deleted) || (0 <? cleaned)
                 then [LogCleanupComplete deleted cleaned] else [])
  /\ (out.1 = [LogRunningCleanup] <-> col out.2 = col s /\ cache out.2 = cache s)
  /\ performCleanup now true out.2 = ([LogRunningCleanup], out.2).
Proof.
  cbv zeta. unfold performCleanup. simpl.
  pose proof (filter_length_split (Store.expiresBefore now) (col s)) as Hl.
  pose proof (map_size_filter (fun kv : string * CacheItem.t =>
                                 negb (Time.After now (CacheItem.ExpiresAt kv.2))) (cache s))
    as Hc.
  fold (sweepCache now (cache s)) in Hc.
  unfold Store.matching.
  set (kept := List.filter (fun u => negb (Store.expiresBefore now u)) (col s)) in *.
  set (gone := List.filter (Store.expiresBefore now) (col s)) in *.
  replace (Z.of_nat (length (col s)) - Z.of_nat (length kept)) with (Z.of_nat (length gone))
    by lia.
  split; [lia|]. split; [lia|]. split; [reflexivity|]. split.
  - split.
    + intros H.
      destruct ((0 <? Z.of_nat (length gone))
                || (0 <? Z.of_nat (size (cache s)) - Z.of_nat (size (sweepCache now (cache s)))))
        eqn:E; [discriminate|].
      apply orb_false_iff in E as [E1 E2]. apply Z.ltb_ge in E1, E2.
      split.
      * subst kept gone. clear -E1.
        induction (col s) as [|u l IH]; simpl in *; [reflexivity|].
        destruct (Store.expiresBefore now u); simpl in *; [lia|]. f_equal. exact (IH E1).
      * unfold sweepCache in *.
        apply map_subseteq_size_eq; [apply map_filter_subseteq | lia].
    + intros [H1 H2]. rewrite H2. rewrite H1 in Hl.
      replace (Z.of_nat (length gone)) with 0 by lia.
      rewrite Z.sub_diag. reflexivity.
  - subst kept gone. rewrite filter_none, (filter_twice (fun u => negb (Store.expiresBefore now u))).
    rewrite sweepCache_twice. simpl. rewrite Z.sub_diag. reflexivity.
Qed.

(** The answer of [redirectHandler] when the cache gives no live entry for
    the code: it is read off the store. *)
Lemma redirect_miss_answer (now : Z) (find_up del_up : bool) (code : string) (s : Server) :
  (forall c, cache s !! code = Some c -> Time.Before now (CacheItem.ExpiresAt c) = false) ->
  (redirectHandler now find_up del_up code s).1
  = match Store.FindOne find_up (Store.byShortCode code) (col s) with
    | Store.Ok u =>
        if Time.Before now (URLData.ExpiresAt u) then Redirect (URLData.Original u) 302
        else NotFound
    | Store.Err => NotFound
    end.
Proof.
  intros Hc. unfold redirectHandler.
  destruct (cache s !! code) as [c|].
  - rewrite (Hc c eq_refl). simpl.
    destruct (Store.FindOne _ _ _) as [u|]; [|reflexivity].
    by destruct (Time.Before now (URLData.ExpiresAt u)).
  - destruct (Store.FindOne _ _ _) as [u|]; [|reflexivity].
    by destruct (Time.Before now (URLData.ExpiresAt u)).
Qed.

Lemma unique_code_filter (code : string) (v : URLData.t) (l : list URLData.t) :
  List.NoDup (codes (v :: l)) -> URLData.ShortCode v = code ->
  forall q, List.filter (Store.byShortCode code) (List.filter q l) = [].
Proof.
  intros Hn Hv q. simpl in Hn. inversion Hn as [|? ? Hnotin _]; subst. clear Hn.
  induction l as [|u l IH]; simpl; [reflexivity|].
  assert (Hu : Store.byShortCode (URLData.ShortCode v) u = false).
  { unfold Store.byShortCode. apply String.eqb_neq. intros E. apply Hnotin. left. exact E. }
  assert (Hrest : ~ In (URLData.ShortCode v) (codes l)).
  { intros Hin. apply Hnotin. right. exact Hin. }
  destruct (q u); simpl; [rewrite Hu|]; exact (IH Hrest).
Qed.

Lemma store_answer_after_delete (now now' : Z) (find_up : bool) (code : string)
      (l : list URLData.t) :
  List.NoDup (codes l) -> now <= now' ->
  match Store.FindOne find_up (Store.byShortCode code)
          (List.filter (fun u => negb (Store.expiresBefore now u)) l) with
  | Store.Ok u =>
      if Time.Before now' (URLData.ExpiresAt u) then Redirect (URLData.Original u) 302
      else NotFound
  | Store.Err => NotFound
  end
  = match Store.FindOne find_up (Store.byShortCode code) l with
    | Store.Ok u =>
        if Time.Before now' (URLData.ExpiresAt u) then Redirect (URLData.Original u) 302
        else NotFound
    | Store.Err => NotFound
    end.
Proof.
  intros Hn Ht. unfold Store.FindOne, Store.matching. destruct find_up; [|reflexivity].
  induction l as [|v l IH]; simpl; [reflexivity|].
  assert (Hn' : List.NoDup (codes l)) by (simpl in Hn; by inversion Hn).
  destruct (Store.byShortCode code v) eqn:Ev.
  - apply String.eqb_eq in Ev.
    pose proof (unique_code_filter code v l Hn Ev) as Hq.
    unfold Store.expiresBefore at 1.
    destruct (Z.ltb_spec (URLData.ExpiresAt v) (Store.bsonDate now)); simpl.
    + rewrite Hq. unfold Time.Before. pose proof (bsonDate_le now) as Hd.
      destruct (Z.ltb_spec now' (URLData.ExpiresAt v)); [lia | reflexivity].
    + unfold Store.byShortCode at 1. rewrite Ev, String.eqb_refl. reflexivity.
  - destruct (negb (Store.expiresBefore now v)); simpl; [rewrite Ev|]; exact (IH Hn').
Qed.

(** X15. A periodic cleanup does not show in what is served afterwards.
    When the short codes of the store are pairwise distinct, a redirect
    request that comes at or after the time of the cleanup gets the same
    answer as it would have got without the cleanup, and so does a listing:
    what the cleanup removed was already dead to both. *)
Theorem cleanup_invisible_to_readers (now now' : Z) (up find_up del_up : bool)
        (code : string) (s : Server) :
  List.NoDup (codes (col s)) ->
  now <= now' ->
  let s' := (performCleanup now up s).2 in
  (redirectHandler now' find_up del_up code s').1
  = (redirectHandler now' find_up del_up code s).1
  /\ (listHandler now' s').1 = (listHandler now' s).1.
Proof.
  intros Hn Ht. cbv zeta. unfold performCleanup. destruct up; simpl; [|done].
  set (kept := List.filter (fun u => negb (Store.expiresBefore now u)) (col s)).
  set (s' := setCache (sweepCache now (cache s)) (setCol kept s)).
  assert (Hsw : forall k x, sweepCache now (cache s) !! k = Some x
                            <-> cache s !! k = Some x /\ now <= CacheItem.ExpiresAt x).
  { intros k x. unfold sweepCache. rewrite map_lookup_filter_Some. simpl.
    unfold Time.After. rewrite Is_true_true, negb_true_iff, Z.ltb_ge. reflexivity. }
  split.
  - destruct (cache s !! code) as [c|] eqn:Ec.
    + destruct (Time.Before now' (CacheItem.ExpiresAt c)) eqn:Eb.
      * assert (Ec' : cache s' !! code = Some c).
        { simpl. apply Hsw. split; [exact Ec|].
          unfold Time.Before in Eb. apply Z.ltb_lt in Eb. lia. }
        unfold redirectHandler. rewrite Ec, Ec', Eb. reflexivity.
      * rewrite (redirect_miss_answer now' find_up del_up code s)
          by (intros c0 H0; rewrite Ec in H0; by inversion H0; subst).
        rewrite (redirect_miss_answer now' find_up del_up code s').
        { simpl. by apply store_answer_after_delete. }
        intros c0 H0. simpl in H0. apply Hsw in H0 as [H0 _].
        rewrite Ec in H0. by inversion H0; subst.
    + rewrite (redirect_miss_answer now' find_up del_up code s)
        by (intros c0 H0; rewrite Ec in H0; discriminate).
      rewrite (redirect_miss_answer now' find_up del_up code s').
      { simpl. by apply store_answer_after_delete. }
      intros c0 H0. simpl in H0. apply Hsw in H0 as [H0 _].
      rewrite Ec in H0. discriminate.
  - unfold listHandler. simpl.
    assert (E : filter (fun kv => Time.Before now' (CacheItem.ExpiresAt kv.2))
                       (sweepCache now (cache s))
                = filter (fun kv => Time.Before now' (CacheItem.ExpiresAt kv.2)) (cache s)).
    { apply map_eq. intros k. apply option_eq. intros x.
      rewrite !map_lookup_filter_Some, Hsw. simpl.
      unfold Time.Before. rewrite Is_true_true, Z.ltb_lt. intuition lia. }
    rewrite E. reflexivity.
Qed.

Lemma cleanup_invisible_to_readers_witness :
  (redirectHandler (100 * Time.Hour) true true demoCode
     (performCleanup (100 * Time.Hour) true staleServer).2).1
  = (redirectHandler (100 * Time.Hour) true true demoCode staleServer).1
  /\ (listHandler (100 * Time.Hour) (performCleanup (100 * Time.Hour) true staleServer).2).1
     = (listHandler (100 * Time.Hour) staleServer).1.
Proof.
  apply (cleanup_invisible_to_readers (100 * Time.Hour) (100 * Time.Hour) true true true
           demoCode staleServer).
  - apply List.NoDup_cons; [simpl; tauto | apply List.NoDup_nil].
  - lia.
Defined.

(** ** Every cache entry has a document behind it *)

Lemma backed_same (s s' : Server) :
  col s' = col s -> cache s' = cache s -> backed s -> backed s'.
Proof. unfold backed. intros -> ->. auto. Qed.

Lemma deleteFirst_keeps (p : URLData.t -> bool) (l : list URLData.t) (u : URLData.t) :
  In u l -> p u = false -> In u (Store.deleteFirst p l).
Proof.
  induction l as [|v l IH]; simpl; [done|].
  intros [->|Hin] Hp.
  - rewrite Hp. by left.
  - destruct (p v); [exact Hin | right; by apply IH].
Qed.

Lemma FindOne_Ok (find_up : bool) (p : URLData.t -> bool) (c : list URLData.t)
      (u : URLData.t) :
  Store.FindOne find_up p c = Store.Ok u -> In u c /\ p u = true.
Proof.
  unfold Store.FindOne, Store.matching. destruct find_up; [|discriminate].
  destruct (List.filter p c) as [|v l] eqn:E; [discriminate|].
  intros [= ->]. apply List.filter_In. rewrite E. by left.
Qed.

Lemma redirectHandler_keeps_backed (now : Z) (find_up del_up : bool) (code : string)
      (s : Server) :
  backed s -> backed (redirectHandler now find_up del_up code s).2.
Proof.
  intros Hb. unfold redirectHandler.
  assert (Hmiss : forall s1 : Server,
             col s1 = col s -> backed s1 -> cache s1 !! code = None ->
             backed (match Store.FindOne find_up (Store.byShortCode code) (col s1) with
                     | Store.Ok u =>
                         if Time.Before now (URLData.ExpiresAt u)
                         then (Redirect (URLData.Original u) 302,
                               setCache (<[code := CacheItem.mk (URLData.Original u)
                                                                (URLData.ExpiresAt u)]>
                                           (cache s1)) s1)
                         else (NotFound,
                               if del_up
                               then setCol (Store.deleteFirst (Store.byShortCode code) (col s1)) s1
                               else s1)
                     | Store.Err => (NotFound, s1)
                     end).2).
  { intros s1 Hcol Hb1 Hnone.
    destruct (Store.FindOne find_up (Store.byShortCode code) (col s1)) as [u|] eqn:Ef;
      [|exact Hb1].
    apply FindOne_Ok in Ef as [Hin Hc]. apply String.eqb_eq in Hc.
    destruct (Time.Before now (URLData.ExpiresAt u)); simpl.
    - intros k item. simpl. rewrite lookup_insert_Some.
      intros [[<- <-]|[_ Hk]]; [exists u; split_and!; auto | exact (Hb1 k item Hk)].
    - destruct del_up; [|exact Hb1].
      intros k item Hk. simpl in *.
      destruct (Hb1 k item Hk) as (v & Hv & Hvc & Hvo & Hve).
      exists v. split; [|auto]. apply deleteFirst_keeps; [exact Hv|].
      unfold Store.byShortCode. apply String.eqb_neq. intros E.
      rewrite <- Hvc, E, Hnone in Hk. discriminate. }
  destruct (cache s !! code) as [c|] eqn:Ec.
  - destruct (Time.Before now (CacheItem.ExpiresAt c)); [exact Hb|].
    apply Hmiss; [reflexivity | | simpl; apply lookup_delete_eq].
    intros k item. simpl. rewrite lookup_delete_Some. intros [_ Hk]. exact (Hb k item Hk).
  - by apply Hmiss.
Qed.

Lemma mainHandler_keeps_backed (now : Z) (find_up del_up : bool) (r : Request) (s : Server) :
  backed s -> backed (mainHandler now find_up del_up r s).2.
Proof.
  intros Hb. unfold mainHandler.
  destruct (String.eqb _ ""); [exact Hb|].
  destruct (_ && _); [by apply redirectHandler_keeps_backed | exact Hb].
Qed.

Lemma performCleanup_keeps_backed (now : Z) (up : bool) (s : Server) :
  backed s -> backed (performCleanup now up s).2.
Proof.
  intros Hb. unfold performCleanup. destruct up; simpl; [|exact Hb].
  intros k item. simpl. unfold sweepCache. rewrite map_lookup_filter_Some. simpl.
  unfold Time.After. rewrite Is_true_true, negb_true_iff, Z.ltb_ge. intros [Hk He].
  destruct (Hb k item Hk) as (u & Hu & Hc & Ho & Hx).
  exists u. split; [|auto]. apply List.filter_In. split; [exact Hu|].
  unfold Store.expiresBefore. rewrite negb_true_iff, Z.ltb_ge.
  pose proof (bsonDate_mono _ _ He) as Hm. pose proof (bsonDate_le now) as Hd.
  destruct Hx as [Hx|Hx]; lia.
Qed.

Lemma initialCleanup_backed (now now_load : Z) (up up_load : bool) (docs : list URLData.t) :
  backed (initialCleanup now now_load up up_load (mkServer docs ∅ ∅)).2.
Proof.
  assert (He : forall l, backed (mkServer l ∅ ∅))
    by (intros l code item; simpl; rewrite lookup_empty; discriminate).
  unfold initialCleanup. destruct up; simpl; [|apply He].
  match goal with
  | |- context [loadActiveCache ?t ?u ?x] =>
      pose proof (load_backed t u x (He _)) as Hb; destruct (loadActiveCache t u x)
  end.
  exact Hb.
Qed.

Section Backing.

Variable ParseIP : string -> option (list Byte.byte).
Variable TrimSpace : string -> string.

Lemma shortenHandler_keeps_backed (env : ShortenEnv) (r : Request) (s s' : Server)
      (resp : Response) :
  backed s ->
  shortenHandler ParseIP TrimSpace env r s = Returned (resp, s') ->
  backed s'.
Proof.
  intros Hb H.
  destruct (checkRateLimit_frame (now_check env) (count_up env)
              (getClientSubnet ParseIP TrimSpace r) s) as [Hcol Hcache].
  destruct (shortenHandler_returned ParseIP TrimSpace env r s s' resp H) as [[b ->]|[-> _]].
  - destruct (shortenHandler_success ParseIP TrimSpace env r s s' b H)
      as (url & code & info & _ & _ & _ & _ & _ & _ & -> & _).
    match goal with
    | |- backed (incrementRateLimit ?t ?k ?x) =>
        destruct (incrementRateLimit_frame t k x) as [Hc2 Hca2];
        apply (backed_same x); [exact Hc2 | exact Hca2 |]
    end.
    intros k item. simpl. rewrite Hcol, Hcache, lookup_insert_Some.
    intros [[<- <-]|[_ Hk]].
    + eexists. split; [apply in_or_app; right; left; reflexivity|]. simpl. auto.
    + destruct (Hb k item Hk) as (u & Hu & Hrest).
      exists u. split; [apply in_or_app; by left | exact Hrest].
  - by apply (backed_same s).
Qed.

Lemma run_keeps_backed (evs : list Event) : forall (s s' : Server),
  backed s -> run ParseIP TrimSpace evs s = Returned s' -> backed s'.
Proof.
  induction evs as [|ev evs IH]; intros s s' Hb H; simpl in H.
  - by inversion H; subst.
  - destruct ev as [env r | tk now up]; simpl in H.
    + unfold serve in H. destruct (dispatch (Path r)).
      * destruct (shortenHandler ParseIP TrimSpace (shortenEnv env) r s)
          as [[resp s1]| |] eqn:E; try discriminate.
        exact (IH s1 s' (shortenHandler_keeps_backed _ r s s1 resp Hb E) H).
      * exact (IH s s' Hb H).
      * exact (IH s s' Hb H).
      * exact (IH s s' Hb H).
      * pose proof (mainHandler_keeps_backed (now_handler env) (lookup_up env)
                      (remove_up env) r s Hb) as Hm.
        destruct (mainHandler _ _ _ r s) as [resp s1]. simpl in Hm.
        exact (IH s1 s' Hm H).
    + destruct tk; simpl in H.
      * exact (IH (performCleanup now up s).2 s' (performCleanup_keeps_backed now up s Hb) H).
      * apply (IH (cleanupRateLimitMap now s) s'); [|exact H].
        by apply (backed_same s).
Qed.

(** X16. Whatever requests and ticks the server has handled since startup,
    every entry of its cache has a document of the store behind it, with the
    same code and URL, and with the expiry of the entry or, after a create,
    that expiry cut to the millisecond, which is what the store keeps of a
    date.  So every redirect the server then gives for a well-formed code,
    out of the cache or out of the store, goes to the URL of a stored
    document with that code, and the expiry of that document lies less than
    a millisecond before the time of the request, or after it. *)
Theorem cache_backed_by_store (now now_load : Z) (up up_load : bool)
        (docs : list URLData.t) (evs : list Event) (s : Server) :
  main ParseIP TrimSpace now now_load up up_load docs evs = Returned s ->
  backed s
  /\ forall env r code url status s',
       Path r = "/" +:+ code -> isAlphanumeric code = true ->
       serve ParseIP TrimSpace env r s = Returned (Answered (Redirect url status), s') ->
       status = 302
       /\ exists u, In u (col s) /\ URLData.ShortCode u = code
                    /\ URLData.Original u = url
                    /\ now_handler env < URLData.ExpiresAt u + Time.Millisecond.
Proof.
  intros H. unfold main in H.
  pose proof (run_keeps_backed evs _ s (initialCleanup_backed now now_load up up_load docs) H)
    as Hb.
  split; [exact Hb|].
  intros env r code url st s' Hp Ha Hs.
  rewrite (serve_code_path ParseIP TrimSpace env r code s Hp Ha) in Hs.
  injection Hs as Hresp _. clear s'.
  destruct (cache s !! code) as [c|] eqn:Ec.
  - destruct (Time.Before (now_handler env) (CacheItem.ExpiresAt c)) eqn:Eb.
    + unfold redirectHandler in Hresp. rewrite Ec, Eb in Hresp. simpl in Hresp.
      injection Hresp as <- <-. split; [reflexivity|].
      destruct (Hb code c Ec) as (u & Hu & Hc & Ho & Hx).
      exists u. unfold Time.Before in Eb. apply Z.ltb_lt in Eb.
      pose proof (bsonDate_le (CacheItem.ExpiresAt c)) as Hd.
      split_and!; auto; destruct Hx as [Hx|Hx]; lia.
    + rewrite redirect_miss_answer in Hresp
        by (intros c0 H0; rewrite Ec in H0; by inversion H0; subst).
      destruct (Store.FindOne _ _ _) as [u|] eqn:Ef; [|discriminate].
      destruct (Time.Before _ (URLData.ExpiresAt u)) eqn:Eb'; [|discriminate].
      injection Hresp as <- <-. split; [reflexivity|].
      apply FindOne_Ok in Ef as [Hin Hc]. apply String.eqb_eq in Hc.
      unfold Time.Before in Eb'. apply Z.ltb_lt in Eb'. exists u.
      split_and!; auto; change Time.Millisecond with 1000000; lia.
  - rewrite redirect_miss_answer in Hresp
      by (intros c0 H0; rewrite Ec in H0; discriminate).
    destruct (Store.FindOne _ _ _) as [u|] eqn:Ef; [|discriminate].
    destruct (Time.Before _ (URLData.ExpiresAt u)) eqn:Eb'; [|discriminate].
    injection Hresp as <- <-. split; [reflexivity|].
    apply FindOne_Ok in Ef as [Hin Hc]. apply String.eqb_eq in Hc.
    unfold Time.Before in Eb'. apply Z.ltb_lt in Eb'. exists u.
    split_and!; auto; change Time.Millisecond with 1000000; lia.
Qed.

End Backing.

Lemma cache_backed_by_store_witness :
  backed createdServer
  /\ forall env r code url status s',
       Path r = "/" +:+ code -> isAlphanumeric code = true ->
       serve parseDottedQuad trimASCIISpace env r createdServer
       = Returned (Answered (Redirect url status), s') ->
       status = 302
       /\ exists u, In u (col createdServer) /\ URLData.ShortCode u = code
                    /\ URLData.Original u = url
                    /\ now_handler env < URLData.ExpiresAt u + Time.Millisecond.
Proof.
  apply (cache_backed_by_store parseDottedQuad trimASCIISpace demoStart demoStart true true
           [] demoEvents createdServer).
  vm_compute. reflexivity.
Defined.

(** The last millisecond of a link.  After a create 345678 nanoseconds into
    a millisecond, a request one nanosecond before the expiry of the cache
    entry is redirected out of the cache, while the expiry of the stored
    document already lies before the request. *)
Example redirect_in_the_last_millisecond :
  match shortenHandler parseDottedQuad trimASCIISpace
          (mkShortenEnv (now_check demoEnv) (now_denied demoEnv)
             (now_create demoEnv + 345678) (now_commit demoEnv + Time.Millisecond)
             (now_since demoEnv + Time.Millisecond) true true alternatingSource 1)
          (demoCreate "https://example.com") emptyServer with
  | Returned (Shortened b, s') =>
      redirectHandler (sh_expires_at b - 1) true true demoCode s'
      = (Redirect "https://example.com" 302, s')
      /\ List.forallb (fun u => URLData.ExpiresAt u <? sh_expires_at b - 1) (col s') = true
  | _ => False
  end.
Proof. vm_compute. split; reflexivity. Qed.

(** ** What a redirect leaves in the cache *)

(** X17. A redirect warms the cache.  Once [redirectHandler] has answered
    a code with a redirect, the cache holds the link under that code, not
    yet expired, and every later request for the code that comes before the
    expiry is redirected to the same URL out of the cache, store up or
    down, and changes nothing. *)
Theorem redirect_warms_cache (now : Z) (find_up del_up : bool) (code url : string)
        (status : Z) (s s1 : Server) :
  redirectHandler now find_up del_up code s = (Redirect url status, s1) ->
  exists item,
    cache s1 !! code = Some item
    /\ CacheItem.OriginalURL item = url
    /\ now < CacheItem.ExpiresAt item
    /\ forall now' find_up' del_up',
         now' < CacheItem.ExpiresAt item ->
         redirectHandler now' find_up' del_up' code s1 = (Redirect url 302, s1).
Proof.
  intros H.
  assert (Hhit : forall item,
             cache s1 !! code = Some item -> CacheItem.OriginalURL item = url ->
             now < CacheItem.ExpiresAt item ->
             exists item0,
               cache s1 !! code = Some item0
               /\ CacheItem.OriginalURL item0 = url
               /\ now < CacheItem.ExpiresAt item0
               /\ forall now' find_up' del_up',
                    now' < CacheItem.ExpiresAt item0 ->
                    redirectHandler now' find_up' del_up' code s1 = (Redirect url 302, s1)).
  { intros item Hc Hu Hx. exists item. split; [exact Hc|]. split; [exact Hu|].
    split; [exact Hx|]. intros now' fu' du' Hn. unfold redirectHandler. rewrite Hc.
    unfold Time.Before. destruct (Z.ltb_spec now' (CacheItem.ExpiresAt item)); [|lia].
    by rewrite Hu. }
  assert (Hmiss : forall s0 : Server,
             match Store.FindOne find_up (Store.byShortCode code) (col s0) with
             | Store.Ok u =>
                 if Time.Before now (URLData.ExpiresAt u)
                 then (Redirect (URLData.Original u) 302,
                       setCache (<[code := CacheItem.mk (URLData.Original u)
                                                        (URLData.ExpiresAt u)]>
                                   (cache s0)) s0)
                 else (NotFound,
                       if del_up
                       then setCol (Store.deleteFirst (Store.byShortCode code) (col s0)) s0
                       else s0)
             | Store.Err => (NotFound, s0)
             end = (Redirect url status, s1) ->
             exists item,
               cache s1 !! code = Some item /\ CacheItem.OriginalURL item = url
               /\ now < CacheItem.ExpiresAt item).
  { intros s0 E. destruct (Store.FindOne _ _ _) as [u|]; [|discriminate].
    destruct (Time.Before now (URLData.ExpiresAt u)) eqn:Eb; [|discriminate].
    injection E as <- _ <-. eexists. simpl. rewrite lookup_insert_eq.
    split; [reflexivity|]. simpl. split; [reflexivity|].
    unfold Time.Before in Eb. by apply Z.ltb_lt in Eb. }
  unfold redirectHandler in H.
  destruct (cache s !! code) as [c|] eqn:Ec.
  - destruct (Time.Before now (CacheItem.ExpiresAt c)) eqn:Eb.
    + injection H as <- _ <-. apply (Hhit c Ec eq_refl).
      unfold Time.Before in Eb. by apply Z.ltb_lt in Eb.
    + destruct (Hmiss _ H) as (item & Hc & Hu & Hx). exact (Hhit item Hc Hu Hx).
  - destruct (Hmiss _ H) as (item & Hc & Hu & Hx). exact (Hhit item Hc Hu Hx).
Qed.

Lemma redirect_warms_cache_witness :
  exists item,
    cache liveServer !! demoCode = Some item
    /\ CacheItem.OriginalURL item = "https://example.com/first"
    /\ demoStart + Time.Hour < CacheItem.ExpiresAt item
    /\ forall now' find_up' del_up',
         now' < CacheItem.ExpiresAt item ->
         redirectHandler now' find_up' del_up' demoCode liveServer
         = (Redirect "https://example.com/first" 302, liveServer).
Proof.
  apply (redirect_warms_cache (demoStart + Time.Hour) true false demoCode
           "https://example.com/first" 302 (mkServer [liveLink] ∅ ∅) liveServer).
  vm_compute. reflexivity.
Defined.

(** ** The instant of expiry *)

(** X18. The instant of expiry.  A link whose expiry is exactly [now] is
    dead to the readers and alive to the cleanup.  The listing leaves it
    out, the startup load does not take it, and a redirect request removes
    it from the cache and, when no document of its code expires later,
    answers not-found; but a cleanup that runs at that instant, periodic or
    initial, keeps it in the store and in the cache. *)
Theorem expiry_instant (now : Z) (s : Server) :
  (forall u, In u (col s) -> URLData.ExpiresAt u = now ->
             In u (col (performCleanup now true s).2)
             /\ (forall now_load up_load,
                   In u (col (initialCleanup now now_load true up_load s).2))
             /\ ~ In u (Store.matching (Store.expiresAfter now) (col s)))
  /\ (forall code c,
        cache s !! code = Some c -> CacheItem.ExpiresAt c = now ->
        cache (performCleanup now true s).2 !! code = Some c
        /\ (forall items n t, listHandler now s = (Listing n items t, s) ->
                              items !! code = None)
        /\ (forall find_up del_up,
              cache (redirectHandler now find_up del_up code s).2 !! code <> Some c
              /\ ((forall u, In u (col s) -> URLData.ShortCode u = code ->
                             URLData.ExpiresAt u <= now) ->
                  (redirectHandler now find_up del_up code s).1 = NotFound))).
Proof.
  split.
  - intros u Hin Hx.
    assert (Hkept : In u (List.filter (fun v => negb (Store.expiresBefore now v)) (col s))).
    { apply List.filter_In. split; [exact Hin|].
      unfold Store.expiresBefore. rewrite negb_true_iff, Z.ltb_ge.
      pose proof (bsonDate_le now). lia. }
    split; [exact Hkept|]. split.
    + intros now_load up_load. unfold initialCleanup, loadActiveCache. simpl.
      destruct up_load; exact Hkept.
    + unfold Store.matching. rewrite List.filter_In. unfold Store.expiresAfter.
      intros [_ H]. apply Z.ltb_lt in H. lia.
  - intros code c Hc Hx. split; [|split].
    + simpl. unfold sweepCache. apply map_lookup_filter_Some. split; [exact Hc|]. simpl.
      unfold Time.After. rewrite Is_true_true, negb_true_iff, Z.ltb_ge. lia.
    + intros items n t H. unfold listHandler in H. injection H as _ <- _.
      apply map_lookup_filter_None. right. intros x Hx'. rewrite Hc in Hx'.
      injection Hx' as <-. simpl. unfold Time.Before.
      rewrite Is_true_true, Z.ltb_lt. lia.
    + intros find_up del_up.
      assert (Hb : Time.Before now (CacheItem.ExpiresAt c) = false).
      { unfold Time.Before. apply Z.ltb_ge. lia. }
      split.
      * unfold redirectHandler. rewrite Hc, Hb.
        destruct (Store.FindOne find_up (Store.byShortCode code) _) as [u|] eqn:Ef.
        -- destruct (Time.Before now (URLData.ExpiresAt u)) eqn:Eb; simpl.
           ++ rewrite lookup_insert_eq. intros [= E]. rewrite <- E in Hx. simpl in Hx.
              unfold Time.Before in Eb. apply Z.ltb_lt in Eb. lia.
           ++ destruct del_up; simpl; rewrite lookup_delete_eq; discriminate.
        -- simpl. rewrite lookup_delete_eq. discriminate.
      * intros Hall.
        rewrite redirect_miss_answer
          by (intros c0 H0; rewrite Hc in H0; by injection H0 as <-).
        destruct (Store.FindOne find_up (Store.byShortCode code) (col s)) as [u|] eqn:Ef;
          [|reflexivity].
        apply FindOne_Ok in Ef as [Hin Hcode]. apply String.eqb_eq in Hcode.
        specialize (Hall u Hin Hcode). unfold Time.Before.
        destruct (Z.ltb_spec now (URLData.ExpiresAt u)); [lia | reflexivity].
Qed.

Example expiry_instant_runs :
  (redirectHandler (10 * Time.Hour) true true demoCode staleServer).1 = NotFound
  /\ col (redirectHandler (10 * Time.Hour) true true demoCode staleServer).2 = []
  /\ (performCleanup (10 * Time.Hour) true staleServer).2 = staleServer
  /\ (performCleanup (10 * Time.Hour + 1) true staleServer).1
     = [LogRunningCleanup; LogCleanupComplete 0 1]
  /\ (performCleanup (10 * Time.Hour + Time.Millisecond) true staleServer).1
     = [LogRunningCleanup; LogCleanupComplete 1 1].
Proof. vm_compute. repeat split; reflexivity. Qed.

(** ** The client address and the keys of the rate limiter *)

Lemma splitHead_lacks (sep : ascii) (s : string) : lacks sep (splitHead sep s) = true.
Proof.
  induction s as [|c s IH]; simpl; [reflexivity|].
  destruct (Ascii.eqb c sep) eqn:E; simpl; [reflexivity|]. by rewrite E, IH.
Qed.

Lemma splitHead_prefix (sep : ascii) (s : string) : String.prefix (splitHead sep s) s = true.
Proof.
  induction s as [|c s IH]; simpl; [reflexivity|].
  destruct (Ascii.eqb c sep); simpl; [reflexivity|].
  destruct (ascii_dec c c); [exact IH | done].
Qed.

Lemma splitHead_app (sep : ascii) (a b : string) :
  lacks sep a = true -> splitHead sep (a +:+ String sep b) = a.
Proof.
  induction a as [|c a IH]; simpl.
  - by rewrite Ascii.eqb_refl.
  - intros H. apply andb_true_iff in H as [Hc Ha]. apply negb_true_iff in Hc.
    by rewrite Hc, IH.
Qed.

Lemma splitHead_id (sep : ascii) (a : string) : lacks sep a = true -> splitHead sep a = a.
Proof.
  induction a as [|c a IH]; simpl; [reflexivity|].
  intros H. apply andb_true_iff in H as [Hc Ha]. apply negb_true_iff in Hc.
  by rewrite Hc, IH.
Qed.

Section ClientIP.

Variable TrimSpace : string -> string.

(** X19. Where [getClientIP] takes the address from.  A request with an
    [X-Forwarded-For] header is known by the first comma-separated entry of
    that header, trimmed, whatever its peer address and its [X-Real-IP]; one
    with only [X-Real-IP] by that header as it stands.  Without either, the
    address is the text of [RemoteAddr] before its first colon: the host of
    a [host:port] whose host has no colon, but for a bracketed IPv6 peer
    only the bracket and the first group of the address. *)
Theorem getClientIP_sources (r : Request) :
  (XForwardedFor r <> "" ->
   getClientIP TrimSpace r = TrimSpace (splitHead "," (XForwardedFor r))
   /\ lacks "," (splitHead "," (XForwardedFor r)) = true
   /\ forall first rest,
        XForwardedFor r = first +:+ String "," rest -> lacks "," first = true ->
        getClientIP TrimSpace r = TrimSpace first)
  /\ (XForwardedFor r = "" -> XRealIP r <> "" -> getClientIP TrimSpace r = XRealIP r)
  /\ (XForwardedFor r = "" -> XRealIP r = "" ->
      lacks ":" (getClientIP TrimSpace r) = true
      /\ String.prefix (getClientIP TrimSpace r) (RemoteAddr r) = true
      /\ (forall host port,
            RemoteAddr r = host +:+ String ":" port -> lacks ":" host = true ->
            getClientIP TrimSpace r = host)
      /\ (forall group rest,
            RemoteAddr r = String "[" (group +:+ String ":" rest) ->
            lacks ":" group = true ->
            getClientIP TrimSpace r = String "[" group)).
Proof.
  unfold getClientIP. split; [|split].
  - intros Hx. destruct (String.eqb_spec (XForwardedFor r) "") as [|_]; [done|]. simpl.
    split; [reflexivity|]. split; [apply splitHead_lacks|].
    intros first rest -> Hl. by rewrite splitHead_app.
  - intros -> Hx. simpl. destruct (String.eqb_spec (XRealIP r) "") as [|_]; [done|].
    reflexivity.
  - intros -> ->. simpl.
    split; [apply splitHead_lacks|]. split; [apply splitHead_prefix|]. split.
    + intros host port -> Hl. by apply splitHead_app.
    + intros group rest -> Hl.
      change (String "[" (group +:+ String ":" rest))
        with (String "[" group +:+ String ":" rest).
      apply splitHead_app. simpl. exact Hl.
Qed.

End ClientIP.

Example getClientIP_runs :
  getClientIP trimASCIISpace (direct "203.0.113.7:51234") = "203.0.113.7"
  /\ getClientIP trimASCIISpace (direct "[2001:db8::1]:51234") = "[2001"
  /\ getClientIP trimASCIISpace
       (mkRequest " 198.51.100.9 , 10.0.0.1" "192.0.2.1" "203.0.113.7:51234" "" "/" None)
     = "198.51.100.9"
  /\ getClientIP trimASCIISpace
       (mkRequest "" " 192.0.2.1" "203.0.113.7:51234" "" "/" None)
     = " 192.0.2.1"
  /\ getClientSubnet parseDottedQuad trimASCIISpace (direct "[2001:db8::1]:51234") = "[2001".
Proof. vm_compute. repeat split; reflexivity. Qed.

Lemma lacks_app (c : ascii) (x y : string) : lacks c (x +:+ y) = lacks c x && lacks c y.
Proof.
  induction x as [|a x IH]; simpl; [reflexivity|]. by rewrite IH, andb_assoc.
Qed.

Lemma app_inv_head_string (x r r' : string) : x +:+ r = x +:+ r' -> r = r'.
Proof.
  induction x as [|a x IH]; simpl; [done|]. intros [= H]. by apply IH.
Qed.

Lemma split_at_separator (sep : ascii) (x x' r r' : string) :
  lacks sep x = true -> lacks sep x' = true ->
  x +:+ String sep r = x' +:+ String sep r' -> x = x' /\ r = r'.
Proof.
  intros Hx Hx' H.
  assert (E : x = x').
  { rewrite <- (splitHead_app sep x r Hx), <- (splitHead_app sep x' r' Hx'). by rewrite H. }
  subst x'. apply app_inv_head_string in H. injection H as ->. done.
Qed.

(** [%d] of a byte reads back as that byte, and holds neither a dot nor a
    colon. *)
Lemma byte_reads_back (b : Byte.byte) :
  parseOctet (Fmt.byte b) = Some b
  /\ lacks "." (Fmt.byte b) = true /\ lacks ":" (Fmt.byte b) = true.
Proof. destruct b; vm_compute; repeat split; reflexivity. Qed.

Lemma byte_text_inj (b b' : Byte.byte) : Fmt.byte b = Fmt.byte b' -> b = b'.
Proof.
  intros H. destruct (byte_reads_back b) as [Hb _], (byte_reads_back b') as [Hb' _].
  rewrite H, Hb' in Hb. by injection Hb.
Qed.

(** A hex digit is the character ['0'] plus its value below ten, and
    ['a'] plus what exceeds ten from there on. *)
Lemma hexDigit_code (n : Z) :
  0 <= n < 16 -> code_of (Fmt.hexDigit n) = if n <? 10 then 48 + n else 87 + n.
Proof.
  intros Hn. rewrite <- (Z2Nat.id n) by lia.
  assert (Hk : (Z.to_nat n < 16)%nat) by lia. revert Hk.
  generalize (Z.to_nat n). intros k Hk.
  do 16 (destruct k as [|k]; [vm_compute; reflexivity|]). lia.
Qed.

Lemma hexDigit_inj (n m : Z) :
  0 <= n < 16 -> 0 <= m < 16 -> Fmt.hexDigit n = Fmt.hexDigit m -> n = m.
Proof.
  intros Hn Hm H. apply (f_equal code_of) in H.
  rewrite (hexDigit_code n Hn), (hexDigit_code m Hm) in H.
  destruct (Z.ltb_spec n 10), (Z.ltb_spec m 10); lia.
Qed.

Lemma x02_inj (b b' : Byte.byte) : Fmt.x02 b = Fmt.x02 b' -> b = b'.
Proof.
  unfold Fmt.x02. intros [= Hh Hl].
  assert (Hb : 0 <= Z.of_N (Byte.to_N b) < 256) by (destruct b; vm_compute; split; congruence).
  assert (Hb' : 0 <= Z.of_N (Byte.to_N b') < 256) by (destruct b'; vm_compute; split; congruence).
  apply hexDigit_inj in Hh; [| split; [apply Z.div_pos|apply Z.div_lt_upper_bound]; lia
                             | split; [apply Z.div_pos|apply Z.div_lt_upper_bound]; lia].
  apply hexDigit_inj in Hl; [| apply Z.mod_pos_bound; lia | apply Z.mod_pos_bound; lia].
  assert (E : Byte.to_N b = Byte.to_N b').
  { apply N2Z.inj. rewrite (Z.div_mod (Z.of_N (Byte.to_N b)) 16) by lia.
    rewrite (Z.div_mod (Z.of_N (Byte.to_N b')) 16) by lia. by rewrite Hh, Hl. }
  pose proof (Byte.of_to_N b) as H1. pose proof (Byte.of_to_N b') as H2.
  rewrite E, H2 in H1. by injection H1.
Qed.

Section Keys.

Variable ParseIP : string -> option (list Byte.byte).

(** X20. The keys of the rate limiter keep subnets apart.  Two addresses
    that [net.ParseIP] reads (it returns sixteen bytes) get the same key
    only if both are IPv4 with the same first three octets, or both are not
    and agree on their first eight bytes: the key of a /24 is never the key
    of another /24 nor that of a /64. *)
Theorem subnet_keys_separate (s1 s2 : string) (ip1 ip2 : list Byte.byte) :
  ParseIP s1 = Some ip1 -> ParseIP s2 = Some ip2 ->
  length ip1 = 16%nat -> length ip2 = 16%nat ->
  subnetOf ParseIP s1 = subnetOf ParseIP s2 ->
  match IP.To4 ip1, IP.To4 ip2 with
  | Some v1, Some v2 => firstn 3 v1 = firstn 3 v2
  | None, None => firstn 8 ip1 = firstn 8 ip2
  | _, _ => False
  end.
Proof.
  intros Hp1 Hp2 Hl1 Hl2. unfold subnetOf. rewrite Hp1, Hp2.
  rewrite (To16_sixteen ip1 Hl1), (To16_sixteen ip2 Hl2).
  do 17 (destruct ip1 as [|? ip1]; try discriminate Hl1).
  do 17 (destruct ip2 as [|? ip2]; try discriminate Hl2).
  clear Hp1 Hp2 Hl1 Hl2. unfold IP.To4.
  cbn [length Nat.eqb andb firstn skipn nth].
  repeat match goal with
         | |- context [if ?c then Some ?v else None] => destruct c
         end; cbn [nth firstn].
  - intros H.
    repeat match type of H with
           | _ +:+ "." +:+ _ = _ +:+ "." +:+ _ =>
               apply (split_at_separator ".") in H as [?%byte_text_inj H];
               [| apply byte_reads_back | apply byte_reads_back]
           end.
    match type of H with
    | Fmt.byte ?x +:+ _ = Fmt.byte ?y +:+ _ =>
        apply (split_at_separator "." (Fmt.byte x) (Fmt.byte y) "0/24" "0/24")
          in H as [?%byte_text_inj _];
        [| apply byte_reads_back | apply byte_reads_back]
    end.
    by subst.
  - intros H. exfalso.
    apply (f_equal (lacks ":")) in H. revert H.
    rewrite !lacks_app. simpl.
    repeat match goal with
           | |- context [lacks ":" (Fmt.byte ?b)] =>
               rewrite (proj2 (proj2 (byte_reads_back b)))
           end.
    simpl. rewrite !andb_false_r. discriminate.
  - intros H. exfalso.
    apply (f_equal (lacks ":")) in H. revert H.
    rewrite !lacks_app. simpl.
    repeat match goal with
           | |- context [lacks ":" (Fmt.byte ?b)] =>
               rewrite (proj2 (proj2 (byte_reads_back b)))
           end.
    simpl. rewrite !andb_false_r. discriminate.
  - intros H. simpl in H. injection H as H0 H1 H2 H3 H4 H5 H6 H7 H8 H9 H10 H11 H12 H13 H14 H15.
    repeat match goal with
           | Ha : Fmt.hexDigit (Z.of_N (Byte.to_N ?x) / 16) = Fmt.hexDigit (Z.of_N (Byte.to_N ?y) / 16),
             Hb : Fmt.hexDigit (Z.of_N (Byte.to_N ?x) mod 16) = Fmt.hexDigit (Z.of_N (Byte.to_N ?y) mod 16) |- _ =>
               assert (x = y) by (apply x02_inj; unfold Fmt.x02; by rewrite Ha, Hb);
               clear Ha Hb
           end.
    by subst.
Qed.

End Keys.

Lemma subnet_keys_separate_witness :
  match IP.To4 (IPv4 Byte.xc0 Byte.xa8 Byte.x01 Byte.x4d),
        IP.To4 (IPv4 Byte.xc0 Byte.xa8 Byte.x01 Byte.xc8) with
  | Some v1, Some v2 => firstn 3 v1 = firstn 3 v2
  | None, None =>
      firstn 8 (IPv4 Byte.xc0 Byte.xa8 Byte.x01 Byte.x4d)
      = firstn 8 (IPv4 Byte.xc0 Byte.xa8 Byte.x01 Byte.xc8)
  | _, _ => False
  end.
Proof.
  apply (subnet_keys_separate parseDottedQuad "192.168.1.77" "192.168.1.200"
           (IPv4 Byte.xc0 Byte.xa8 Byte.x01 Byte.x4d)
           (IPv4 Byte.xc0 Byte.xa8 Byte.x01 Byte.xc8)); vm_compute; reflexivity.
Defined.

(** ** One subnet's traffic and another subnet's quota *)

Lemma checkRateLimit_verdict_ext (now : Z) (up : bool) (subnet : string) (s1 s2 : Server) :
  rateLimitMap s1 !! subnet = rateLimitMap s2 !! subnet ->
  Store.matching (Store.bySubnetSince subnet (Time.Add now (- 24 * Time.Hour))) (col s1)
  = Store.matching (Store.bySubnetSince subnet (Time.Add now (- 24 * Time.Hour))) (col s2) ->
  (checkRateLimit now up subnet s1).1 = (checkRateLimit now up subnet s2).1.
Proof.
  intros Hm Hc. unfold checkRateLimit. rewrite Hm.
  destruct (rateLimitMap s2 !! subnet) as [i|].
  - repeat match goal with
           | |- context [if ?x then _ else _] => destruct x; simpl
           end; reflexivity.
  - cbv zeta. unfold Store.CountDocuments. rewrite Hc.
    destruct up; [|reflexivity].
    destruct (maxURLsPerSubnet <=? _); reflexivity.
Qed.

Lemma incrementRateLimit_other (now : Z) (subnet other : string) (s : Server) :
  other <> subnet ->
  rateLimitMap (incrementRateLimit now subnet s) !! other = rateLimitMap s !! other.
Proof.
  intros Hne. unfold incrementRateLimit.
  destruct (rateLimitMap s !! subnet); [|reflexivity].
  simpl. by rewrite lookup_insert_ne.
Qed.

Lemma checkRateLimit_other (now : Z) (up : bool) (subnet other : string) (s : Server) :
  other <> subnet ->
  rateLimitMap (checkRateLimit now up subnet s).2 !! other = rateLimitMap s !! other.
Proof.
  intros Hne.
  destruct (checkRateLimit_cases now up subnet s) as [(_ & _ & _ & -> & _)|(_ & info & _ & ->)];
    [reflexivity|].
  simpl. by rewrite lookup_insert_ne.
Qed.

Section Isolation.

Variable ParseIP : string -> option (list Byte.byte).
Variable TrimSpace : string -> string.

(** X21. The quota of a subnet is its own.  Whatever a create request from
    one subnet does, answered 200 or not, the verdict of the rate limiter
    on any other subnet, at any later check, is what it would have been
    without that request: its entry in the map is untouched and the
    document that was stored counts for the creator's subnet only. *)
Theorem subnet_quota_is_its_own (env : ShortenEnv) (r : Request) (s s' : Server)
        (resp : Response) (other : string) :
  shortenHandler ParseIP TrimSpace env r s = Returned (resp, s') ->
  other <> getClientSubnet ParseIP TrimSpace r ->
  rateLimitMap s' !! other = rateLimitMap s !! other
  /\ forall now up,
       (checkRateLimit now up other s').1 = (checkRateLimit now up other s).1.
Proof.
  intros H Hne.
  set (subnet := getClientSubnet ParseIP TrimSpace r) in *.
  destruct (checkRateLimit_frame (now_check env) (count_up env) subnet s) as [Hcol Hcache].
  pose proof (checkRateLimit_other (now_check env) (count_up env) subnet other s Hne) as Hm1.
  assert (Hboth : rateLimitMap s' !! other = rateLimitMap s !! other
                  /\ forall t, Store.matching (Store.bySubnetSince other t) (col s')
                               = Store.matching (Store.bySubnetSince other t) (col s)).
  { destruct (shortenHandler_returned ParseIP TrimSpace env r s s' resp H) as [[b ->]|[-> _]];
      fold subnet.
    - destruct (shortenHandler_success ParseIP TrimSpace env r s s' b H)
        as (url & code & info & _ & _ & _ & _ & _ & _ & -> & _).
      fold subnet. split.
      + rewrite incrementRateLimit_other by exact Hne. simpl. exact Hm1.
      + intros t.
        match goal with
        | |- context [col (incrementRateLimit ?a ?k ?x)] =>
            destruct (incrementRateLimit_frame a k x) as [-> _]
        end.
        simpl. rewrite Hcol. unfold Store.matching. rewrite List.filter_app. simpl.
        unfold Store.bySubnetSince at 2. simpl.
        destruct (String.eqb_spec subnet other) as [E|_]; [by subst other|].
        rewrite andb_false_r. simpl. apply app_nil_r.
    - split; [exact Hm1|]. intros t. by rewrite Hcol. }
  destruct Hboth as [Hm Hc]. split; [exact Hm|].
  intros now up. apply checkRateLimit_verdict_ext; [exact Hm | apply Hc].
Qed.

End Isolation.

Lemma subnet_quota_is_its_own_witness :
  rateLimitMap createdServer !! demoSubnet = rateLimitMap emptyServer !! demoSubnet
  /\ forall now up,
       (checkRateLimit now up demoSubnet createdServer).1
       = (checkRateLimit now up demoSubnet emptyServer).1.
Proof.
  apply (subnet_quota_is_its_own parseDottedQuad trimASCIISpace demoEnv
           (demoCreate "https://example.com") emptyServer createdServer
           (Shortened createdBody) demoSubnet).
  - vm_compute. reflexivity.
  - vm_compute. discriminate.
Defined.

(** ** Lengths for which [genCode] has no answer *)

Lemma one_char_one_class (code : string) :
  containsLetter code = true -> containsDigit code = true -> (2 <= String.length code)%nat.
Proof.
  destruct code as [|c [|c' code]]; simpl; try lia; try discriminate.
  destruct (isLetter c) eqn:El; [|discriminate].
  rewrite (letter_not_digit c El). discriminate.
Qed.

(** X22. [genCode] has no answer for a length below two: a code needs a
    letter and a digit.  For a negative length it panics on [make]; for the
    lengths zero and one, with [rand.Intn] in its range, it neither returns
    nor panics however long it is left to run. *)
Theorem genCode_short_lengths (rnd : nat -> Z) (n : Z) :
  n < 2 ->
  (forall fuel code, genCode rnd fuel n <> Returned code)
  /\ (n < 0 -> forall fuel, genCode rnd fuel n = Panicked)
  /\ (0 <= n -> (forall k, 0 <= rnd k < 62) -> forall fuel, genCode rnd fuel n = OutOfFuel).
Proof.
  intros Hn.
  assert (Hnever : forall fuel code, genCode rnd fuel n <> Returned code).
  { intros fuel code H.
    destruct (genCode_code_policy_parts rnd fuel n code H) as (Hl & _ & HL & HD).
    pose proof (one_char_one_class code HL HD). lia. }
  split; [exact Hnever|]. split.
  - intros Hneg fuel. unfold genCode. destruct (Z.ltb_spec n 0); [reflexivity | lia].
  - intros H0 Hr fuel.
    pose proof (genCode_in_range rnd fuel n Hr H0) as Hp.
    specialize (Hnever fuel).
    destruct (genCode rnd fuel n) as [code| |]; [by destruct (Hnever code) | done | done].
Qed.

Lemma genCode_short_lengths_witness :
  (forall fuel code, genCode alternatingSource fuel 1 <> Returned code)
  /\ (1 < 0 -> forall fuel, genCode alternatingSource fuel 1 = Panicked)
  /\ (0 <= 1 -> (forall k, 0 <= alternatingSource k < 62) ->
      forall fuel, genCode alternatingSource fuel 1 = OutOfFuel).
Proof. apply (genCode_short_lengths alternatingSource 1). lia. Defined.
